(** * Document AI layout parser: flattening, dataset writer and extractor

    A shallow embedding of [src/parser.py] (class [DocumentAILayoutParser])
    and of [src/extract_llm_dataset.py], with the properties of the
    flattening pipeline, of the batch loop, of the dataset writer and of
    the downstream extractor.

    Python values are modelled as follows.
    - [str] is a list of Unicode code points ([pystr]); [len], slicing and
      [strip] work on code points, as in CPython.
    - [int] is [Z]; [float] is carried as a rational ([Q]): the parser only
      copies floats, and the one float it computes (an average) is the
      double nearest to the rational recorded here.
    - A [dict] is an association list in insertion order with unique keys.
    - Objects that are only built and returned are trees ([value]); the
      corpus kept in [self.dataset], which the CSV export updates in place
      through aliases, lives in a store of objects ([heap]). *)

From Stdlib Require Import ZArith QArith List String Ascii Lia.
From stdpp Require Import base option list.

Set Warnings "-register-all".
Close Scope Q_scope.
Open Scope Z_scope.

(** ** Python strings *)

Definition codepoint := N.
Definition pystr := list codepoint.

(** A string literal of the source (ASCII only). *)
Definition lit (s : string) : pystr := map N_of_ascii (list_ascii_of_string s).
Arguments lit s%_string.

(** [Py_UNICODE_ISSPACE]: the characters removed by [str.strip()]. *)
Definition Py_UNICODE_ISSPACE (c : codepoint) : bool :=
  ((9 <=? c) && (c <=? 13) || (28 <=? c) && (c <=? 32)
   || (c =? 133) || (c =? 160) || (c =? 5760)
   || (8192 <=? c) && (c <=? 8202)
   || (c =? 8232) || (c =? 8233) || (c =? 8239) || (c =? 8287)
   || (c =? 12288))%N.

Fixpoint lstrip (s : pystr) : pystr :=
  match s with
  | c :: s' => if Py_UNICODE_ISSPACE c then lstrip s' else s
  | [] => []
  end.

Definition rstrip (s : pystr) : pystr := rev (lstrip (rev s)).

(** [s.strip()] *)
Definition strip (s : pystr) : pystr := rstrip (lstrip s).

(** [len(s)] *)
Definition len {A} (s : list A) : Z := Z.of_nat (length s).

(** Index adjustment of a slice with step 1 ([PySlice_AdjustIndices]):
    a negative index counts from the end, and both ends are clamped. *)
Definition adjust_index (n i : Z) : Z :=
  if i <? 0 then Z.max (i + n) 0 else Z.min i n.

(** [s[start:stop]] *)
Definition py_slice {A} (s : list A) (start stop : Z) : list A :=
  let lo := adjust_index (len s) start in
  let hi := adjust_index (len s) stop in
  firstn (Z.to_nat (hi - lo)) (skipn (Z.to_nat lo) s).

(** [os.path.basename] (POSIX): what follows the last slash. *)
Fixpoint basename_aux (p cur : pystr) : pystr :=
  match p with
  | [] => cur
  | c :: p' => if (c =? 47)%N then basename_aux p' [] else basename_aux p' (cur ++ [c])
  end.

Definition basename (p : pystr) : pystr := basename_aux p [].

(** ** Values and dictionaries *)

Inductive value :=
| VNone
| VInt (n : Z)
| VFloat (q : Q)
| VStr (s : pystr)
| VTuple (vs : list value)
| VList (vs : list value)
| VDict (kvs : list (pystr * value)).

(** [d.get(k)] on the entries of a dict. *)
Fixpoint dict_get {V} (k : pystr) (d : list (pystr * V)) : option V :=
  match d with
  | [] => None
  | (k', v) :: d' => if decide (k = k') then Some v else dict_get k d'
  end.

(** [d[k] = v]: an existing key keeps its place, a new key goes last. *)
Fixpoint dict_set {V} (k : pystr) (v : V) (d : list (pystr * V)) : list (pystr * V) :=
  match d with
  | [] => [(k, v)]
  | (k', v') :: d' =>
      if decide (k = k') then (k, v) :: d' else (k', v') :: dict_set k v d'
  end.

(** [d[k].append(x)] for a key that holds a list. *)
Fixpoint dict_append (k : pystr) (x : value) (d : list (pystr * value)) :
  list (pystr * value) :=
  match d with
  | [] => []
  | (k', v) :: d' =>
      if decide (k = k') then
        match v with
        | VList xs => (k', VList (xs ++ [x])) :: d'
        | _ => d
        end
      else (k', v) :: dict_append k x d'
  end.

(** ** The service response (the nested layout result)

    The fields are those the parser reads.  A message-valued field that
    the parser tests for truth before use is an [option] ([None]: unset);
    [start_index] and [end_index] are [None] when the attribute is unset
    or missing.  The span fields are [None] for an object that has no
    such attribute, as [hasattr] tests it; a message of the service
    always has them, and one whose span is unset has [Some 0]. *)

Record Vertex := { x : Z; y : Z }.

Record BoundingPoly := { vertices : list Vertex }.

Record TextSegment := { start_index : option Z; end_index : option Z }.

Record TextAnchor := { text_segments : list TextSegment }.

Record Layout := {
  text_anchor : option TextAnchor;
  bounding_poly : BoundingPoly;
  confidence : option Q
}.

(** A block, paragraph, line or token. *)
Record Element := { layout : option Layout }.

Record TableCell := {
  cell_layout : option Layout;
  row_span : option Z;
  col_span : option Z
}.

Record TableRow := { cells : list TableCell }.

Record Table := { header_rows : list TableRow; body_rows : list TableRow }.

Record FormField := { field_name : option Layout; field_value : option Layout }.

Record Dimension := { width : Q; height : Q }.

Record Page := {
  dimension : Dimension;
  blocks : list Element;
  paragraphs : list Element;
  lines : list Element;
  tokens : list Element;
  tables : list Table;
  form_fields : list FormField
}.

Record Document := { text : pystr; pages : list Page }.

(** ** Flattening ([_extract_layout_info] and its helpers) *)

(** [enumerate(xs)] *)
Fixpoint enumerate_from {A} (i : Z) (xs : list A) : list (Z * A) :=
  match xs with
  | [] => []
  | a :: xs' => (i, a) :: enumerate_from (i + 1) xs'
  end.

Definition enumerate {A} (xs : list A) : list (Z * A) := enumerate_from 0 xs.

(** Truth value of an offset: unset and zero are both false. *)
Definition truthy (i : option Z) : bool :=
  match i with
  | Some n => negb (n =? 0)
  | None => false
  end.

(** [int(i)] of an offset that is set. *)
Definition int (i : option Z) : Z := default 0 i.

(** [int(segment.start_index) if segment.start_index else 0] *)
Definition start_idx (segment : TextSegment) : Z :=
  if truthy (start_index segment) then int (start_index segment) else 0.

(** [int(segment.end_index) if segment.end_index else len(document_text)] *)
Definition end_idx (document_text : pystr) (segment : TextSegment) : Z :=
  if truthy (end_index segment) then int (end_index segment) else len document_text.

(** The loop [for segment in text_segments: extracted_text += ...],
    started from [extracted_text]. *)
Definition extract_segments (document_text : pystr)
    (text_segments : list TextSegment) (extracted_text : pystr) : pystr :=
  fold_left
    (fun extracted_text segment =>
       extracted_text
         ++ py_slice document_text (start_idx segment) (end_idx document_text segment))
    text_segments extracted_text.

(** [[(vertex.x, vertex.y) for vertex in bbox.vertices] if bbox.vertices else []] *)
Definition bbox_vertices (bbox : BoundingPoly) : list value :=
  match vertices bbox with
  | [] => []
  | vs => map (fun vertex => VTuple [VInt (x vertex); VInt (y vertex)]) vs
  end.

(** A float attribute that may be missing ([None] in the record). *)
Definition float_or_none (q : option Q) : value :=
  match q with
  | Some c => VFloat c
  | None => VNone
  end.

Definition _extract_text_element_info (element : Element) (document_text : pystr)
    (page_num : Z) (element_type : pystr) (element_num : Z) : value :=
  match layout element with
  | None => VDict []
  | Some element_layout =>
      let bbox := bounding_poly element_layout in
      let vertices := bbox_vertices bbox in
      let text_segments :=
        match text_anchor element_layout with
        | Some anchor => text_segments anchor
        | None => []
        end in
      let extracted_text := extract_segments document_text text_segments [] in
      VDict [
        (lit "page_number", VInt page_num);
        (lit "element_type", VStr element_type);
        (lit "element_number", VInt element_num);
        (lit "text", VStr (strip extracted_text));
        (lit "text_length", VInt (len (strip extracted_text)));
        (lit "bounding_box", VList vertices);
        (lit "confidence", float_or_none (confidence element_layout))
      ]
  end.

Definition _extract_cell_info (cell : TableCell) (document_text : pystr)
    (page_num table_num row_idx cell_idx : Z) (cell_type : pystr) : value :=
  let text_segments :=
    match cell_layout cell with
    | Some l =>
        match text_anchor l with
        | Some anchor => text_segments anchor
        | None => []
        end
    | None => []
    end in
  let extracted_text := extract_segments document_text text_segments [] in
  let bbox := option_map bounding_poly (cell_layout cell) in
  let vertices :=
    match bbox with
    | Some b => bbox_vertices b
    | None => []
    end in
  VDict [
    (lit "page_number", VInt page_num);
    (lit "table_number", VInt table_num);
    (lit "row_index", VInt row_idx);
    (lit "cell_index", VInt cell_idx);
    (lit "cell_type", VStr cell_type);
    (lit "text", VStr (strip extracted_text));
    (lit "text_length", VInt (len (strip extracted_text)));
    (lit "bounding_box", VList vertices);
    (lit "row_span", VInt (default 1 (row_span cell)));
    (lit "col_span", VInt (default 1 (col_span cell)))
  ].

(** The two nested loops over the rows of one group and their cells,
    appending to [table_info["cells"]]. *)
Definition extract_rows (document_text : pystr) (page_num table_num : Z)
    (cell_type : pystr) (rows : list TableRow)
    (table_info : list (pystr * value)) : list (pystr * value) :=
  fold_left
    (fun table_info '(row_idx, row) =>
       fold_left
         (fun table_info '(cell_idx, cell) =>
            let cell_info :=
              _extract_cell_info cell document_text page_num table_num
                row_idx cell_idx cell_type in
            dict_append (lit "cells") cell_info table_info)
         (enumerate (cells row)) table_info)
    (enumerate rows) table_info.

Definition _extract_table_info (table : Table) (document_text : pystr)
    (page_num table_num : Z) : value :=
  let table_info := [
    (lit "page_number", VInt page_num);
    (lit "table_number", VInt table_num);
    (lit "rows_count",
      VInt (match body_rows table with [] => 0 | rs => len rs end));
    (lit "header_rows_count",
      VInt (match header_rows table with [] => 0 | rs => len rs end));
    (lit "cells", VList [])
  ] in
  let table_info :=
    match header_rows table with
    | [] => table_info
    | rs => extract_rows document_text page_num table_num (lit "header") rs table_info
    end in
  let table_info :=
    match body_rows table with
    | [] => table_info
    | rs => extract_rows document_text page_num table_num (lit "body") rs table_info
    end in
  VDict table_info.

(** The loop over the segments of a form-field part, when the part and
    its text anchor are set. *)
Definition field_text (part : option Layout) (document_text : pystr) : pystr :=
  match part with
  | Some l =>
      match text_anchor l with
      | Some anchor => extract_segments document_text (text_segments anchor) []
      | None => []
      end
  | None => []
  end.

Definition _extract_form_field_info (field : FormField) (document_text : pystr)
    (page_num field_num : Z) : value :=
  VDict [
    (lit "page_number", VInt page_num);
    (lit "field_number", VInt field_num);
    (lit "field_name", VStr (strip (field_text (field_name field) document_text)));
    (lit "field_value", VStr (strip (field_text (field_value field) document_text)))
  ].

(** One [for i, item in enumerate(items): layout_data[key].append(f(item, i))]. *)
Definition extract_each {A} (key : pystr) (f : A -> Z -> value) (items : list A)
    (layout_data : list (pystr * value)) : list (pystr * value) :=
  fold_left
    (fun layout_data '(num, item) => dict_append key (f item num) layout_data)
    (enumerate items) layout_data.

(** The body of [for page_num, page in enumerate(document.pages)]. *)
Definition extract_page (document_text : pystr)
    (layout_data : list (pystr * value)) (page_num : Z) (page : Page) :
  list (pystr * value) :=
  let page_info := VDict [
    (lit "page_number", VInt (page_num + 1));
    (lit "width", VFloat (width (dimension page)));
    (lit "height", VFloat (height (dimension page)));
    (lit "blocks_count", VInt (len (blocks page)));
    (lit "paragraphs_count", VInt (len (paragraphs page)));
    (lit "lines_count", VInt (len (lines page)));
    (lit "tokens_count", VInt (len (tokens page)));
    (lit "tables_count", VInt (len (tables page)));
    (lit "form_fields_count", VInt (len (form_fields page)))
  ] in
  let layout_data := dict_append (lit "pages") page_info layout_data in
  let layout_data :=
    extract_each (lit "blocks")
      (fun block block_num =>
         _extract_text_element_info block document_text (page_num + 1) (lit "block") block_num)
      (blocks page) layout_data in
  let layout_data :=
    extract_each (lit "paragraphs")
      (fun paragraph para_num =>
         _extract_text_element_info paragraph document_text (page_num + 1)
           (lit "paragraph") para_num)
      (paragraphs page) layout_data in
  let layout_data :=
    extract_each (lit "lines")
      (fun line line_num =>
         _extract_text_element_info line document_text (page_num + 1) (lit "line") line_num)
      (lines page) layout_data in
  let layout_data :=
    extract_each (lit "tokens")
      (fun token token_num =>
         _extract_text_element_info token document_text (page_num + 1) (lit "token") token_num)
      (tokens page) layout_data in
  let layout_data :=
    extract_each (lit "tables")
      (fun table table_num =>
         _extract_table_info table document_text (page_num + 1) table_num)
      (tables page) layout_data in
  extract_each (lit "form_fields")
    (fun field field_num =>
       _extract_form_field_info field document_text (page_num + 1) field_num)
    (form_fields page) layout_data.

(** [timestamp] is [datetime.now().isoformat()] at the time of the call. *)
Definition _extract_layout_info (document : Document) (pdf_path timestamp : pystr) : value :=
  let layout_data := [
    (lit "file_path", VStr pdf_path);
    (lit "file_name", VStr (basename pdf_path));
    (lit "processing_timestamp", VStr timestamp);
    (lit "status", VStr (lit "success"));
    (lit "document_info", VDict [
       (lit "total_pages", VInt (len (pages document)));
       (lit "text_length", VInt (len (text document)))
     ]);
    (lit "pages", VList []);
    (lit "blocks", VList []);
    (lit "paragraphs", VList []);
    (lit "lines", VList []);
    (lit "tokens", VList []);
    (lit "tables", VList []);
    (lit "form_fields", VList [])
  ] in
  VDict
    (fold_left
       (fun layout_data '(page_num, page) =>
          extract_page (text document) layout_data page_num page)
       (enumerate (pages document)) layout_data).

(** ** Exceptions *)

(** An exception: its class and [str(e)]. *)
Inductive exn := Exception (class_name : string) (message : pystr).

Definition str (e : exn) : pystr :=
  match e with
  | Exception _ message => message
  end.

Inductive result (A : Type) :=
| Ok (a : A)
| Raise (e : exn).
Arguments Ok {A} a.
Arguments Raise {A} e.

#[global] Instance result_ret : MRet result := fun A a => Ok a.
#[global] Instance result_bind : MBind result := fun A B f m =>
  match m with
  | Ok a => f a
  | Raise e => Raise e
  end.

(** Errors raised by the interpreter; their messages are not modelled. *)
Definition AttributeError : exn := Exception "AttributeError" [].
Definition TypeError : exn := Exception "TypeError" [].
Definition ZeroDivisionError : exn := Exception "ZeroDivisionError" [].
Definition ValueError : exn := Exception "ValueError" [].
Definition UnicodeEncodeError : exn := Exception "UnicodeEncodeError" [].

(** ** Processing one file ([process_pdf]) *)

Section Service.

(** [os.path.exists] *)
Variable path_exists : pystr -> bool.
(** [open(pdf_path, "rb")] followed by [read()] *)
Variable read_bytes : pystr -> result (list Byte.byte).
(** [self.client.process_document(request=request).document] for the
    request built from the content of the file *)
Variable process_document : list Byte.byte -> result Document.
(** [datetime.now().isoformat()] while the given file is flattened *)
Variable clock : pystr -> pystr.

(** The body of the [try] block. *)
Definition process_pdf_try (pdf_path : pystr) : result value :=
  if negb (path_exists pdf_path) then
    Raise (Exception "FileNotFoundError" (lit "PDF file not found: " ++ pdf_path))
  else
    pdf_content ← read_bytes pdf_path;
    let file_size := len pdf_content in
    if file_size =? 0 then
      Raise (Exception "ValueError" (lit "PDF file is empty: " ++ pdf_path))
    else
      document ← process_document pdf_content;
      let layout_info := _extract_layout_info document pdf_path (clock pdf_path) in
      Ok layout_info.

Definition process_pdf (pdf_path : pystr) : value :=
  match process_pdf_try pdf_path with
  | Ok layout_info => layout_info
  | Raise e =>
      VDict [
        (lit "file_path", VStr pdf_path);
        (lit "error", VStr (str e));
        (lit "status", VStr (lit "failed"))
      ]
  end.

End Service.

(** ** The object store

    The records of [self.dataset] are reached through references: the
    loops of the writer bind a record to a variable, put it in a second
    list and assign to one of its keys, and all of these are the same
    object.  A location is an index in the store; objects are never
    freed. *)

Definition loc := nat.

Inductive hval :=
| HNone
| HInt (n : Z)
| HFloat (q : Q)
| HStr (s : pystr)
| HRef (l : loc).

Inductive hobj :=
| ODict (kvs : list (pystr * hval))
| OList (vs : list hval)
| OTuple (vs : list hval).

Abbreviation heap := (list hobj).

(** Threading the store through the items of a sequence. *)
Definition thread {A B S} (f : A -> S -> B * S) : list A -> S -> list B * S :=
  fix go xs s :=
    match xs with
    | [] => ([], s)
    | a :: xs' =>
        let '(b, s1) := f a s in
        let '(bs, s2) := go xs' s1 in
        (b :: bs, s2)
    end.

(** A new object, placed after all existing ones. *)
Definition alloc (o : hobj) (h : heap) : hval * heap := (HRef (length h), h ++ [o]).

(** Building a freshly made tree of objects in the store: every dict,
    list and tuple of the tree becomes an object of its own. *)
Fixpoint store (v : value) (h : heap) : hval * heap :=
  match v with
  | VNone => (HNone, h)
  | VInt n => (HInt n, h)
  | VFloat q => (HFloat q, h)
  | VStr s => (HStr s, h)
  | VTuple vs => let '(rs, h1) := thread store vs h in alloc (OTuple rs) h1
  | VList vs => let '(rs, h1) := thread store vs h in alloc (OList rs) h1
  | VDict kvs =>
      let '(rkvs, h1) :=
        thread (fun '(k, v) h => let '(r, h1) := store v h in ((k, r), h1)) kvs h in
      alloc (ODict rkvs) h1
  end.

(** Reading a tree back from the store, to depth [n] ([None] beyond it,
    as for a structure that contains itself). *)
Fixpoint load (n : nat) (h : heap) (r : hval) : option value :=
  match r with
  | HNone => Some VNone
  | HInt z => Some (VInt z)
  | HFloat q => Some (VFloat q)
  | HStr s => Some (VStr s)
  | HRef l =>
      match n with
      | O => None
      | S n' =>
          match h !! l with
          | Some (OTuple rs) => VTuple <$> mapM (load n' h) rs
          | Some (OList rs) => VList <$> mapM (load n' h) rs
          | Some (ODict rkvs) =>
              VDict <$> mapM (fun '(k, r) => (fun v => (k, v)) <$> load n' h r) rkvs
          | None => None
          end
      end
  end.

(** ** The batch loop ([process_all_pdfs]) *)

(** What a file holds: the corpus, the summary object, the rows handed
    to the CSV writer, or the beginning of a dump that an error broke off. *)
Inductive content :=
| JsonCorpus (docs : list value)
| JsonObject (kvs : list (pystr * hval))
| Csv (rows : list (list (pystr * hval)))
| Partial.

(** The state the methods of the parser act on: the store, the items of
    [self.dataset], and the files written so far (by path). *)
Record State := {
  objects : heap;
  dataset : list hval;
  files : list (pystr * content)
}.

(** [self.dataset.append(layout_info)] for a freshly built record. *)
Definition dataset_append (layout_info : value) (self : State) : State :=
  let '(r, h) := store layout_info (objects self) in
  {| objects := h; dataset := dataset self ++ [r]; files := files self |}.

Section Batch.

Variable path_exists : pystr -> bool.
Variable read_bytes : pystr -> result (list Byte.byte).
Variable process_document : list Byte.byte -> result Document.
Variable clock : pystr -> pystr.

(** [pdf_files] is the result of the directory listing. *)
Definition process_all_pdfs (pdf_files : list pystr) (self : State) : State :=
  fold_left
    (fun self pdf_file =>
       let layout_info :=
         process_pdf path_exists read_bytes process_document clock pdf_file in
       dataset_append layout_info self)
    pdf_files self.

End Batch.

(** ** Reading objects of the store *)

(** The entries of [d] when it is a dict. *)
Definition dict_of (h : heap) (d : hval) : option (list (pystr * hval)) :=
  match d with
  | HRef l =>
      match h !! l with
      | Some (ODict kvs) => Some kvs
      | _ => None
      end
  | _ => None
  end.

(** [d.get(k)]: [None] of the option is a missing key; a value that is
    not a dict has no [get]. *)
Definition py_get (h : heap) (d : hval) (k : pystr) : result (option hval) :=
  match dict_of h d with
  | Some kvs => Ok (dict_get k kvs)
  | None => Raise AttributeError
  end.

(** [v == s] for a string literal [s]. *)
Definition eq_str (v : option hval) (s : pystr) : bool :=
  match v with
  | Some (HStr s') => bool_decide (s' = s)
  | _ => false
  end.

(** [d.get("status") == status] *)
Definition has_status (h : heap) (status : pystr) (d : hval) : result bool :=
  v ← py_get h d (lit "status");
  Ok (eq_str v status).

(** [len(v)] *)
Definition py_len (h : heap) (v : hval) : result Z :=
  match v with
  | HStr s => Ok (len s)
  | HRef l =>
      match h !! l with
      | Some (ODict kvs) => Ok (len kvs)
      | Some (OList vs) => Ok (len vs)
      | Some (OTuple vs) => Ok (len vs)
      | None => Raise TypeError
      end
  | _ => Raise TypeError
  end.

(** The items of [for item in v]. *)
Definition py_iter (h : heap) (v : hval) : result (list hval) :=
  match v with
  | HStr s => Ok (map (fun c => HStr [c]) s)
  | HRef l =>
      match h !! l with
      | Some (ODict kvs) => Ok (map (fun kv => HStr (fst kv)) kvs)
      | Some (OList vs) => Ok vs
      | Some (OTuple vs) => Ok vs
      | None => Raise TypeError
      end
  | _ => Raise TypeError
  end.

(** [a + b] on numbers. *)
Definition py_add (a b : hval) : result hval :=
  match a, b with
  | HInt m, HInt n => Ok (HInt (m + n))
  | HInt m, HFloat q => Ok (HFloat (Qplus (inject_Z m) q))
  | HFloat p, HInt n => Ok (HFloat (Qplus p (inject_Z n)))
  | HFloat p, HFloat q => Ok (HFloat (Qplus p q))
  | _, _ => Raise TypeError
  end.

(** The value of a number. *)
Definition number (v : hval) : option Q :=
  match v with
  | HInt n => Some (inject_Z n)
  | HFloat q => Some q
  | _ => None
  end.

(** [a / b] on numbers. *)
Definition py_truediv (a b : hval) : result hval :=
  match number a, number b with
  | Some p, Some q =>
      if Qeq_bool q (inject_Z 0) then Raise ZeroDivisionError
      else Ok (HFloat (Qdiv p q))
  | _, _ => Raise TypeError
  end.

(** [os.path.join(a, b)] for a relative [b]. *)
Definition path_join (a b : pystr) : pystr :=
  match rev a with
  | [] => b
  | c :: _ => if (c =? 47)%N then a ++ b else a ++ lit "/" ++ b
  end.

(** ** Summary statistics ([_create_summary_statistics]) *)

(** [[d for d in ds if d.get("status") == status]] *)
Fixpoint with_status (h : heap) (status : pystr) (ds : list hval) : result (list hval) :=
  match ds with
  | [] => Ok []
  | d :: ds' =>
      keep ← has_status h status d;
      rest ← with_status h status ds';
      Ok (if keep : bool then d :: rest else rest)
  end.

(** [sum(f(d) for d in ds if d.get("status") == "success")], from [acc]. *)
Fixpoint sum_success (h : heap) (f : hval -> result hval) (ds : list hval) (acc : hval) :
  result hval :=
  match ds with
  | [] => Ok acc
  | d :: ds' =>
      keep ← has_status h (lit "success") d;
      if keep : bool then
        v ← f d;
        acc' ← py_add acc v;
        sum_success h f ds' acc'
      else sum_success h f ds' acc
  end.

(** [d.get("document_info", {}).get("total_pages", 0)] *)
Definition total_pages_of (h : heap) (d : hval) : result hval :=
  info ← py_get h d (lit "document_info");
  match info with
  | Some info =>
      v ← py_get h info (lit "total_pages");
      Ok (default (HInt 0) v)
  | None => Ok (HInt 0)
  end.

(** [len(d.get(key, []))] *)
Definition len_of (key : pystr) (h : heap) (d : hval) : result hval :=
  v ← py_get h d key;
  match v with
  | Some v => n ← py_len h v; Ok (HInt n)
  | None => Ok (HInt 0)
  end.

(** The summary object, before it is written. *)
Definition summary_statistics (h : heap) (ds : list hval) : result (list (pystr * hval)) :=
  successful ← with_status h (lit "success") ds;
  failed ← with_status h (lit "failed") ds;
  total_pages ← sum_success h (total_pages_of h) ds (HInt 0);
  total_blocks ← sum_success h (len_of (lit "blocks") h) ds (HInt 0);
  total_paragraphs ← sum_success h (len_of (lit "paragraphs") h) ds (HInt 0);
  total_lines ← sum_success h (len_of (lit "lines") h) ds (HInt 0);
  total_tokens ← sum_success h (len_of (lit "tokens") h) ds (HInt 0);
  total_tables ← sum_success h (len_of (lit "tables") h) ds (HInt 0);
  total_form_fields ← sum_success h (len_of (lit "form_fields") h) ds (HInt 0);
  let summary := [
    (lit "total_documents", HInt (len ds));
    (lit "successful_documents", HInt (len successful));
    (lit "failed_documents", HInt (len failed));
    (lit "total_pages", total_pages);
    (lit "average_pages_per_document", HInt 0);
    (lit "total_blocks", total_blocks);
    (lit "total_paragraphs", total_paragraphs);
    (lit "total_lines", total_lines);
    (lit "total_tokens", total_tokens);
    (lit "total_tables", total_tables);
    (lit "total_form_fields", total_form_fields)
  ] in
  if 0 <? len successful then
    average ← py_truediv total_pages (HInt (len successful));
    Ok (dict_set (lit "average_pages_per_document") average summary)
  else Ok summary.

(** ** The writer: state and errors *)

(** A method: it may change the state, and returns or raises.  The state
    reached when it raises is kept. *)
Definition M (A : Type) : Type := State -> result A * State.

#[global] Instance M_ret : MRet M := fun A a s => (Ok a, s).
#[global] Instance M_bind : MBind M := fun A B f m s =>
  match m s with
  | (Ok a, s') => f a s'
  | (Raise e, s') => (Raise e, s')
  end.

(** The current store. *)
Definition get_objects : M heap := fun s => (Ok (objects s), s).

(** The items of [self.dataset]. *)
Definition get_dataset : M (list hval) := fun s => (Ok (dataset s), s).

(** A computation that only reads. *)
Definition lift {A} (r : result A) : M A := fun s => (r, s).

(** Writing a file; an existing file of that path is replaced.  The file
    system of the model accepts every write: only what the methods
    themselves compute can make them raise, and [os.makedirs]. *)
Definition write_file (path : pystr) (c : content) : M unit := fun s =>
  (Ok (), {| objects := objects s; dataset := dataset s;
             files := dict_set path c (files s) |}).

(** [target[k] = v]: only a dict takes a string key. *)
Definition py_setitem (target : hval) (k : pystr) (v : hval) : M unit := fun s =>
  match target with
  | HRef l =>
      match objects s !! l with
      | Some (ODict kvs) =>
          (Ok (), {| objects := <[l := ODict (dict_set k v kvs)]> (objects s);
                     dataset := dataset s; files := files s |})
      | _ => (Raise TypeError, s)
      end
  | _ => (Raise TypeError, s)
  end.

Definition _create_summary_statistics (output_dir : pystr) : M unit :=
  h ← get_objects;
  ds ← get_dataset;
  summary ← lift (summary_statistics h ds);
  let summary_path := path_join output_dir (lit "dataset_summary.json") in
  write_file summary_path (JsonObject summary).

(** ** CSV export ([_export_to_csv]) *)

(** [doc_row] of the document-level table. *)
Definition doc_row (h : heap) (doc : hval) : result (list (pystr * hval)) :=
  file_name ← py_get h doc (lit "file_name");
  file_path ← py_get h doc (lit "file_path");
  total_pages ← total_pages_of h doc;
  info ← py_get h doc (lit "document_info");
  text_length ←
    match info with
    | Some info => v ← py_get h info (lit "text_length"); Ok (default (HInt 0) v)
    | None => Ok (HInt 0)
    end;
  blocks_count ← len_of (lit "blocks") h doc;
  paragraphs_count ← len_of (lit "paragraphs") h doc;
  lines_count ← len_of (lit "lines") h doc;
  tokens_count ← len_of (lit "tokens") h doc;
  tables_count ← len_of (lit "tables") h doc;
  form_fields_count ← len_of (lit "form_fields") h doc;
  Ok [
    (lit "file_name", default (HStr []) file_name);
    (lit "file_path", default (HStr []) file_path);
    (lit "total_pages", total_pages);
    (lit "text_length", text_length);
    (lit "blocks_count", blocks_count);
    (lit "paragraphs_count", paragraphs_count);
    (lit "lines_count", lines_count);
    (lit "tokens_count", tokens_count);
    (lit "tables_count", tables_count);
    (lit "form_fields_count", form_fields_count)
  ].

(** The inner loop over one document, for [key] one of ["blocks"] and
    ["tables"]:
    [for item in doc.get(key, []): item["file_name"] = doc.get("file_name", "")],
    returning the items it appends to the list of rows.  Each [item] is
    the object in the store, not a copy. *)
Definition attach_file_name (key : pystr) (doc : hval) : M (list hval) :=
  h ← get_objects;
  items ← lift (v ← py_get h doc key;
                match v with
                | Some v => py_iter h v
                | None => Ok []
                end);
  mapM (fun item =>
          h ← get_objects;
          file_name ← lift (py_get h doc (lit "file_name"));
          py_setitem item (lit "file_name") (default (HStr []) file_name);;
          mret item)
       items.

(** The outer loop over the successful documents. *)
Definition attach_all (key : pystr) (successful_docs : list hval) : M (list hval) :=
  rows ← mapM (attach_file_name key) successful_docs;
  mret (concat rows).

(** The rows a table is built from: the entries of each dict, as they
    are when the table is built. *)
Definition rows_of (h : heap) (items : list hval) : list (list (pystr * hval)) :=
  omap (dict_of h) items.

(** The three tables.  The only caller is [save_dataset], which comes
    here after the corpus dump has encoded every string of the same
    records; writing the tables is taken not to fail. *)
Definition _export_to_csv (output_dir : pystr) : M unit :=
  h ← get_objects;
  ds ← get_dataset;
  successful_docs ← lift (with_status h (lit "success") ds);
  doc_data ← lift (mapM (doc_row h) successful_docs);
  (match doc_data with
   | [] => mret ()
   | _ => write_file (path_join output_dir (lit "documents_summary.csv")) (Csv doc_data)
   end);;
  all_blocks ← attach_all (lit "blocks") successful_docs;
  (match all_blocks with
   | [] => mret ()
   | _ =>
       h ← get_objects;
       write_file (path_join output_dir (lit "blocks.csv")) (Csv (rows_of h all_blocks))
   end);;
  all_tables ← attach_all (lit "tables") successful_docs;
  match all_tables with
  | [] => mret ()
  | _ =>
      h ← get_objects;
      write_file (path_join output_dir (lit "tables.csv")) (Csv (rows_of h all_tables))
  end.

(** ** Saving ([save_dataset]) *)

(** A surrogate code point: a string that holds one cannot be encoded
    as UTF-8. *)
Definition is_surrogate (c : codepoint) : bool := (55296 <=? c)%N && (c <=? 57343)%N.

Definition encodable (s : pystr) : bool := forallb (fun c => negb (is_surrogate c)) s.

(** Every string of the tree, key or value, can be encoded. *)
Fixpoint json_encodable (v : value) : bool :=
  match v with
  | VStr s => encodable s
  | VTuple vs => forallb json_encodable vs
  | VList vs => forallb json_encodable vs
  | VDict kvs => forallb (fun '(k, v) => encodable k && json_encodable v) kvs
  | _ => true
  end.

(** The encoder of [json.dump(..., ensure_ascii=False)] on the object
    [r], writing into a file opened with [encoding='utf-8']: it walks the
    object in order and stops at the first error, which is a
    [UnicodeEncodeError] at a string with a surrogate and a [ValueError]
    at a container that contains itself (met here when the depth [n]
    is used up).  What it returns is the tree it has written. *)
Fixpoint dump (n : nat) (h : heap) (r : hval) : result value :=
  match r with
  | HNone => Ok VNone
  | HInt z => Ok (VInt z)
  | HFloat q => Ok (VFloat q)
  | HStr s => if encodable s then Ok (VStr s) else Raise UnicodeEncodeError
  | HRef l =>
      match n with
      | O => Raise ValueError
      | S n' =>
          match h !! l with
          | Some (OTuple rs) => vs ← mapM (dump n' h) rs; Ok (VTuple vs)
          | Some (OList rs) => vs ← mapM (dump n' h) rs; Ok (VList vs)
          | Some (ODict rkvs) =>
              kvs ← mapM (fun '(k, r) =>
                            if encodable k then v ← dump n' h r; Ok (k, v)
                            else Raise UnicodeEncodeError) rkvs;
              Ok (VDict kvs)
          | None => Raise ValueError
          end
      end
  end.

(** [with open(json_path, 'w', encoding='utf-8') as f:
       json.dump(self.dataset, f, indent=2, ensure_ascii=False)]:
    opening the file creates or empties it; when the encoder raises, the
    file is left with what was written until then. *)
Definition dump_dataset (output_dir : pystr) : M unit :=
  h ← get_objects;
  ds ← get_dataset;
  let json_path := path_join output_dir (lit "layout_dataset.json") in
  match mapM (dump (S (length h)) h) ds with
  | Ok docs => write_file json_path (JsonCorpus docs)
  | Raise e => write_file json_path Partial;; lift (Raise e)
  end.

Section Saving.

(** [os.makedirs(output_dir, exist_ok=True)]: whether the operating
    system makes (or finds) the directory, or raises. *)
Variable makedirs : pystr -> result unit.

Definition save_dataset (output_dir : pystr) : M unit :=
  lift (makedirs output_dir);;
  dump_dataset output_dir;;
  _create_summary_statistics output_dir;;
  _export_to_csv output_dir.

End Saving.

(** ** The downstream extractor ([extract_llm_dataset.main])

    The dataset is what [json.load] returns for the corpus file: a tree
    of dicts, lists, strings and numbers. *)

(** [d.get(k)] on a tree. *)
Definition v_get (d : value) (k : pystr) : result (option value) :=
  match d with
  | VDict kvs => Ok (dict_get k kvs)
  | _ => Raise AttributeError
  end.

(** [len(v)] on a tree. *)
Definition v_len (v : value) : result Z :=
  match v with
  | VStr s => Ok (len s)
  | VTuple vs => Ok (len vs)
  | VList vs => Ok (len vs)
  | VDict kvs => Ok (len kvs)
  | _ => Raise TypeError
  end.

(** The items of [for item in v] on a tree. *)
Definition v_iter (v : value) : result (list value) :=
  match v with
  | VStr s => Ok (map (fun c => VStr [c]) s)
  | VTuple vs => Ok vs
  | VList vs => Ok vs
  | VDict kvs => Ok (map (fun kv => VStr (fst kv)) kvs)
  | _ => Raise TypeError
  end.

(** [paragraph.get('text', '').strip()] *)
Definition paragraph_text (paragraph : value) : result pystr :=
  v ← v_get paragraph (lit "text");
  match default (VStr []) v with
  | VStr s => Ok (strip s)
  | _ => Raise AttributeError
  end.

(** The loop [for paragraph in doc_paragraphs], appending to [paragraphs]. *)
Fixpoint extract_doc_paragraphs (min_length : Z) (doc_paragraphs : list value)
    (paragraphs : list value) : result (list value) :=
  match doc_paragraphs with
  | [] => Ok paragraphs
  | paragraph :: rest =>
      text ← paragraph_text paragraph;
      if min_length <=? len text then
        extract_doc_paragraphs min_length rest
          (paragraphs ++ [VDict [(lit "text", VStr text)]])
      else extract_doc_paragraphs min_length rest paragraphs
  end.

(** The loop [for doc in dataset], on the pair of [paragraphs] and
    [total_paragraphs]. *)
Fixpoint extract_docs (min_length : Z) (docs : list value)
    (acc : list value * Z) : result (list value * Z) :=
  match docs with
  | [] => Ok acc
  | doc :: rest =>
      status ← v_get doc (lit "status");
      match status with
      | Some (VStr s) =>
          if bool_decide (s = lit "success") then
            found ← v_get doc (lit "paragraphs");
            let doc_paragraphs := default (VList []) found in
            n ← v_len doc_paragraphs;
            items ← v_iter doc_paragraphs;
            paragraphs ← extract_doc_paragraphs min_length items (fst acc);
            extract_docs min_length rest (paragraphs, snd acc + n)
          else extract_docs min_length rest acc
      | _ => extract_docs min_length rest acc
      end
  end.

(** The lines of the output file, each the object given to [json.dump];
    [None] when no file is written.  [dataset_file] is the parsed content
    of the corpus file, [None] when the file does not exist. *)
Definition extract_llm_dataset (min_length : Z) (dataset_file : option value) :
  result (option (list value)) :=
  match dataset_file with
  | None => Ok None
  | Some dataset =>
      docs ← v_iter dataset;
      '(paragraphs, total_paragraphs) ← extract_docs min_length docs ([], 0);
      match paragraphs with
      | [] => Ok None
      | _ => Ok (Some paragraphs)
      end
  end.

Definition main (dataset_file : option value) : result (option (list value)) :=
  let min_length := 50 in
  extract_llm_dataset min_length dataset_file.

(** ** Reading records, and the statements' vocabulary *)

(** The value under key [k] of a record. *)
Definition v_field (k : pystr) (v : value) : option value :=
  match v with
  | VDict kvs => dict_get k kvs
  | _ => None
  end.

(** The segments an element's text is taken from. *)
Definition segments_of (l : option Layout) : list TextSegment :=
  match l with
  | Some l' =>
      match text_anchor l' with
      | Some anchor => text_segments anchor
      | None => []
      end
  | None => []
  end.

(** In the words of the specification: the start of a span is 0 when the
    offset is zero or unset, its end is the length of the text when the
    offset is zero or unset, and the span is the slice between them. *)
Definition span_start (segment : TextSegment) : Z :=
  match start_index segment with
  | None => 0
  | Some i => if i =? 0 then 0 else i
  end.

Definition span_end (document_text : pystr) (segment : TextSegment) : Z :=
  match end_index segment with
  | None => len document_text
  | Some i => if i =? 0 then len document_text else i
  end.

Definition span (document_text : pystr) (segment : TextSegment) : pystr :=
  py_slice document_text (span_start segment) (span_end document_text segment).

(** The concatenation of the spans of a segment list, in order. *)
Definition spans (document_text : pystr) (segments : list TextSegment) : pystr :=
  concat (map (span document_text) segments).

(** The number of items of the list under [k]. *)
Definition len_field (k : pystr) (record : value) : option Z :=
  match v_field k record with
  | Some (VList items) => Some (len items)
  | _ => None
  end.

(** The sum of the integer field [k] over a list of records. *)
Fixpoint sum_field (k : pystr) (records : list value) : option Z :=
  match records with
  | [] => Some 0
  | r :: rest =>
      match v_field k r, sum_field k rest with
      | Some (VInt n), Some m => Some (n + m)
      | _, _ => None
      end
  end.

(** The child list [list_key] of a document record has as many items as
    the per-page counts [count_key] of its page summaries add up to. *)
Definition counts_agree (list_key count_key : pystr) (D : value) : Prop :=
  exists (page_infos : list value) (n : Z),
    v_field (lit "pages") D = Some (VList page_infos) /\
    len_field list_key D = Some n /\
    sum_field count_key page_infos = Some n.

(** The cell records of one group of rows, row by row and, in a row,
    column by column. *)
Definition group_cells (document_text : pystr) (page_num table_num : Z)
    (cell_type : pystr) (rows : list TableRow) : list value :=
  flat_map
    (fun '(row_idx, row) =>
       map (fun '(cell_idx, cell) =>
              _extract_cell_info cell document_text page_num table_num
                row_idx cell_idx cell_type)
           (enumerate (cells row)))
    (enumerate rows).

(** The corpus as read from the store ([None] when some record cannot be
    read back). *)
Definition corpus (s : State) : option (list value) :=
  mapM (load (S (length (objects s))) (objects s)) (dataset s).

(** The record of a file whose processing raised [e]. *)
Definition failure_record (pdf_path : pystr) (e : exn) : value :=
  VDict [
    (lit "file_path", VStr pdf_path);
    (lit "error", VStr (str e));
    (lit "status", VStr (lit "failed"))
  ].

(** In the words of the specification of the extractor. *)
Definition is_successful (doc : value) : bool :=
  match v_field (lit "status") doc with
  | Some (VStr s) => bool_decide (s = lit "success")
  | _ => false
  end.

Definition paragraphs_of (doc : value) : list value :=
  match v_field (lit "paragraphs") doc with
  | Some (VList ps) => ps
  | _ => []
  end.

Definition trimmed_text (paragraph : value) : pystr :=
  match v_field (lit "text") paragraph with
  | Some (VStr s) => strip s
  | _ => []
  end.

(** The records of the paragraphs of [doc] whose trimmed text has at
    least [min_length] characters, in the order of the document. *)
Definition long_paragraphs (min_length : Z) (ps : list value) : list value :=
  map (fun p => VDict [(lit "text", VStr (trimmed_text p))])
      (List.filter (fun p => min_length <=? len (trimmed_text p)) ps).

(** ... over the successful documents, in the order of the corpus. *)
Definition expected_records (min_length : Z) (docs : list value) : list value :=
  flat_map
    (fun doc => if is_successful doc then long_paragraphs min_length (paragraphs_of doc) else [])
    docs.

(** A paragraph record as the parser writes it: a dict whose text, when
    present, is a string. *)
Definition wf_paragraph (p : value) : bool :=
  match p with
  | VDict kvs =>
      match dict_get (lit "text") kvs with
      | None | Some (VStr _) => true
      | _ => false
      end
  | _ => false
  end.

(** A document record as the parser writes it: a dict whose paragraphs,
    when it is successful and has any, are a list of paragraph records. *)
Definition wf_doc (doc : value) : bool :=
  match doc with
  | VDict kvs =>
      if is_successful doc then
        match dict_get (lit "paragraphs") kvs with
        | None => true
        | Some (VList ps) => forallb wf_paragraph ps
        | _ => false
        end
      else true
  | _ => false
  end.

(** A document record the summary can be computed from: a dict which,
    when it is successful, has a number of pages that is a number and
    child collections that have a length (each of them may be missing). *)
Definition doc_ok (h : heap) (d : hval) : bool :=
  match dict_of h d with
  | None => false
  | Some kvs =>
      if eq_str (dict_get (lit "status") kvs) (lit "success") then
        let sized k :=
          match dict_get k kvs with
          | None => true
          | Some v => match py_len h v with Ok _ => true | Raise _ => false end
          end in
        match dict_get (lit "document_info") kvs with
        | None => true
        | Some info =>
            match dict_of h info with
            | Some fields =>
                match dict_get (lit "total_pages") fields with
                | None => true
                | Some v => bool_decide (is_Some (number v))
                end
            | None => false
            end
        end
        && sized (lit "blocks") && sized (lit "paragraphs") && sized (lit "lines")
        && sized (lit "tokens") && sized (lit "tables") && sized (lit "form_fields")
      else true
  end.

(** ** What the writer may change *)

(** The records the CSV export attaches a file name to: the items of the
    ["blocks"] and ["tables"] collections of the successful documents of
    the corpus [ds], in the store [h]. *)
Definition targets (h : heap) (ds : list hval) (l : loc) : Prop :=
  exists doc key v items,
    In doc ds /\
    has_status h (lit "success") doc = Ok true /\
    (key = lit "blocks" \/ key = lit "tables") /\
    py_get h doc key = Ok (Some v) /\
    py_iter h v = Ok items /\
    In (HRef l) items.

(** From [h] to [h']: no object is added or removed, and an object that
    differs is a dict of [T] whose ["file_name"] was assigned. *)
Definition changed_only (T : loc -> Prop) (h h' : heap) : Prop :=
  length h' = length h /\
  forall l,
    h' !! l = h !! l \/
    (T l /\ exists kvs v,
        h !! l = Some (ODict kvs) /\
        h' !! l = Some (ODict (dict_set (lit "file_name") v kvs))).

(** ** A sample run

    One page with a block, a paragraph and a table; a file system and a
    service in which one file is missing, one is unreadable, one is empty
    and one is refused by the service. *)

Definition sample_layout (segments : list TextSegment) : Layout :=
  {| text_anchor := Some {| text_segments := segments |};
     bounding_poly := {| vertices := [ {| x := 0; y := 0 |}; {| x := 10; y := 4 |} ] |};
     confidence := Some (Qmake 9 10) |}.

Definition sample_cell (i j : Z) : TableCell :=
  {| cell_layout := Some (sample_layout [ {| start_index := Some i; end_index := Some j |} ]);
     row_span := Some 1;
     col_span := Some 1 |}.

Definition sample_document : Document :=
  {| text := lit "Hello world ab cd";
     pages := [
       {| dimension := {| width := inject_Z 612; height := inject_Z 792 |};
          blocks := [ {| layout := Some (sample_layout
                           [ {| start_index := None; end_index := Some 12 |} ]) |};
                      {| layout := None |} ];
          paragraphs := [ {| layout := Some (sample_layout
                               [ {| start_index := Some 0; end_index := Some 5 |};
                                 {| start_index := Some 5; end_index := Some 11 |} ]) |} ];
          lines := [];
          tokens := [];
          tables := [ {| header_rows := [ {| cells := [sample_cell 12 14] |} ];
                         body_rows := [ {| cells := [sample_cell 15 17] |} ] |} ];
          form_fields := [] |} ] |}.

Definition sample_exists (p : pystr) : bool :=
  negb (bool_decide (p = lit "pdfs/missing.pdf")).

Definition sample_read (p : pystr) : result (list Byte.byte) :=
  if bool_decide (p = lit "pdfs/locked.pdf") then
    Raise (Exception "PermissionError" (lit "[Errno 13] Permission denied"))
  else if bool_decide (p = lit "pdfs/empty.pdf") then Ok []
  else if bool_decide (p = lit "pdfs/scan.pdf") then Ok [Byte.x00]
  else Ok [Byte.x25; Byte.x50; Byte.x44; Byte.x46].

Definition sample_service (content : list Byte.byte) : result Document :=
  match content with
  | [Byte.x00] => Raise (Exception "InvalidArgument" (lit "400 Document is not a PDF"))
  | _ => Ok sample_document
  end.

Definition sample_clock (p : pystr) : pystr := lit "2024-05-01T10:00:00".

(** A file system in which the output directory can be made. *)
Definition sample_makedirs (output_dir : pystr) : result unit := Ok ().

Definition empty_state : State := {| objects := []; dataset := []; files := [] |}.

Definition sample_files : list pystr :=
  [lit "pdfs/a.pdf"; lit "pdfs/missing.pdf"; lit "pdfs/locked.pdf";
   lit "pdfs/empty.pdf"; lit "pdfs/scan.pdf"].

(** The state after the batch loop over the sample files. *)
Definition sample_state : State :=
  process_all_pdfs sample_exists sample_read sample_service sample_clock
    sample_files empty_state.

(** The first block record of the first document of a corpus. *)
Definition first_block (c : option (list value)) : option value :=
  docs ← c;
  doc ← head docs;
  bs ← v_field (lit "blocks") doc;
  match bs with
  | VList (b :: _) => Some b
  | _ => None
  end.

(** The sample run through the service. *)
Definition sample_process_pdf : pystr -> value :=
  process_pdf sample_exists sample_read sample_service sample_clock.

(** The summary of the sample corpus. *)
Definition sample_summary : result (list (pystr * hval)) :=
  Eval vm_compute in summary_statistics (objects sample_state) (dataset sample_state).

(** The invariant of the writer, from the store [h0] and the corpus
    [ds0] it starts from: the corpus is the same list, and the store has
    changed only as [changed_only] allows. *)
Definition invariant (T : loc -> Prop) (h0 : heap) (ds0 : list hval) (s : State) : Prop :=
  changed_only T h0 (objects s) /\ dataset s = ds0.

(** A method keeps the invariant, whether it returns or raises, and
    returns only values that satisfy [Q]. *)
Definition keeps (T : loc -> Prop) (h0 : heap) (ds0 : list hval)
    {A} (m : M A) (Q : A -> Prop) : Prop :=
  forall s, invariant T h0 ds0 s ->
            invariant T h0 ds0 (snd (m s)) /\ forall a, fst (m s) = Ok a -> Q a.

(** A record that is a dict. *)
Definition is_dict (v : value) : bool :=
  match v with
  | VDict _ => true
  | _ => false
  end.

(** [doc["status"] == status] on a tree. *)
Definition status_is (status : pystr) (doc : value) : bool :=
  match v_field (lit "status") doc with
  | Some (VStr s) => bool_decide (s = status)
  | _ => false
  end.

(** [doc_ok] on a tree: a dict which, when it is successful, has a number
    of pages that is a number and child collections that have a length
    (each of them may be missing). *)
Definition doc_ok_tree (doc : value) : bool :=
  match doc with
  | VDict kvs =>
      if status_is (lit "success") doc then
        let sized k :=
          match dict_get k kvs with
          | None | Some (VStr _) | Some (VTuple _) | Some (VList _) | Some (VDict _) => true
          | _ => false
          end in
        match dict_get (lit "document_info") kvs with
        | None => true
        | Some (VDict fields) =>
            match dict_get (lit "total_pages") fields with
            | None | Some (VInt _) | Some (VFloat _) => true
            | _ => false
            end
        | _ => false
        end
        && sized (lit "blocks") && sized (lit "paragraphs") && sized (lit "lines")
        && sized (lit "tokens") && sized (lit "tables") && sized (lit "form_fields")
      else true
  | _ => false
  end.

(** The fields of the summary of the sample corpus. *)
Definition sample_summary_fields : list (pystr * hval) :=
  Eval vm_compute in
    match sample_summary with
    | Ok summary => summary
    | Raise _ => []
    end.

(** Whether a computation returned. *)
Definition returned {A} (r : result A) : bool :=
  match r with
  | Ok _ => true
  | Raise _ => false
  end.

(** ** The viewer's request handler ([interface/launch.py]) *)

(** [path.split('/')[-1]]: what follows the last slash. *)
Definition last_component (path : pystr) : pystr := basename_aux path [].

(** [s.rstrip('/')] *)
Fixpoint lstrip_slashes (s : pystr) : pystr :=
  match s with
  | c :: s' => if (c =? 47)%N then lstrip_slashes s' else s
  | [] => []
  end.

Definition rstrip_slashes (s : pystr) : pystr := rev (lstrip_slashes (rev s)).

(** ['.' in s] *)
Definition has_dot (s : pystr) : bool := existsb (fun c => (c =? 46)%N) s.

(** The path [CustomHTTPRequestHandler.do_GET] hands to the file server
    for the requested [path]; [file_exists] is [os.path.exists]. *)
Definition do_GET_path (file_exists : pystr -> bool) (path : pystr) : pystr :=
  if bool_decide (path = lit "/") || bool_decide (path = []) then
    lit "/interface/index.html"
  else if negb (has_dot (last_component path)) then
    let test_path := rstrip_slashes path ++ lit ".html" in
    if file_exists (lit "." ++ test_path) then test_path else path
  else path.

(** ** Auxiliary definitions of the proofs *)

(** The records one loop appends. *)
Definition each_from {A} (f : A -> Z -> value) (i : Z) (items : list A) : list value :=
  map (fun '(num, item) => f item num) (enumerate_from i items).

(** The seven lists of a layout record under construction. *)
Record lists := {
  l_pages : list value; l_blocks : list value; l_paragraphs : list value;
  l_lines : list value; l_tokens : list value; l_tables : list value;
  l_form_fields : list value
}.

Definition holds (d : list (pystr * value)) (ls : lists) : Prop :=
  dict_get (lit "pages") d = Some (VList (l_pages ls)) /\
  dict_get (lit "blocks") d = Some (VList (l_blocks ls)) /\
  dict_get (lit "paragraphs") d = Some (VList (l_paragraphs ls)) /\
  dict_get (lit "lines") d = Some (VList (l_lines ls)) /\
  dict_get (lit "tokens") d = Some (VList (l_tokens ls)) /\
  dict_get (lit "tables") d = Some (VList (l_tables ls)) /\
  dict_get (lit "form_fields") d = Some (VList (l_form_fields ls)) /\
  dict_get (lit "status") d = Some (VStr (lit "success")).

Definition page_summary (page_num : Z) (page : Page) : value :=
  VDict [
    (lit "page_number", VInt (page_num + 1));
    (lit "width", VFloat (width (dimension page)));
    (lit "height", VFloat (height (dimension page)));
    (lit "blocks_count", VInt (len (blocks page)));
    (lit "paragraphs_count", VInt (len (paragraphs page)));
    (lit "lines_count", VInt (len (lines page)));
    (lit "tokens_count", VInt (len (tokens page)));
    (lit "tables_count", VInt (len (tables page)));
    (lit "form_fields_count", VInt (len (form_fields page)))
  ].

(** The records of one kind of child, over the pages from number [i]. *)
Definition children_of {A} (sel : Page -> list A) (f : Z -> A -> Z -> value)
    (i : Z) (pages : list Page) : list value :=
  flat_map (fun '(n, p) => each_from (f (n + 1)) 0 (sel p)) (enumerate_from i pages).

Definition text_element (document_text element_type : pystr) (page_num : Z)
    (element : Element) (num : Z) : value :=
  _extract_text_element_info element document_text page_num element_type num.

Definition table_record (document_text : pystr) (page_num : Z) (table : Table) (num : Z) :=
  _extract_table_info table document_text page_num num.

Definition field_record (document_text : pystr) (page_num : Z) (field : FormField) (num : Z) :=
  _extract_form_field_info field document_text page_num num.

Definition lists_from (document_text : pystr) (i : Z) (pages : list Page) (ls : lists) : lists :=
  {| l_pages := l_pages ls ++ map (fun '(n, p) => page_summary n p) (enumerate_from i pages);
     l_blocks := l_blocks ls
       ++ children_of blocks (text_element document_text (lit "block")) i pages;
     l_paragraphs := l_paragraphs ls
       ++ children_of paragraphs (text_element document_text (lit "paragraph")) i pages;
     l_lines := l_lines ls
       ++ children_of lines (text_element document_text (lit "line")) i pages;
     l_tokens := l_tokens ls
       ++ children_of tokens (text_element document_text (lit "token")) i pages;
     l_tables := l_tables ls ++ children_of tables (table_record document_text) i pages;
     l_form_fields := l_form_fields ls
       ++ children_of form_fields (field_record document_text) i pages |}.

Definition no_lists : lists :=
  {| l_pages := []; l_blocks := []; l_paragraphs := []; l_lines := [];
     l_tokens := []; l_tables := []; l_form_fields := [] |}.

(** The number of children of one kind over all pages. *)
Definition total {A} (sel : Page -> list A) (pages : list Page) : Z :=
  fold_right (fun p acc => len (sel p) + acc) 0 pages.

(** The nesting depth of a tree: the fuel that reads it back. *)
Fixpoint depth (v : value) : nat :=
  match v with
  | VTuple vs => S (list_max (map depth vs))
  | VList vs => S (list_max (map depth vs))
  | VDict kvs => S (list_max (map (fun kv => depth (snd kv)) kvs))
  | _ => O
  end.

(** What storing a tree does: it only adds objects, at least as many as
    the tree is deep, and the tree is read back from the result and from
    any store that extends it. *)
Definition stores_well (v : value) : Prop :=
  forall h, exists objs,
    snd (store v h) = h ++ objs /\
    (depth v <= length objs)%nat /\
    forall n more, (depth v <= n)%nat ->
      load n (h ++ objs ++ more) (fst (store v h)) = Some v.

(** What reading the store can raise. *)
Definition read_error (e : exn) : Prop := e = AttributeError \/ e = TypeError.


(** A string that stripping leaves as it is, with no white space at its
    ends. *)
Definition stripped (t : pystr) : Prop :=
  strip t = t /\
  match head t with Some c => Py_UNICODE_ISSPACE c = false | None => True end /\
  match head (rev t) with Some c => Py_UNICODE_ISSPACE c = false | None => True end.

(** A segment of the given offsets. *)
Definition segment (a b : Z) : TextSegment :=
  {| start_index := Some a; end_index := Some b |}.

(** The keys of a layout record that hold the lists the loops append to. *)
Definition list_keys : list pystr :=
  [lit "pages"; lit "blocks"; lit "paragraphs"; lit "lines"; lit "tokens";
   lit "tables"; lit "form_fields"].

(** A line of the extractor: one field, a stripped text of at least
    [min_length] characters. *)
Definition good_line (min_length : Z) (line : value) : Prop :=
  exists t, line = VDict [(lit "text", VStr t)] /\ min_length <= len t /\ stripped t.

(** The files [save_dataset] writes in [output_dir]. *)
Definition output_files (output_dir : pystr) : list pystr :=
  map (path_join output_dir)
    [lit "layout_dataset.json"; lit "dataset_summary.json";
     lit "documents_summary.csv"; lit "blocks.csv"; lit "tables.csv"].

(** A method writes files of [W] only, whether it returns or raises. *)
Definition writes_only (W : pystr -> Prop) {A} (m : M A) : Prop :=
  forall s p, ~ W p -> dict_get p (files (snd (m s))) = dict_get p (files s).

(** [name] is [doc.get("file_name", "")] for a successful document of
    the corpus [ds] in the store [h]. *)
Definition file_name_of (h : heap) (ds : list hval) (name : hval) : Prop :=
  exists doc v,
    In doc ds /\ has_status h (lit "success") doc = Ok true /\
    py_get h doc (lit "file_name") = Ok v /\ name = default (HStr []) v.

(** From [h] to [h']: an object that differs is a dict whose
    ["file_name"] was assigned a value of [V]. *)
Definition renamed (V : hval -> Prop) (h h' : heap) : Prop :=
  length h' = length h /\
  forall l : loc,
    h' !! l = h !! l \/
    exists kvs v, V v /\ h !! l = Some (ODict kvs) /\
                  h' !! l = Some (ODict (dict_set (lit "file_name") v kvs)).

(** The object at [l] is a dict whose ["file_name"] is a value of [V]. *)
Definition named (V : hval -> Prop) (h : heap) (l : loc) : Prop :=
  exists kvs v, h !! l = Some (ODict kvs) /\
                dict_get (lit "file_name") kvs = Some v /\ V v.

(** The items of [doc.get(key)] that are objects. *)
Definition items_of (h : heap) (key : pystr) (doc : hval) (l : loc) : Prop :=
  exists v items,
    py_get h doc key = Ok (Some v) /\ py_iter h v = Ok items /\ In (HRef l) items.

(** [item] is a dict of the store. *)
Definition is_record (h : heap) (item : hval) : bool :=
  match dict_of h item with
  | Some _ => true
  | None => false
  end.

(** [v], the value of a collection field, is missing or a list of dicts. *)
Definition records_list (h : heap) (v : option hval) : bool :=
  match v with
  | None => true
  | Some (HRef l) =>
      match h !! l with
      | Some (OList items) => forallb (is_record h) items
      | _ => false
      end
  | Some _ => false
  end.

(** A document record the tables can be exported from: one the summary
    can be computed from which, when it is successful, has lists of dicts
    as its blocks and tables. *)
Definition export_ready (h : heap) (d : hval) : bool :=
  doc_ok h d &&
  match dict_of h d with
  | Some kvs =>
      if eq_str (dict_get (lit "status") kvs) (lit "success") then
        records_list h (dict_get (lit "blocks") kvs)
        && records_list h (dict_get (lit "tables") kvs)
      else true
  | None => false
  end.

(** The same on trees. *)
Definition records_list_tree (v : option value) : bool :=
  match v with
  | None => true
  | Some (VList items) => forallb is_dict items
  | Some _ => false
  end.

Definition export_ready_tree (doc : value) : bool :=
  doc_ok_tree doc &&
  match doc with
  | VDict kvs =>
      if status_is (lit "success") doc then
        records_list_tree (dict_get (lit "blocks") kvs)
        && records_list_tree (dict_get (lit "tables") kvs)
      else true
  | _ => false
  end.

(** The method returns from [s], with a result and a state of [Q]. *)
Definition returns {A} (m : M A) (s : State) (Q : A -> State -> Prop) : Prop :=
  exists a s', m s = (Ok a, s') /\ Q a s'.

(** What [json.load] reads back from what [json.dump] wrote for a tree
    of dicts with string keys, lists, tuples, strings and numbers: the
    same tree, with every tuple read back as a list. *)
Fixpoint json_image (v : value) : value :=
  match v with
  | VTuple vs => VList (map json_image vs)
  | VList vs => VList (map json_image vs)
  | VDict kvs => VDict (map (fun '(k, v) => (k, json_image v)) kvs)
  | _ => v
  end.

(** * Properties *)

Lemma extract_segments_app document_text segments acc :
  extract_segments document_text segments acc = acc ++ spans document_text segments.
Proof.
  revert acc. induction segments as [|seg segs IH]; intros acc; simpl.
  - unfold spans. simpl. by rewrite app_nil_r.
  - unfold extract_segments in *. simpl. rewrite IH. unfold spans. simpl.
    rewrite <- app_assoc. f_equal. f_equal.
    unfold span, start_idx, end_idx, span_start, span_end, truthy, int.
    destruct (start_index seg) as [i|], (end_index seg) as [j|]; simpl;
      try destruct (i =? 0) eqn:Hi; try destruct (j =? 0) eqn:Hj; simpl; auto.
Qed.

Lemma lit_ne a b : bool_decide (lit a = lit b) = false -> lit a <> lit b.
Proof. intros H E. by rewrite bool_decide_eq_false in H. Qed.

Ltac key_ne := apply lit_ne; vm_compute; reflexivity.

Lemma dict_append_same k x d xs :
  dict_get k d = Some (VList xs) ->
  dict_get k (dict_append k x d) = Some (VList (xs ++ [x])).
Proof.
  induction d as [|[k' v] d IH]; simpl; [done|].
  destruct (decide (k = k')) as [->|Hne].
  - intros [= ->]. simpl. by rewrite decide_True.
  - intros H. simpl. rewrite decide_False by done. auto.
Qed.

Lemma dict_append_other k k' x d :
  k <> k' -> dict_get k' (dict_append k x d) = dict_get k' d.
Proof.
  intros Hne. induction d as [|[k0 v] d IH]; simpl; [done|].
  destruct (decide (k = k0)) as [->|Hne0].
  - destruct v; simpl; rewrite ?decide_False by done; done.
  - simpl. destruct (decide (k' = k0)); auto.
Qed.

Lemma fold_append_same {A} key (f : A -> Z -> value) (l : list (Z * A)) d xs :
  dict_get key d = Some (VList xs) ->
  dict_get key (fold_left (fun d '(num, item) => dict_append key (f item num) d) l d)
  = Some (VList (xs ++ map (fun '(num, item) => f item num) l)).
Proof.
  revert d xs. induction l as [|[n a] l IH]; intros d xs H; simpl.
  - by rewrite app_nil_r.
  - rewrite (IH _ (xs ++ [f a n])).
    + by rewrite <- app_assoc.
    + by apply dict_append_same.
Qed.

Lemma fold_append_other {A} key key' (f : A -> Z -> value) (l : list (Z * A)) d :
  key <> key' ->
  dict_get key' (fold_left (fun d '(num, item) => dict_append key (f item num) d) l d)
  = dict_get key' d.
Proof.
  intros Hne. revert d. induction l as [|[n a] l IH]; intros d; simpl; [done|].
  rewrite IH. by apply dict_append_other.
Qed.

Lemma extract_each_same {A} key (f : A -> Z -> value) items d xs :
  dict_get key d = Some (VList xs) ->
  dict_get key (extract_each key f items d) = Some (VList (xs ++ each_from f 0 items)).
Proof. apply fold_append_same. Qed.

Lemma extract_each_other {A} key key' (f : A -> Z -> value) items d :
  key <> key' ->
  dict_get key' (extract_each key f items d) = dict_get key' d.
Proof. apply fold_append_other. Qed.

Lemma length_enumerate_from {A} i (xs : list A) : length (enumerate_from i xs) = length xs.
Proof. revert i. induction xs; intros; simpl; auto. Qed.

Lemma len_each_from {A} (f : A -> Z -> value) i items : len (each_from f i items) = len items.
Proof. unfold len, each_from. by rewrite length_map, length_enumerate_from. Qed.

Lemma len_app {A} (xs ys : list A) : len (xs ++ ys) = len xs + len ys.
Proof. unfold len. rewrite length_app. lia. Qed.

Ltac through :=
  repeat first [ rewrite extract_each_other by key_ne
               | rewrite dict_append_other by key_ne ].

Lemma extract_page_holds document_text d page_num page ls :
  holds d ls ->
  holds (extract_page document_text d page_num page)
        (lists_from document_text page_num [page] ls).
Proof.
  intros (Hp & Hb & Hpa & Hl & Ht & Hta & Hf & Hs).
  unfold extract_page, holds, lists_from, children_of; cbn [enumerate_from flat_map map
    l_pages l_blocks l_paragraphs l_lines l_tokens l_tables l_form_fields].
  rewrite !app_nil_r.
  repeat split; through.
  - by apply dict_append_same.
  - erewrite extract_each_same; [reflexivity|]. by through.
  - erewrite extract_each_same; [reflexivity|]. by through.
  - erewrite extract_each_same; [reflexivity|]. by through.
  - erewrite extract_each_same; [reflexivity|]. by through.
  - erewrite extract_each_same; [reflexivity|]. by through.
  - erewrite extract_each_same; [reflexivity|]. by through.
  - done.
Qed.

Lemma lists_from_cons document_text i page pages ls :
  lists_from document_text i (page :: pages) ls
  = lists_from document_text (i + 1) pages (lists_from document_text i [page] ls).
Proof.
  unfold lists_from, children_of; cbn [enumerate_from flat_map map
    l_pages l_blocks l_paragraphs l_lines l_tokens l_tables l_form_fields].
  rewrite !app_nil_r, <- !app_assoc. reflexivity.
Qed.

Lemma extract_pages_holds document_text pages : forall i d ls,
  holds d ls ->
  holds (fold_left (fun layout_data '(page_num, page) =>
                      extract_page document_text layout_data page_num page)
                   (enumerate_from i pages) d)
        (lists_from document_text i pages ls).
Proof.
  induction pages as [|page pages IH]; intros i d ls H.
  - simpl. destruct ls. unfold lists_from, children_of. simpl. by rewrite !app_nil_r.
  - rewrite lists_from_cons. simpl. apply IH. by apply extract_page_holds.
Qed.

Lemma _extract_layout_info_holds document pdf_path timestamp :
  exists d, _extract_layout_info document pdf_path timestamp = VDict d /\
            holds d (lists_from (text document) 0 (pages document) no_lists).
Proof.
  eexists. split; [reflexivity|]. apply extract_pages_holds.
  repeat split.
Qed.

Lemma len_children_of {A} (sel : Page -> list A) f pages : forall i,
  len (children_of sel f i pages) = total sel pages.
Proof.
  induction pages as [|p pages IH]; intros i; [reflexivity|].
  unfold children_of in *. simpl. rewrite len_app, len_each_from, IH. reflexivity.
Qed.

Lemma sum_field_page_summaries {A} (sel : Page -> list A) key pages :
  (forall n p, v_field key (page_summary n p) = Some (VInt (len (sel p)))) ->
  forall i, sum_field key (map (fun '(n, p) => page_summary n p) (enumerate_from i pages))
            = Some (total sel pages).
Proof.
  intros Hkey. induction pages as [|p pages IH]; intros i; [reflexivity|].
  cbn [enumerate_from map sum_field]. rewrite Hkey, IH. reflexivity.
Qed.

Lemma flatten_counts_agree document pdf_path timestamp :
  let D := _extract_layout_info document pdf_path timestamp in
  v_field (lit "status") D = Some (VStr (lit "success")) /\
  counts_agree (lit "blocks") (lit "blocks_count") D /\
  counts_agree (lit "paragraphs") (lit "paragraphs_count") D /\
  counts_agree (lit "lines") (lit "lines_count") D /\
  counts_agree (lit "tokens") (lit "tokens_count") D /\
  counts_agree (lit "tables") (lit "tables_count") D /\
  counts_agree (lit "form_fields") (lit "form_fields_count") D.
Proof.
  destruct (_extract_layout_info_holds document pdf_path timestamp)
    as (d & -> & Hp & Hb & Hpa & Hl & Ht & Hta & Hf & Hs).
  cbn [lists_from no_lists l_pages l_blocks l_paragraphs l_lines l_tokens l_tables
       l_form_fields app] in *.
  cbv zeta. split; [exact Hs|].
  unfold counts_agree, len_field, v_field.
  rewrite Hp, Hb, Hpa, Hl, Ht, Hta, Hf.
  repeat split; eexists _, _; (split; [reflexivity|]);
    (split; [rewrite len_children_of; reflexivity|]);
    apply sum_field_page_summaries; reflexivity.
Qed.

Lemma process_pdf_try_ok path_exists read_bytes process_document clock pdf_path v :
  process_pdf_try path_exists read_bytes process_document clock pdf_path = Ok v ->
  exists document, v = _extract_layout_info document pdf_path (clock pdf_path).
Proof.
  unfold process_pdf_try.
  destruct (path_exists pdf_path); simpl; [|discriminate].
  destruct (read_bytes pdf_path) as [content|e]; simpl; [|discriminate].
  destruct (len content =? 0); [discriminate|].
  destruct (process_document content) as [document|e]; simpl; [|discriminate].
  intros [= <-]. by exists document.
Qed.

(** Claim C3.  In a document record with status "success" that
    processing a file returns, each of the six child lists has as many
    items as the counts of that kind in the page summaries add up to. *)
Theorem successful_record_counts path_exists read_bytes process_document clock pdf_path :
  let D := process_pdf path_exists read_bytes process_document clock pdf_path in
  v_field (lit "status") D = Some (VStr (lit "success")) ->
  counts_agree (lit "blocks") (lit "blocks_count") D /\
  counts_agree (lit "paragraphs") (lit "paragraphs_count") D /\
  counts_agree (lit "lines") (lit "lines_count") D /\
  counts_agree (lit "tokens") (lit "tokens_count") D /\
  counts_agree (lit "tables") (lit "tables_count") D /\
  counts_agree (lit "form_fields") (lit "form_fields_count") D.
Proof.
  cbv zeta. unfold process_pdf.
  destruct (process_pdf_try _ _ _ _ _) as [v|e] eqn:Htry.
  - apply process_pdf_try_ok in Htry as [document ->]. intros _.
    apply flatten_counts_agree.
  - intros H. vm_compute in H. discriminate.
Qed.

Lemma extract_rows_cells document_text page_num table_num cell_type rows : forall i d xs,
  dict_get (lit "cells") d = Some (VList xs) ->
  dict_get (lit "cells")
    (fold_left
       (fun table_info '(row_idx, row) =>
          fold_left
            (fun table_info '(cell_idx, cell) =>
               dict_append (lit "cells")
                 (_extract_cell_info cell document_text page_num table_num
                    row_idx cell_idx cell_type) table_info)
            (enumerate (cells row)) table_info)
       (enumerate_from i rows) d)
  = Some (VList (xs ++ flat_map
       (fun '(row_idx, row) =>
          map (fun '(cell_idx, cell) =>
                 _extract_cell_info cell document_text page_num table_num
                   row_idx cell_idx cell_type)
              (enumerate (cells row)))
       (enumerate_from i rows))).
Proof.
  induction rows as [|row rows IH]; intros i d xs H; simpl.
  - by rewrite app_nil_r.
  - erewrite IH.
    + by rewrite <- app_assoc.
    + apply (fold_append_same (lit "cells")
               (fun cell cell_idx => _extract_cell_info cell document_text page_num
                                       table_num i cell_idx cell_type)).
      exact H.
Qed.

Lemma extract_rows_group document_text page_num table_num cell_type rows d xs :
  dict_get (lit "cells") d = Some (VList xs) ->
  dict_get (lit "cells") (extract_rows document_text page_num table_num cell_type rows d)
  = Some (VList (xs ++ group_cells document_text page_num table_num cell_type rows)).
Proof. apply extract_rows_cells. Qed.

Lemma _extract_table_info_cells table document_text page_num table_num :
  v_field (lit "cells") (_extract_table_info table document_text page_num table_num)
  = Some (VList (group_cells document_text page_num table_num (lit "header") (header_rows table)
                 ++ group_cells document_text page_num table_num (lit "body") (body_rows table))).
Proof.
  unfold _extract_table_info, v_field.
  set (info0 := [_; _; _; _; _]).
  assert (H0 : dict_get (lit "cells") info0 = Some (VList [])) by reflexivity.
  destruct (header_rows table) as [|hr hrs]; destruct (body_rows table) as [|br brs].
  - exact H0.
  - by rewrite (extract_rows_group _ _ _ _ _ _ []).
  - rewrite (extract_rows_group _ _ _ _ _ _ []) by exact H0. by rewrite app_nil_r.
  - rewrite (extract_rows_group _ _ _ _ _ _
               (group_cells document_text page_num table_num (lit "header") (hr :: hrs))).
    + reflexivity.
    + by rewrite (extract_rows_group _ _ _ _ _ _ []).
Qed.

Lemma enumerate_from_lookup {A} (xs : list A) : forall (i : Z) (k : nat) (a : A),
  xs !! k = Some a -> enumerate_from i xs !! k = Some (i + Z.of_nat k, a).
Proof.
  induction xs as [|b xs IH]; intros i k a H; [done|].
  destruct k as [|k]; simpl in *.
  - injection H as ->. do 2 f_equal. lia.
  - rewrite (IH (i + 1) k a H). do 2 f_equal. lia.
Qed.

Lemma enumerate_lookup {A} (xs : list A) (k : nat) (a : A) :
  xs !! k = Some a -> enumerate xs !! k = Some (Z.of_nat k, a).
Proof. intros H. unfold enumerate. by rewrite (enumerate_from_lookup xs 0 k a H). Qed.

Lemma group_cells_elem document_text page_num table_num cell_type rows
    (r c : nat) row cell :
  rows !! r = Some row -> cells row !! c = Some cell ->
  In (_extract_cell_info cell document_text page_num table_num
        (Z.of_nat r) (Z.of_nat c) cell_type)
     (group_cells document_text page_num table_num cell_type rows).
Proof.
  intros Hr Hc. unfold group_cells. apply in_flat_map.
  exists (Z.of_nat r, row). split.
  - apply list_elem_of_In, list_elem_of_lookup. exists r.
    by apply enumerate_lookup.
  - apply in_map_iff. exists (Z.of_nat c, cell). split; [done|].
    apply list_elem_of_In, list_elem_of_lookup. exists c.
    by apply enumerate_lookup.
Qed.

Lemma len_group_cells document_text page_num table_num cell_type rows :
  len (group_cells document_text page_num table_num cell_type rows)
  = fold_right (fun row acc => len (cells row) + acc) 0 rows.
Proof.
  unfold group_cells, enumerate.
  enough (forall i,
    len (flat_map
           (fun '(row_idx, row) =>
              map (fun '(cell_idx, cell) =>
                     _extract_cell_info cell document_text page_num table_num
                       row_idx cell_idx cell_type)
                  (enumerate_from 0 (cells row)))
           (enumerate_from i rows))
    = fold_right (fun row acc => len (cells row) + acc) 0 rows) by auto.
  induction rows as [|row rows IH]; intros i; [reflexivity|].
  simpl. rewrite len_app, IH. f_equal.
  unfold len. by rewrite length_map, length_enumerate_from.
Qed.

Lemma py_slice_lookup {A} (s : list A) (a b : Z) (i : nat) :
  0 <= a -> a <= b -> b <= len s ->
  py_slice s a b !! i
  = if decide (Z.of_nat i < b - a) then s !! (Z.to_nat a + i)%nat else None.
Proof.
  intros Ha Hab Hb. unfold py_slice, adjust_index.
  destruct (Z.ltb_spec a 0); [lia|]. destruct (Z.ltb_spec b 0); [lia|].
  rewrite !Z.min_l by lia.
  destruct (decide (Z.of_nat i < b - a)).
  - rewrite lookup_take_lt by lia. by rewrite lookup_drop.
  - apply lookup_take_ge. lia.
Qed.

Lemma length_py_slice {A} (s : list A) (a b : Z) :
  0 <= a -> a <= b -> b <= len s -> len (py_slice s a b) = b - a.
Proof.
  intros Ha Hab Hb. unfold py_slice, adjust_index, len in *.
  destruct (Z.ltb_spec a 0); [lia|]. destruct (Z.ltb_spec b 0); [lia|].
  rewrite !Z.min_l by lia. rewrite length_take, length_drop. lia.
Qed.

(** Induction on trees, with the hypothesis for every item of a
    tuple or list and every value of a dict. *)
Lemma value_nested_ind (P : value -> Prop) :
  P VNone ->
  (forall n, P (VInt n)) ->
  (forall q, P (VFloat q)) ->
  (forall s, P (VStr s)) ->
  (forall vs, Forall P vs -> P (VTuple vs)) ->
  (forall vs, Forall P vs -> P (VList vs)) ->
  (forall kvs, Forall (fun kv => P (snd kv)) kvs -> P (VDict kvs)) ->
  forall v, P v.
Proof.
  intros HNone' HInt' HFloat' HStr' HTuple' HList' HDict'.
  fix IH 1. intros [ | n | q | s | vs | vs | kvs ].
  - exact HNone'.
  - apply HInt'.
  - apply HFloat'.
  - apply HStr'.
  - apply HTuple'. induction vs as [|a vs IHvs]; constructor; [apply IH|exact IHvs].
  - apply HList'. induction vs as [|a vs IHvs]; constructor; [apply IH|exact IHvs].
  - apply HDict'. induction kvs as [|[k a] kvs IHkvs]; constructor; [apply IH|exact IHkvs].
Qed.

Lemma thread_reads_back {A B} (f : A -> heap -> B * heap) (d : A -> nat)
    (ld : nat -> heap -> B -> option A) (xs : list A) :
  Forall (fun a => forall h, exists objs,
            snd (f a h) = h ++ objs /\
            (d a <= length objs)%nat /\
            forall n more, (d a <= n)%nat ->
              ld n (h ++ objs ++ more) (fst (f a h)) = Some a) xs ->
  forall h, exists objs,
    snd (thread f xs h) = h ++ objs /\
    (list_max (map d xs) <= length objs)%nat /\
    forall n more, (list_max (map d xs) <= n)%nat ->
      mapM (ld n (h ++ objs ++ more)) (fst (thread f xs h)) = Some xs.
Proof.
  induction 1 as [|a xs Ha _ IH]; intros h.
  - exists []. simpl. rewrite app_nil_r. repeat split; auto.
  - destruct (Ha h) as (objs1 & E1 & D1 & L1).
    simpl. destruct (f a h) as [b s1]. simpl in E1, L1. subst s1.
    destruct (IH (h ++ objs1)) as (objs2 & E2 & D2 & L2).
    destruct (thread f xs (h ++ objs1)) as [bs s2]. simpl in E2, L2. subst s2.
    exists (objs1 ++ objs2). simpl. rewrite length_app, <- !app_assoc.
    split; [done|]. split; [lia|].
    intros n more Hn.
    specialize (L1 n (objs2 ++ more)). specialize (L2 n more).
    rewrite <- !app_assoc in L2 |- *. rewrite L1 by lia. simpl. rewrite L2 by lia. done.
Qed.

Lemma store_alloc (o : hobj) (h : heap) (objs : list hobj) (more : list hobj) :
  (h ++ (objs ++ [o]) ++ more) !! length (h ++ objs) = Some o.
Proof.
  rewrite <- !app_assoc, (app_assoc h objs).
  rewrite lookup_app_r by lia. by rewrite Nat.sub_diag.
Qed.

Lemma store_stores_well (v : value) : stores_well v.
Proof.
  revert v. apply (value_nested_ind stores_well);
    [intros h|intros n h|intros q h|intros s h|intros vs IH h|intros vs IH h|intros kvs IH h];
    try (exists []; simpl; rewrite app_nil_r; repeat split; auto;
         intros [|?] ? _; reflexivity).
  - destruct (thread_reads_back store depth load vs IH h) as (objs & E & D & L).
    simpl. destruct (thread store vs h) as [rs h1]. simpl in E, L. subst h1.
    exists (objs ++ [OTuple rs]). unfold alloc. simpl.
    rewrite length_app, app_assoc. simpl. split; [done|]. split; [lia|].
    intros [|n] more Hn; [lia|]. simpl.
    rewrite store_alloc. specialize (L n ([OTuple rs] ++ more)).
    rewrite <- !app_assoc. rewrite L by lia. done.
  - destruct (thread_reads_back store depth load vs IH h) as (objs & E & D & L).
    simpl. destruct (thread store vs h) as [rs h1]. simpl in E, L. subst h1.
    exists (objs ++ [OList rs]). unfold alloc. simpl.
    rewrite length_app, app_assoc. simpl. split; [done|]. split; [lia|].
    intros [|n] more Hn; [lia|]. simpl.
    rewrite store_alloc. specialize (L n ([OList rs] ++ more)).
    rewrite <- !app_assoc. rewrite L by lia. done.
  - pose (f := fun '((k, v) : pystr * value) (h : heap) =>
                 let '(r, h1) := store v h in ((k, r), h1)).
    pose (ld := fun (n : nat) (h : heap) '((k, r) : pystr * hval) =>
                  (fun v => (k, v)) <$> load n h r).
    destruct (thread_reads_back f (fun kv => depth (snd kv)) ld kvs) with (h := h)
      as (objs & E & D & L).
    { eapply Forall_impl; [exact IH|]. intros [k v] Hv h0. simpl in Hv.
      destruct (Hv h0) as (objs & E & D & L). exists objs. unfold f, ld. simpl.
      destruct (store v h0) as [r h1]. simpl in *. split; [done|]. split; [done|].
      intros n more Hn. by rewrite L. }
    simpl. fold f. destruct (thread f kvs h) as [rkvs h1]. simpl in E, L. subst h1.
    exists (objs ++ [ODict rkvs]). unfold alloc. simpl.
    rewrite length_app, app_assoc. simpl. split; [done|]. split; [lia|].
    intros [|n] more Hn; [lia|]. simpl.
    rewrite store_alloc. specialize (L n ([ODict rkvs] ++ more)).
    rewrite <- !app_assoc. fold (ld n (h ++ objs ++ [ODict rkvs] ++ more)).
    rewrite L by lia. done.
Qed.

(** More fuel and more objects do not change what is read. *)
Lemma load_mono (n : nat) (h : heap) : forall (r : hval) (v : value),
  load n h r = Some v ->
  forall (m : nat) (more : heap), (n <= m)%nat -> load m (h ++ more) r = Some v.
Proof.
  induction n as [|n IH]; intros r v H m more Hm.
  - destruct r; simpl in H; try discriminate; destruct m; exact H.
  - destruct m as [|m]; [lia|].
    destruct r as [| | | |l]; try exact H.
    simpl in H |- *.
    destruct (h !! l) as [o|] eqn:Hl; [|discriminate].
    rewrite (lookup_app_l_Some _ _ _ _ Hl).
    destruct o as [rkvs|rs|rs].
    + apply fmap_Some in H as (kvs & Hk & ->).
      apply fmap_Some. exists kvs. split; [|done].
      apply mapM_Some. apply mapM_Some in Hk.
      eapply Forall2_impl; [exact Hk|].
      intros [k r] kv Hkv. simpl in *.
      apply fmap_Some in Hkv as (v & Hv & ->).
      apply fmap_Some. exists v. split; [|done]. apply IH; [done|lia].
    + apply fmap_Some in H as (vs & Hk & ->).
      apply fmap_Some. exists vs. split; [|done].
      apply mapM_Some. apply mapM_Some in Hk.
      eapply Forall2_impl; [exact Hk|].
      intros r v Hv. apply IH; [done|lia].
    + apply fmap_Some in H as (vs & Hk & ->).
      apply fmap_Some. exists vs. split; [|done].
      apply mapM_Some. apply mapM_Some in Hk.
      eapply Forall2_impl; [exact Hk|].
      intros r v Hv. apply IH; [done|lia].
Qed.

Lemma corpus_dataset_append (v : value) (s : State) (docs : list value) :
  corpus s = Some docs -> corpus (dataset_append v s) = Some (docs ++ [v]).
Proof.
  unfold corpus, dataset_append. intros H.
  destruct (store_stores_well v (objects s)) as (objs & E & D & L).
  destruct (store v (objects s)) as [r h']. simpl in E, L. subst h'.
  cbn [objects dataset].
  apply mapM_Some. apply mapM_Some in H.
  apply Forall2_app.
  - eapply Forall2_impl; [exact H|]. intros r0 v0 H0.
    apply (load_mono _ _ _ _ H0). rewrite length_app. lia.
  - constructor; [|constructor].
    specialize (L (S (length (objects s ++ objs))) []).
    rewrite app_nil_r in L. apply L. rewrite length_app. lia.
Qed.

Section Batch_facts.
Variable path_exists : pystr -> bool.
Variable read_bytes : pystr -> result (list Byte.byte).
Variable process_document : list Byte.byte -> result Document.
Variable clock : pystr -> pystr.

Let process_pdf' := process_pdf path_exists read_bytes process_document clock.
Let process_all_pdfs' := process_all_pdfs path_exists read_bytes process_document clock.

Lemma corpus_process_all_pdfs (pdf_files : list pystr) : forall (self : State) docs,
  corpus self = Some docs ->
  corpus (process_all_pdfs' pdf_files self) = Some (docs ++ map process_pdf' pdf_files).
Proof.
  induction pdf_files as [|f fs IH]; intros self docs H; simpl.
  - by rewrite app_nil_r.
  - unfold process_all_pdfs', process_all_pdfs in *. simpl.
    erewrite IH; [|apply corpus_dataset_append; exact H].
    by rewrite <- app_assoc.
Qed.

Lemma files_process_all_pdfs (pdf_files : list pystr) : forall (self : State),
  files (process_all_pdfs' pdf_files self) = files self.
Proof.
  induction pdf_files as [|f fs IH]; intros self; [done|].
  unfold process_all_pdfs', process_all_pdfs in *. simpl. rewrite IH.
  unfold dataset_append. by destruct (store _ _).
Qed.

(** Claim C7.  Whatever is raised while a file is processed (a missing
    file, a file that cannot be read, an empty file, a failure of the
    service) is turned into a failure record with the path, the
    message and the status "failed"; and the batch loop adds one
    record per file to the corpus, in the order of the files, whether
    the file failed or not. *)
Theorem batch_turns_errors_into_failure_records :
  (forall pdf_path e,
      process_pdf_try path_exists read_bytes process_document clock pdf_path = Raise e ->
      process_pdf' pdf_path = failure_record pdf_path e) /\
  (forall pdf_path,
      path_exists pdf_path = false ->
      process_pdf' pdf_path
      = failure_record pdf_path
          (Exception "FileNotFoundError" (lit "PDF file not found: " ++ pdf_path))) /\
  (forall pdf_path e,
      path_exists pdf_path = true ->
      read_bytes pdf_path = Raise e ->
      process_pdf' pdf_path = failure_record pdf_path e) /\
  (forall pdf_path,
      path_exists pdf_path = true ->
      read_bytes pdf_path = Ok [] ->
      process_pdf' pdf_path
      = failure_record pdf_path
          (Exception "ValueError" (lit "PDF file is empty: " ++ pdf_path))) /\
  (forall pdf_path b content e,
      path_exists pdf_path = true ->
      read_bytes pdf_path = Ok (b :: content) ->
      process_document (b :: content) = Raise e ->
      process_pdf' pdf_path = failure_record pdf_path e) /\
  (forall pdf_files self docs,
      corpus self = Some docs ->
      corpus (process_all_pdfs' pdf_files self) = Some (docs ++ map process_pdf' pdf_files)).
Proof.
  unfold process_pdf', process_pdf, process_pdf_try.
  split; [|split; [|split; [|split; [|split]]]].
  - intros pdf_path e H. unfold process_pdf_try in H. by rewrite H.
  - intros pdf_path H. by rewrite H.
  - intros pdf_path e H1 H2. by rewrite H1, H2.
  - intros pdf_path H1 H2. by rewrite H1, H2.
  - intros pdf_path b content e H1 H2 H3. rewrite H1, H2.
    cbn [negb mbind result_bind].
    destruct (Z.eqb_spec (len (b :: content)) 0) as [E|_].
    + unfold len in E. simpl length in E. lia.
    + by rewrite H3.
  - apply corpus_process_all_pdfs.
Qed.
End Batch_facts.

Lemma read_error_not_zero_division e : read_error e -> e <> ZeroDivisionError.
Proof. intros [-> | ->]; discriminate. Qed.

Lemma py_get_raises h d k e : py_get h d k = Raise e -> read_error e.
Proof. unfold py_get. destruct (dict_of h d); intros [= <-]. by left. Qed.

Lemma has_status_raises h s d e : has_status h s d = Raise e -> read_error e.
Proof.
  unfold has_status. destruct (py_get h d (lit "status")) eqn:E; simpl; [discriminate|].
  intros [= <-]. by eapply py_get_raises.
Qed.

Lemma with_status_raises h s ds e : with_status h s ds = Raise e -> read_error e.
Proof.
  induction ds as [|d ds IH]; simpl; [discriminate|].
  destruct (has_status h s d) eqn:E; simpl.
  - destruct (with_status h s ds); simpl; [discriminate|]. intros [= <-]. by apply IH.
  - intros [= <-]. by eapply has_status_raises.
Qed.

Lemma py_len_raises h v e : py_len h v = Raise e -> read_error e.
Proof.
  unfold py_len. destruct v as [| | | |l]; try (intros [= <-]; by right).
  destruct (h !! l) as [[]|]; intros [= <-]. by right.
Qed.

Lemma py_add_raises a b e : py_add a b = Raise e -> read_error e.
Proof. destruct a, b; simpl; intros [= <-]; by right. Qed.

Lemma total_pages_of_raises h d e : total_pages_of h d = Raise e -> read_error e.
Proof.
  unfold total_pages_of. destruct (py_get h d (lit "document_info")) as [[info|]|] eqn:E; simpl.
  - destruct (py_get h info (lit "total_pages")) eqn:E'; simpl; [discriminate|].
    intros [= <-]. by eapply py_get_raises.
  - discriminate.
  - intros [= <-]. by eapply py_get_raises.
Qed.

Lemma len_of_raises key h d e : len_of key h d = Raise e -> read_error e.
Proof.
  unfold len_of. destruct (py_get h d key) as [[v|]|] eqn:E; simpl.
  - destruct (py_len h v) eqn:E'; simpl; [discriminate|].
    intros [= <-]. by eapply py_len_raises.
  - discriminate.
  - intros [= <-]. by eapply py_get_raises.
Qed.

Lemma sum_success_raises h f ds e :
  (forall d e, f d = Raise e -> read_error e) ->
  forall acc, sum_success h f ds acc = Raise e -> read_error e.
Proof.
  intros Hf. induction ds as [|d ds IH]; intros acc; simpl; [discriminate|].
  destruct (has_status h (lit "success") d) as [[]|] eqn:E; simpl.
  - destruct (f d) as [v|] eqn:Ef; simpl.
    + destruct (py_add acc v) eqn:Ea; simpl; [apply IH|].
      intros [= <-]. by eapply py_add_raises.
    + intros [= <-]. by eapply Hf.
  - apply IH.
  - intros [= <-]. by eapply has_status_raises.
Qed.

Lemma py_truediv_positive total n e :
  0 < n -> py_truediv total (HInt n) = Raise e -> read_error e.
Proof.
  intros Hn. unfold py_truediv. destruct (number total) as [p|]; simpl.
  - destruct (Qeq_bool (inject_Z n) (inject_Z 0)) eqn:E; [|discriminate].
    apply Qeq_bool_iff in E. unfold Qeq in E. simpl in E. lia.
  - intros [= <-]. by right.
Qed.

Lemma py_truediv_value total n average :
  py_truediv total (HInt n) = Ok average ->
  exists q, number total = Some q /\ average = HFloat (Qdiv q (inject_Z n)).
Proof.
  unfold py_truediv. destruct (number total) as [p|]; simpl; [|discriminate].
  destruct (Qeq_bool _ _); [discriminate|]. intros [= <-]. by exists p.
Qed.

Ltac bind_ok H x E :=
  match type of H with
  | mbind _ ?m = Ok _ => destruct m as [x|] eqn:E; [|discriminate]; cbn [mbind result_bind] in H
  end.

Ltac bind_raise H x E :=
  match type of H with
  | mbind _ ?m = Raise _ =>
      destruct m as [x|] eqn:E; cbn [mbind result_bind] in H;
      [|injection H as <-]
  end.

Lemma summary_statistics_raises h ds e :
  summary_statistics h ds = Raise e -> read_error e.
Proof.
  unfold summary_statistics. intros H.
  bind_raise H successful E1; [|by eapply with_status_raises].
  bind_raise H failed E2; [|by eapply with_status_raises].
  bind_raise H total_pages E3;
    [|eapply sum_success_raises; [|exact E3]; apply total_pages_of_raises].
  bind_raise H b1 E4; [|eapply sum_success_raises; [|exact E4]; apply len_of_raises].
  bind_raise H b2 E5; [|eapply sum_success_raises; [|exact E5]; apply len_of_raises].
  bind_raise H b3 E6; [|eapply sum_success_raises; [|exact E6]; apply len_of_raises].
  bind_raise H b4 E7; [|eapply sum_success_raises; [|exact E7]; apply len_of_raises].
  bind_raise H b5 E8; [|eapply sum_success_raises; [|exact E8]; apply len_of_raises].
  bind_raise H b6 E9; [|eapply sum_success_raises; [|exact E9]; apply len_of_raises].
  cbv zeta in H. destruct (Z.ltb_spec 0 (len successful)); [|discriminate].
  bind_raise H average E10; [discriminate|]. by eapply py_truediv_positive.
Qed.

Lemma summary_statistics_value h ds summary :
  summary_statistics h ds = Ok summary ->
  exists successful total_pages,
    with_status h (lit "success") ds = Ok successful /\
    sum_success h (total_pages_of h) ds (HInt 0) = Ok total_pages /\
    dict_get (lit "successful_documents") summary = Some (HInt (len successful)) /\
    dict_get (lit "total_pages") summary = Some total_pages /\
    (len successful = 0 ->
     dict_get (lit "average_pages_per_document") summary = Some (HInt 0)) /\
    (len successful <> 0 ->
     exists q, number total_pages = Some q /\
               dict_get (lit "average_pages_per_document") summary
               = Some (HFloat (Qdiv q (inject_Z (len successful))))).
Proof.
  unfold summary_statistics. intros H.
  bind_ok H successful E1. bind_ok H failed E2. bind_ok H total_pages E3.
  bind_ok H b1 E4. bind_ok H b2 E5. bind_ok H b3 E6. bind_ok H b4 E7.
  bind_ok H b5 E8. bind_ok H b6 E9.
  exists successful, total_pages. split; [done|]. split; [done|].
  cbv zeta in H. destruct (Z.ltb_spec 0 (len successful)) as [Hpos|Hle].
  - bind_ok H average E10. injection H as <-.
    apply py_truediv_value in E10 as (q & Hq & ->).
    repeat split; [lia|]. intros _. by exists q.
  - injection H as <-. repeat split.
    intros Hne. unfold len in *. lia.
Qed.

Lemma doc_ok_dict h d : doc_ok h d = true -> exists kvs, dict_of h d = Some kvs.
Proof. unfold doc_ok. destruct (dict_of h d); [eauto|discriminate]. Qed.

Lemma doc_ok_has_status h s d :
  doc_ok h d = true -> exists b, has_status h s d = Ok b.
Proof.
  intros (kvs & E)%doc_ok_dict. unfold has_status, py_get. rewrite E. simpl. eauto.
Qed.

Lemma with_status_ok h s ds :
  forallb (doc_ok h) ds = true -> exists kept, with_status h s ds = Ok kept.
Proof.
  induction ds as [|d ds IH]; simpl; [eauto|].
  intros [Hd Hds]%andb_prop.
  destruct (doc_ok_has_status h s d Hd) as [b ->]. destruct (IH Hds) as [kept ->].
  simpl. eauto.
Qed.

Lemma py_add_numbers a b :
  is_Some (number a) -> is_Some (number b) ->
  exists c, py_add a b = Ok c /\ is_Some (number c).
Proof.
  destruct a, b; simpl; intros [? ?] [? ?]; try discriminate; eauto.
Qed.

Lemma sum_success_ok h f ds :
  forallb (doc_ok h) ds = true ->
  (forall d, doc_ok h d = true -> has_status h (lit "success") d = Ok true ->
             exists v, f d = Ok v /\ is_Some (number v)) ->
  forall acc, is_Some (number acc) ->
  exists v, sum_success h f ds acc = Ok v /\ is_Some (number v).
Proof.
  intros Hds Hf. induction ds as [|d ds IH]; intros acc Hacc; simpl; [eauto|].
  apply andb_prop in Hds as [Hd Hds].
  destruct (doc_ok_has_status h (lit "success") d Hd) as [[] E]; rewrite E; simpl.
  - destruct (Hf d Hd E) as (v & -> & Hv). simpl.
    destruct (py_add_numbers acc v Hacc Hv) as (c & -> & Hc). simpl. by apply IH.
  - by apply IH.
Qed.

Lemma doc_ok_success h d :
  doc_ok h d = true -> has_status h (lit "success") d = Ok true ->
  exists kvs,
    dict_of h d = Some kvs /\
    (match dict_get (lit "document_info") kvs with
     | None => true
     | Some info =>
         match dict_of h info with
         | Some fields =>
             match dict_get (lit "total_pages") fields with
             | None => true
             | Some v => bool_decide (is_Some (number v))
             end
         | None => false
         end
     end = true) /\
    (forall k, In k [lit "blocks"; lit "paragraphs"; lit "lines"; lit "tokens";
                     lit "tables"; lit "form_fields"] ->
       match dict_get k kvs with
       | None => true
       | Some v => match py_len h v with Ok _ => true | Raise _ => false end
       end = true).
Proof.
  unfold doc_ok, has_status, py_get. destruct (dict_of h d) as [kvs|]; [|discriminate].
  simpl. intros H [= E]. rewrite E in H.
  repeat (apply andb_prop in H as [H ?]).
  exists kvs. split; [done|]. split; [done|].
  intros k Hk. simpl in Hk.
  repeat (destruct Hk as [<-|Hk]; [assumption|]). done.
Qed.

Lemma total_pages_of_ok h d :
  doc_ok h d = true -> has_status h (lit "success") d = Ok true ->
  exists v, total_pages_of h d = Ok v /\ is_Some (number v).
Proof.
  intros Hd Hs. destruct (doc_ok_success h d Hd Hs) as (kvs & E & Hp & _).
  unfold total_pages_of, py_get. rewrite E. simpl.
  destruct (dict_get (lit "document_info") kvs) as [info|]; simpl; [|by eauto].
  destruct (dict_of h info) as [fields|]; [|discriminate]. simpl.
  destruct (dict_get (lit "total_pages") fields) as [v|]; simpl; [|by eauto].
  apply bool_decide_eq_true in Hp. eauto.
Qed.

Lemma len_of_ok k h d :
  In k [lit "blocks"; lit "paragraphs"; lit "lines"; lit "tokens";
        lit "tables"; lit "form_fields"] ->
  doc_ok h d = true -> has_status h (lit "success") d = Ok true ->
  exists v, len_of k h d = Ok v /\ is_Some (number v).
Proof.
  intros Hk Hd Hs. destruct (doc_ok_success h d Hd Hs) as (kvs & E & _ & Hl).
  specialize (Hl k Hk). unfold len_of, py_get. rewrite E. simpl.
  destruct (dict_get k kvs) as [v|]; simpl; [|by eauto].
  destruct (py_len h v); [|discriminate]. simpl. eauto.
Qed.

Lemma summary_statistics_ok h ds :
  forallb (doc_ok h) ds = true -> exists summary, summary_statistics h ds = Ok summary.
Proof.
  intros H. unfold summary_statistics.
  destruct (with_status_ok h (lit "success") ds H) as [successful ->].
  destruct (with_status_ok h (lit "failed") ds H) as [failed ->].
  cbn [mbind result_bind].
  destruct (sum_success_ok h (total_pages_of h) ds H (total_pages_of_ok h) (HInt 0))
    as (total_pages & -> & Ht); [by eexists|].
  cbn [mbind result_bind].
  assert (Hsum : forall k,
    In k [lit "blocks"; lit "paragraphs"; lit "lines"; lit "tokens";
          lit "tables"; lit "form_fields"] ->
    exists v, sum_success h (len_of k h) ds (HInt 0) = Ok v).
  { intros k Hk.
    destruct (sum_success_ok h (len_of k h) ds H (fun d => len_of_ok k h d Hk) (HInt 0))
      as (v & -> & _); [by eexists|eauto]. }
  destruct (Hsum (lit "blocks")) as [? ->]; [simpl; tauto|].
  destruct (Hsum (lit "paragraphs")) as [? ->]; [simpl; tauto|].
  destruct (Hsum (lit "lines")) as [? ->]; [simpl; tauto|].
  destruct (Hsum (lit "tokens")) as [? ->]; [simpl; tauto|].
  destruct (Hsum (lit "tables")) as [? ->]; [simpl; tauto|].
  destruct (Hsum (lit "form_fields")) as [? ->]; [simpl; tauto|].
  cbn [mbind result_bind]. cbv zeta.
  destruct (Z.ltb_spec 0 (len successful)) as [Hpos|_]; [|eauto].
  unfold py_truediv. destruct Ht as [q ->]. simpl.
  destruct (Qeq_bool (inject_Z (len successful)) (inject_Z 0)) eqn:E; [|simpl; eauto].
  apply Qeq_bool_iff in E. unfold Qeq in E. simpl in E. lia.
Qed.

(** Claim C9.  Computing the summary never raises a division by zero.
    When it returns, the average number of pages is 0 if there is no
    successful document and the total number of pages divided by the
    number of successful documents otherwise.  It returns for every
    corpus of well-formed records. *)
Theorem average_pages_is_guarded :
  forall h ds,
    (forall e, summary_statistics h ds = Raise e -> e <> ZeroDivisionError) /\
    (forall summary,
        summary_statistics h ds = Ok summary ->
        exists successful total_pages,
          with_status h (lit "success") ds = Ok successful /\
          sum_success h (total_pages_of h) ds (HInt 0) = Ok total_pages /\
          dict_get (lit "successful_documents") summary = Some (HInt (len successful)) /\
          dict_get (lit "total_pages") summary = Some total_pages /\
          (len successful = 0 ->
           dict_get (lit "average_pages_per_document") summary = Some (HInt 0)) /\
          (len successful <> 0 ->
           exists q, number total_pages = Some q /\
                     dict_get (lit "average_pages_per_document") summary
                     = Some (HFloat (Qdiv q (inject_Z (len successful)))))) /\
    (forallb (doc_ok h) ds = true ->
     exists summary, summary_statistics h ds = Ok summary).
Proof.
  intros h ds. split; [|split].
  - intros e H. by apply read_error_not_zero_division, (summary_statistics_raises h ds).
  - apply summary_statistics_value.
  - apply summary_statistics_ok.
Qed.

Lemma dict_get_set_other {V} (k k' : pystr) (v : V) (d : list (pystr * V)) :
  k <> k' -> dict_get k' (dict_set k v d) = dict_get k' d.
Proof.
  intros Hne. induction d as [|[k0 v0] d IH]; simpl.
  - by rewrite decide_False by done.
  - destruct (decide (k = k0)) as [->|Hk]; simpl.
    + by rewrite !decide_False by done.
    + destruct (decide (k' = k0)); auto.
Qed.

Lemma dict_get_set_same {V} (k : pystr) (v : V) (d : list (pystr * V)) :
  dict_get k (dict_set k v d) = Some v.
Proof.
  induction d as [|[k0 v0] d IH]; simpl.
  - by rewrite decide_True.
  - destruct (decide (k = k0)) as [->|Hk]; simpl.
    + by rewrite decide_True.
    + by rewrite decide_False.
Qed.

Lemma dict_set_set {V} (k : pystr) (v v' : V) (d : list (pystr * V)) :
  dict_set k v (dict_set k v' d) = dict_set k v d.
Proof.
  induction d as [|[k0 v0] d IH]; simpl.
  - by rewrite decide_True.
  - destruct (decide (k = k0)) as [->|Hk]; simpl.
    + by rewrite decide_True.
    + rewrite decide_False by done. by rewrite IH.
Qed.

Lemma keys_are_not_refs (d : list (pystr * hval)) l :
  ~ In (HRef l) (map (fun kv => HStr (fst kv)) d).
Proof. induction d as [|[k0 v0] d IH]; simpl; [tauto|]. intros [?|?]; [discriminate|tauto]. Qed.

Section Frame.
Variable T : loc -> Prop.

Lemma changed_only_refl h : changed_only T h h.
Proof. split; [done|]. intros l. by left. Qed.

Lemma changed_only_set h h' l kvs v :
  changed_only T h h' -> T l -> h' !! l = Some (ODict kvs) ->
  changed_only T h (<[l := ODict (dict_set (lit "file_name") v kvs)]> h').
Proof.
  intros [Hlen Hobj] Hl Hk. split; [by rewrite length_insert|].
  intros l'. destruct (decide (l = l')) as [<-|Hne].
  - right. split; [done|].
    rewrite list_lookup_insert_eq by (by eapply lookup_lt_Some).
    destruct (Hobj l) as [E|(_ & kvs0 & v0 & E0 & E1)].
    + exists kvs, v. by rewrite <- E, Hk.
    + rewrite Hk in E1. injection E1 as ->.
      exists kvs0, v. by rewrite dict_set_set.
  - rewrite list_lookup_insert_ne by done. apply Hobj.
Qed.

(** Reads that do not depend on ["file_name"] see the same. *)
Lemma changed_only_dict_of h h' d kvs' :
  changed_only T h h' -> dict_of h' d = Some kvs' ->
  exists kvs, dict_of h d = Some kvs /\
              forall k, k <> lit "file_name" -> dict_get k kvs' = dict_get k kvs.
Proof.
  intros [_ Hobj]. unfold dict_of. destruct d as [| | | |l]; try discriminate.
  destruct (Hobj l) as [E|(_ & kvs0 & v0 & E0 & E1)].
  - rewrite E. destruct (h !! l) as [[]|]; try discriminate.
    intros [= <-]. eauto.
  - rewrite E0, E1. intros [= <-]. exists kvs0. split; [done|].
    intros k Hk. by apply dict_get_set_other.
Qed.

Lemma changed_only_py_get h h' d k v :
  changed_only T h h' -> k <> lit "file_name" ->
  py_get h' d k = Ok v -> py_get h d k = Ok v.
Proof.
  intros Hc Hk. unfold py_get.
  destruct (dict_of h' d) as [kvs'|] eqn:E; [|discriminate].
  destruct (changed_only_dict_of h h' d kvs' Hc E) as (kvs & -> & Hsame).
  intros [= <-]. by rewrite Hsame.
Qed.

Lemma changed_only_has_status h h' s d b :
  changed_only T h h' -> has_status h' s d = Ok b -> has_status h s d = Ok b.
Proof.
  intros Hc. unfold has_status.
  destruct (py_get h' d (lit "status")) as [v|] eqn:E; simpl; [|discriminate].
  rewrite (changed_only_py_get h h' d _ v Hc); [done|key_ne|done].
Qed.

Lemma changed_only_py_iter h h' v items l :
  changed_only T h h' -> py_iter h' v = Ok items -> In (HRef l) items ->
  exists items0, py_iter h v = Ok items0 /\ In (HRef l) items0.
Proof.
  intros [_ Hobj]. unfold py_iter. destruct v as [| | |s|lv]; try discriminate.
  - intros [= <-] Hin. apply in_map_iff in Hin as (? & ? & _). discriminate.
  - destruct (Hobj lv) as [E|(_ & kvs0 & v0 & E0 & E1)].
    + rewrite E. eauto.
    + rewrite E1. intros [= <-] Hin. by apply keys_are_not_refs in Hin.
Qed.
End Frame.

Lemma with_status_In h s ds kept :
  with_status h s ds = Ok kept ->
  forall d, In d kept -> In d ds /\ has_status h s d = Ok true.
Proof.
  revert kept. induction ds as [|d0 ds IH]; intros kept; simpl.
  - intros [= <-] d [].
  - destruct (has_status h s d0) as [b|] eqn:E; simpl; [|discriminate].
    destruct (with_status h s ds) as [rest|]; simpl; [|discriminate].
    intros [= <-] d Hd. destruct b.
    + destruct Hd as [<-|Hd]; [auto|]. destruct (IH rest eq_refl d Hd). auto.
    + destruct (IH rest eq_refl d Hd). auto.
Qed.

(** A method keeps the invariant, whether it returns or raises, and
    returns only values that satisfy [Q]. *)
Section Writer_logic.
Variable T : loc -> Prop.
Variable h0 : heap.
Variable ds0 : list hval.
Hypothesis targets_in_T : forall l, targets h0 ds0 l -> T l.

#[local] Abbreviation Inv := (invariant T h0 ds0).
#[local] Abbreviation post := (keeps T h0 ds0).

Lemma post_ret {A} (a : A) (Q : A -> Prop) : Q a -> post (mret a) Q.
Proof. intros HQ s Hs. split; [done|]. by intros ? [= <-]. Qed.

Lemma post_bind {A B} (m : M A) (f : A -> M B) (Q : A -> Prop) (R : B -> Prop) :
  post m Q -> (forall a, Q a -> post (f a) R) -> post (m ≫= f) R.
Proof.
  intros Hm Hf s Hs. destruct (Hm s Hs) as [Hinv HQ].
  unfold mbind, M_bind. destruct (m s) as [[a|e] s']; simpl in *.
  - by apply Hf; auto.
  - split; [done|]. discriminate.
Qed.

Lemma post_weaken {A} (m : M A) (Q R : A -> Prop) :
  post m Q -> (forall a, Q a -> R a) -> post m R.
Proof. intros Hm HQR s Hs. destruct (Hm s Hs). split; auto. Qed.

Lemma post_get_objects : post get_objects (fun h => changed_only T h0 h).
Proof. intros s [Hc Hd]. split; [done|]. by intros ? [= <-]. Qed.

Lemma post_get_dataset : post get_dataset (fun ds => ds = ds0).
Proof. intros s [Hc Hd]. split; [done|]. by intros ? [= <-]. Qed.

Lemma post_lift {A} (r : result A) : post (lift r) (fun a => r = Ok a).
Proof. intros s Hs. split; [done|]. by intros ? [= <-]. Qed.

Lemma post_write_file path c (Q : unit -> Prop) : Q () -> post (write_file path c) Q.
Proof. intros HQ s Hs. split; [done|]. by intros ? [= <-]. Qed.

Lemma post_setitem item v :
  (forall l, item = HRef l -> T l) ->
  post (py_setitem item (lit "file_name") v) (fun _ => True).
Proof.
  intros Hitem s [Hc Hd]. split; [|done].
  unfold py_setitem. destruct item as [| | | |l]; try done.
  destruct (objects s !! l) as [[kvs| |]|] eqn:E; try done.
  split; [|done]. simpl. eapply changed_only_set; eauto.
Qed.

Lemma post_mapM {A B} (f : A -> M B) (xs : list A) :
  (forall a, In a xs -> post (f a) (fun _ => True)) ->
  post (mapM f xs) (fun _ => True).
Proof.
  induction xs as [|a xs IH]; intros Hf.
  - by apply post_ret.
  - simpl. eapply post_bind; [apply Hf; by left|]. intros b _.
    eapply post_bind; [apply IH; intros; apply Hf; by right|]. intros bs _.
    by apply post_ret.
Qed.

Lemma post_attach_file_name key doc :
  key = lit "blocks" \/ key = lit "tables" ->
  In doc ds0 -> has_status h0 (lit "success") doc = Ok true ->
  post (attach_file_name key doc) (fun _ => True).
Proof.
  intros Hkey Hdoc Hstatus. unfold attach_file_name.
  eapply post_bind; [apply post_get_objects|]. intros h Hh.
  eapply post_bind; [apply post_lift|]. intros items Hitems.
  apply post_mapM. intros item Hitem.
  eapply post_bind; [apply post_get_objects|]. intros h' Hh'.
  eapply post_bind; [apply post_lift|]. intros file_name _.
  eapply post_bind; [|intros; by apply post_ret].
  apply post_setitem. intros l ->. apply targets_in_T.
  destruct (py_get h doc key) as [[v|]|] eqn:Hget; simpl in Hitems; try discriminate.
  - destruct (changed_only_py_iter T h0 h v items l Hh Hitems Hitem) as (items0 & Hi & Hin).
    exists doc, key, v, items0. repeat split; try done.
    eapply changed_only_py_get; [exact Hh| |exact Hget].
    destruct Hkey as [-> | ->]; key_ne.
  - injection Hitems as <-. destruct Hitem.
Qed.

Lemma post_attach_all key docs :
  key = lit "blocks" \/ key = lit "tables" ->
  (forall doc, In doc docs -> In doc ds0 /\ has_status h0 (lit "success") doc = Ok true) ->
  post (attach_all key docs) (fun _ => True).
Proof.
  intros Hkey Hdocs. unfold attach_all.
  eapply post_bind; [|intros; by apply post_ret].
  apply post_mapM. intros doc Hdoc. destruct (Hdocs doc Hdoc).
  by apply post_attach_file_name.
Qed.

Lemma post__export_to_csv output_dir : post (_export_to_csv output_dir) (fun _ => True).
Proof.
  unfold _export_to_csv.
  eapply post_bind; [apply post_get_objects|]. intros h Hh.
  eapply post_bind; [apply post_get_dataset|]. intros ds ->.
  eapply post_bind; [apply post_lift|]. intros successful_docs Hs.
  assert (Hdocs : forall doc, In doc successful_docs ->
                    In doc ds0 /\ has_status h0 (lit "success") doc = Ok true).
  { intros doc Hdoc. destruct (with_status_In _ _ _ _ Hs doc Hdoc) as [Hin Hst].
    split; [done|]. by eapply changed_only_has_status. }
  eapply post_bind; [apply post_lift|]. intros doc_data _.
  eapply post_bind.
  { instantiate (1 := fun _ => True).
    destruct doc_data; [by apply post_ret|by apply post_write_file]. }
  intros _ _.
  eapply post_bind; [apply post_attach_all; [by left|done]|]. intros all_blocks _.
  eapply post_bind.
  { instantiate (1 := fun _ => True).
    destruct all_blocks; [by apply post_ret|].
    eapply post_bind; [apply post_get_objects|]. intros; by apply post_write_file. }
  intros _ _.
  eapply post_bind; [apply post_attach_all; [by right|done]|]. intros all_tables _.
  destruct all_tables; [by apply post_ret|].
  eapply post_bind; [apply post_get_objects|]. intros; by apply post_write_file.
Qed.

Lemma post_dump_dataset output_dir : post (dump_dataset output_dir) (fun _ => True).
Proof.
  unfold dump_dataset.
  eapply post_bind; [apply post_get_objects|]. intros h Hh.
  eapply post_bind; [apply post_get_dataset|]. intros ds ->.
  destruct (mapM _ _); [by apply post_write_file|].
  eapply post_bind; [by apply (post_write_file _ _ (fun _ => True))|]. intros _ _.
  eapply post_weaken; [apply post_lift|done].
Qed.

Lemma post__create_summary_statistics output_dir :
  post (_create_summary_statistics output_dir) (fun _ => True).
Proof.
  unfold _create_summary_statistics.
  eapply post_bind; [apply post_get_objects|]. intros h Hh.
  eapply post_bind; [apply post_get_dataset|]. intros ds ->.
  eapply post_bind; [apply post_lift|]. intros summary _.
  by apply post_write_file.
Qed.

Lemma post_save_dataset makedirs output_dir :
  post (save_dataset makedirs output_dir) (fun _ => True).
Proof.
  unfold save_dataset.
  eapply post_bind; [apply post_lift|]. intros _ _.
  eapply post_bind; [apply post_dump_dataset|]. intros _ _.
  eapply post_bind; [apply post__create_summary_statistics|]. intros _ _.
  apply post__export_to_csv.
Qed.
End Writer_logic.

Lemma dump_dataset_keeps output_dir s :
  objects (snd (dump_dataset output_dir s)) = objects s /\
  dataset (snd (dump_dataset output_dir s)) = dataset s.
Proof.
  unfold dump_dataset, mbind, M_bind, get_objects, get_dataset.
  destruct (mapM _ _); done.
Qed.

Lemma _create_summary_statistics_keeps output_dir s :
  objects (snd (_create_summary_statistics output_dir s)) = objects s /\
  dataset (snd (_create_summary_statistics output_dir s)) = dataset s.
Proof.
  unfold _create_summary_statistics, mbind, M_bind, get_objects, get_dataset, lift.
  destruct (summary_statistics _ _); done.
Qed.

(** Claim C2, as amended.  Writing the corpus file and the summary
    changes no record.  The CSV export, and with it saving, leaves the
    corpus list as it is, adds and removes no object, and changes only
    block and table records of successful documents, and those only by
    assigning their "file_name" field. *)
Theorem saving_changes_only_file_names :
  forall makedirs output_dir s,
    let T := targets (objects s) (dataset s) in
    (objects (snd (dump_dataset output_dir s)) = objects s /\
     dataset (snd (dump_dataset output_dir s)) = dataset s) /\
    (objects (snd (_create_summary_statistics output_dir s)) = objects s /\
     dataset (snd (_create_summary_statistics output_dir s)) = dataset s) /\
    (changed_only T (objects s) (objects (snd (_export_to_csv output_dir s))) /\
     dataset (snd (_export_to_csv output_dir s)) = dataset s) /\
    (changed_only T (objects s) (objects (snd (save_dataset makedirs output_dir s))) /\
     dataset (snd (save_dataset makedirs output_dir s)) = dataset s).
Proof.
  intros makedirs output_dir s T.
  assert (Hinv : invariant T (objects s) (dataset s) s)
    by (split; [apply changed_only_refl|done]).
  split; [apply dump_dataset_keeps|].
  split; [apply _create_summary_statistics_keeps|].
  split.
  - apply (post__export_to_csv T (objects s) (dataset s) (fun l H => H) output_dir s Hinv).
  - apply (post_save_dataset T (objects s) (dataset s) (fun l H => H) makedirs output_dir s Hinv).
Qed.

(** Claim C1, as amended.  The text of a text-element record and of a
    cell record is the concatenation, in the order of the segment list,
    of the spans of the document text, with leading and trailing white
    space stripped.  The loop itself computes the concatenation.  A span
    is the slice from the start offset, 0 when it is zero or unset, to
    the end offset, the length of the text when it is zero or unset; for
    offsets within the text it holds the characters at the positions
    from the start to the end, the end excluded.  A zero start offset and
    a missing start offset give the same span. *)
Theorem text_is_stripped_concatenation_of_spans :
  forall (document_text : pystr),
    (forall element l page_num element_type element_num,
        layout element = Some l ->
        v_field (lit "text")
          (_extract_text_element_info element document_text page_num element_type element_num)
        = Some (VStr (strip (spans document_text (segments_of (Some l)))))) /\
    (forall cell page_num table_num row_idx cell_idx cell_type,
        v_field (lit "text")
          (_extract_cell_info cell document_text page_num table_num row_idx cell_idx cell_type)
        = Some (VStr (strip (spans document_text (segments_of (cell_layout cell)))))) /\
    (forall segments, extract_segments document_text segments [] = spans document_text segments) /\
    (forall segment (i : nat),
        0 <= span_start segment ->
        span_start segment <= span_end document_text segment ->
        span_end document_text segment <= len document_text ->
        span document_text segment !! i
        = if decide (Z.of_nat i < span_end document_text segment - span_start segment)
          then document_text !! (Z.to_nat (span_start segment) + i)%nat
          else None) /\
    (forall e,
        span document_text {| start_index := Some 0; end_index := e |}
        = span document_text {| start_index := None; end_index := e |}).
Proof.
  intros document_text. repeat split.
  - intros element l page_num element_type element_num Hl.
    unfold _extract_text_element_info. rewrite Hl. cbn [v_field].
    rewrite extract_segments_app. reflexivity.
  - intros. unfold _extract_cell_info. cbn [v_field].
    rewrite extract_segments_app.
    assert (E : match cell_layout cell with
                | Some l => match text_anchor l with
                            | Some anchor => text_segments anchor
                            | None => []
                            end
                | None => []
                end = segments_of (cell_layout cell)) by reflexivity.
    rewrite E. reflexivity.
  - intros. by rewrite extract_segments_app.
  - intros segment i H0 H1 H2. by apply py_slice_lookup.
Qed.

Lemma text_is_stripped_concatenation_of_spans_witness :
  let document_text := lit "ab cd" in
  let segment := {| start_index := Some 3; end_index := Some 5 |} in
  let l := sample_layout [segment] in
  v_field (lit "text")
    (_extract_text_element_info {| layout := Some l |} document_text 1 (lit "block") 0)
  = Some (VStr (lit "cd")) /\
  span document_text segment !! 1%nat = Some 100%N.
Proof.
  cbv zeta.
  pose proof (text_is_stripped_concatenation_of_spans (lit "ab cd")) as (H1 & _ & _ & H4 & _).
  split.
  - rewrite (H1 _ (sample_layout [{| start_index := Some 3; end_index := Some 5 |}]));
      reflexivity.
  - rewrite H4; [reflexivity | vm_compute; discriminate ..].
Defined.

(** Claim C1 as stated fails: for the text [" a"] and the one segment
    from 0 to 2 the concatenation of the slices is [" a"], and the text
    of the record is ["a"]. *)
Lemma text_is_not_the_concatenation :
  let document_text := lit " a" in
  let segment := {| start_index := Some 0; end_index := Some 2 |} in
  let element := {| layout := Some (sample_layout [segment]) |} in
  v_field (lit "text") (_extract_text_element_info element document_text 1 (lit "block") 0)
  = Some (VStr (lit "a")) /\
  spans document_text [segment] = lit " a" /\
  v_field (lit "text") (_extract_text_element_info element document_text 1 (lit "block") 0)
  <> Some (VStr (spans document_text [segment])).
Proof. cbv zeta. repeat split. vm_compute. discriminate. Qed.

(** Claim C4.  The cells of a table record are the records of the header
    rows followed by those of the body rows; in each group they come row
    by row and, in a row, cell by cell, one record per cell, with the
    position of the row in its group as row index (from 0 in each
    group), the position of the cell in its row as cell index, and the
    role tag of the group.  One header row of two cells and two body
    rows of two cells give six records. *)
Theorem table_cells_header_rows_then_body_rows :
  forall table document_text page_num table_num,
    let header := group_cells document_text page_num table_num (lit "header") (header_rows table) in
    let body := group_cells document_text page_num table_num (lit "body") (body_rows table) in
    v_field (lit "cells") (_extract_table_info table document_text page_num table_num)
    = Some (VList (header ++ body)) /\
    len (header ++ body)
    = fold_right (fun row acc => len (cells row) + acc) 0 (header_rows table ++ body_rows table) /\
    (forall cell_type rows (r c : nat) row cell,
        rows !! r = Some row -> cells row !! c = Some cell ->
        In (_extract_cell_info cell document_text page_num table_num
              (Z.of_nat r) (Z.of_nat c) cell_type)
           (group_cells document_text page_num table_num cell_type rows)) /\
    (forall cell row_idx cell_idx cell_type,
        let cell_info :=
          _extract_cell_info cell document_text page_num table_num row_idx cell_idx cell_type in
        v_field (lit "row_index") cell_info = Some (VInt row_idx) /\
        v_field (lit "cell_index") cell_info = Some (VInt cell_idx) /\
        v_field (lit "cell_type") cell_info = Some (VStr cell_type)) /\
    (forall h1 h2 b1 b2 b3 b4,
        v_field (lit "cells")
          (_extract_table_info
             {| header_rows := [ {| cells := [h1; h2] |} ];
                body_rows := [ {| cells := [b1; b2] |}; {| cells := [b3; b4] |} ] |}
             document_text page_num table_num)
        = Some (VList [
            _extract_cell_info h1 document_text page_num table_num 0 0 (lit "header");
            _extract_cell_info h2 document_text page_num table_num 0 1 (lit "header");
            _extract_cell_info b1 document_text page_num table_num 0 0 (lit "body");
            _extract_cell_info b2 document_text page_num table_num 0 1 (lit "body");
            _extract_cell_info b3 document_text page_num table_num 1 0 (lit "body");
            _extract_cell_info b4 document_text page_num table_num 1 1 (lit "body") ])).
Proof.
  intros table document_text page_num table_num. cbv zeta.
  split; [apply _extract_table_info_cells|].
  split.
  { rewrite len_app, !len_group_cells, fold_right_app.
    induction (header_rows table) as [|row rows IH]; simpl; lia. }
  split; [intros; by eapply group_cells_elem|].
  split; [intros; repeat split|].
  intros. by rewrite _extract_table_info_cells.
Qed.

(** The six records of a sample table, and one of them by position. *)
Lemma table_cells_header_rows_then_body_rows_witness :
  let table :=
    {| header_rows := [ {| cells := [sample_cell 0 1; sample_cell 1 2] |} ];
       body_rows := [ {| cells := [sample_cell 2 3; sample_cell 3 4] |};
                      {| cells := [sample_cell 4 5; sample_cell 5 6] |} ] |} in
  len_field (lit "cells") (_extract_table_info table (lit "abcdef") 1 0) = Some 6 /\
  In (_extract_cell_info (sample_cell 5 6) (lit "abcdef") 1 0 1 1 (lit "body"))
     (group_cells (lit "abcdef") 1 0 (lit "body") (body_rows table)).
Proof.
  cbv zeta.
  destruct (table_cells_header_rows_then_body_rows
              {| header_rows := [ {| cells := [sample_cell 0 1; sample_cell 1 2] |} ];
                 body_rows := [ {| cells := [sample_cell 2 3; sample_cell 3 4] |};
                                {| cells := [sample_cell 4 5; sample_cell 5 6] |} ] |}
              (lit "abcdef") 1 0) as (H1 & _ & H3 & _).
  split.
  - unfold len_field. rewrite H1. reflexivity.
  - apply (H3 (lit "body") _ 1%nat 1%nat {| cells := [sample_cell 4 5; sample_cell 5 6] |});
      reflexivity.
Defined.

(** Claim C5.  The code departs from it.  A cell of a service response
    always has the span attributes, and an unset span field reads as 0:
    the default 1 that the code spells out for a missing field is then
    not taken, and the record holds the spans 0, not spans of at least 1.
    This holds whatever the layout of the cell, the text and the
    position are. *)
Theorem unset_cell_span_is_recorded_as_zero :
  forall cell_layout document_text page_num table_num row_idx cell_idx cell_type,
    let cell := {| cell_layout := cell_layout; row_span := Some 0; col_span := Some 0 |} in
    let cell_info :=
      _extract_cell_info cell document_text page_num table_num row_idx cell_idx cell_type in
    v_field (lit "row_span") cell_info = Some (VInt 0) /\
    v_field (lit "col_span") cell_info = Some (VInt 0) /\
    ~ (exists n, v_field (lit "row_span") cell_info = Some (VInt n) /\ 1 <= n) /\
    ~ (exists n, v_field (lit "col_span") cell_info = Some (VInt n) /\ 1 <= n).
Proof.
  intros. subst cell cell_info. unfold _extract_cell_info. cbn [v_field].
  split; [reflexivity|]. split; [reflexivity|]. split.
  - intros (n & H & Hn). vm_compute in H. injection H as <-. lia.
  - intros (n & H & Hn). vm_compute in H. injection H as <-. lia.
Qed.

(** Claim C6.  A text element without layout is flattened to the empty
    record; flattening returns, it cannot raise. *)
Theorem element_without_layout_is_empty_record :
  forall element document_text page_num element_type element_num,
    layout element = None ->
    _extract_text_element_info element document_text page_num element_type element_num
    = VDict [].
Proof. intros * H. unfold _extract_text_element_info. by rewrite H. Qed.

Lemma element_without_layout_is_empty_record_witness :
  _extract_text_element_info {| layout := None |} (lit "abc") 1 (lit "token") 0 = VDict [].
Proof.
  apply (element_without_layout_is_empty_record {| layout := None |}). reflexivity.
Defined.

(** Claim C10.  A table cell without layout is flattened to a complete
    cell record whose text is empty, whose text length is 0 and whose
    bounding box is the empty list; this is not the empty record. *)
Theorem cell_without_layout_is_complete_record :
  forall cell document_text page_num table_num row_idx cell_idx cell_type,
    cell_layout cell = None ->
    _extract_cell_info cell document_text page_num table_num row_idx cell_idx cell_type
    = VDict [
        (lit "page_number", VInt page_num);
        (lit "table_number", VInt table_num);
        (lit "row_index", VInt row_idx);
        (lit "cell_index", VInt cell_idx);
        (lit "cell_type", VStr cell_type);
        (lit "text", VStr []);
        (lit "text_length", VInt 0);
        (lit "bounding_box", VList []);
        (lit "row_span", VInt (default 1 (row_span cell)));
        (lit "col_span", VInt (default 1 (col_span cell)))
      ] /\
    _extract_cell_info cell document_text page_num table_num row_idx cell_idx cell_type
    <> VDict [].
Proof.
  intros * H. unfold _extract_cell_info. rewrite H. split; [reflexivity|discriminate].
Qed.

Lemma cell_without_layout_is_complete_record_witness :
  v_field (lit "text")
    (_extract_cell_info {| cell_layout := None; row_span := Some 1; col_span := Some 1 |}
       (lit "abc") 1 0 0 0 (lit "body")) = Some (VStr []).
Proof.
  destruct (cell_without_layout_is_complete_record
              {| cell_layout := None; row_span := Some 1; col_span := Some 1 |}
              (lit "abc") 1 0 0 0 (lit "body") eq_refl) as [-> _].
  reflexivity.
Defined.

Lemma paragraph_text_wf p :
  wf_paragraph p = true -> paragraph_text p = Ok (trimmed_text p).
Proof.
  destruct p as [| | | | |  |kvs]; try discriminate.
  unfold wf_paragraph, paragraph_text, trimmed_text, v_get, v_field. simpl.
  destruct (dict_get (lit "text") kvs) as [[]|]; try discriminate; reflexivity.
Qed.

Lemma extract_doc_paragraphs_wf min_length ps : forall acc,
  forallb wf_paragraph ps = true ->
  extract_doc_paragraphs min_length ps acc = Ok (acc ++ long_paragraphs min_length ps).
Proof.
  induction ps as [|p ps IH]; intros acc H; simpl.
  - unfold long_paragraphs. simpl. by rewrite app_nil_r.
  - apply andb_prop in H as [Hp Hps].
    rewrite (paragraph_text_wf p Hp). simpl.
    unfold long_paragraphs in *. simpl.
    destruct (min_length <=? len (trimmed_text p)).
    + rewrite IH by done. simpl. by rewrite <- app_assoc.
    + by rewrite IH.
Qed.

Lemma extract_docs_wf min_length docs : forall paragraphs total,
  forallb wf_doc docs = true ->
  exists total',
    extract_docs min_length docs (paragraphs, total)
    = Ok (paragraphs ++ expected_records min_length docs, total').
Proof.
  induction docs as [|doc docs IH]; intros paragraphs total H.
  - exists total. simpl. by rewrite app_nil_r.
  - apply andb_prop in H as [Hd Hds].
    destruct doc as [| | | | | |kvs]; try discriminate.
    cbn [extract_docs v_get mbind result_bind].
    unfold expected_records. cbn [flat_map].
    unfold wf_doc in Hd. unfold is_successful, paragraphs_of in Hd |- *.
    cbn [v_field] in Hd |- *.
    destruct (dict_get (lit "status") kvs) as [[| | |s| | |]|];
      try (destruct (IH paragraphs total Hds) as [t Ht]; exists t; rewrite Ht; reflexivity).
    destruct (bool_decide (s = lit "success"));
      [|destruct (IH paragraphs total Hds) as [t Ht]; exists t; rewrite Ht; reflexivity].
    destruct (dict_get (lit "paragraphs") kvs) as [[| | | | |ps|]|]; try discriminate.
    + unfold default. cbn [from_option id v_len v_iter mbind result_bind fst snd].
      rewrite (extract_doc_paragraphs_wf _ _ _ Hd). cbn [mbind result_bind].
      destruct (IH (paragraphs ++ long_paragraphs min_length ps) (total + len ps) Hds)
        as [t Ht].
      exists t. rewrite Ht. by rewrite <- app_assoc.
    + unfold default.
      cbn [from_option id v_len v_iter mbind result_bind fst snd extract_doc_paragraphs].
      destruct (IH paragraphs (total + len (@nil value)) Hds) as [t Ht].
      exists t. rewrite Ht. reflexivity.
Qed.



(** Claim C2 as stated fails: saving the sample corpus returns, and the
    first block record of the corpus, which had no "file_name" field, has
    one afterwards. *)
Lemma saving_changes_block_records :
  let s' := snd (save_dataset sample_makedirs (lit "output") sample_state) in
  fst (save_dataset sample_makedirs (lit "output") sample_state) = Ok () /\
  (first_block (corpus sample_state) ≫= v_field (lit "file_name")) = None /\
  (first_block (corpus s') ≫= v_field (lit "file_name")) = Some (VStr (lit "a.pdf")) /\
  corpus s' <> corpus sample_state.
Proof.
  cbv zeta.
  assert (H1 : (first_block (corpus sample_state) ≫= v_field (lit "file_name")) = None)
    by (vm_compute; reflexivity).
  assert (H2 : (first_block (corpus (snd (save_dataset sample_makedirs (lit "output") sample_state)))
                  ≫= v_field (lit "file_name")) = Some (VStr (lit "a.pdf")))
    by (vm_compute; reflexivity).
  split; [vm_compute; reflexivity|]. split; [exact H1|]. split; [exact H2|].
  intros E. rewrite E, H1 in H2. discriminate H2.
Qed.

(** The counts of the record of the sample document agree. *)
Lemma successful_record_counts_witness :
  let D := sample_process_pdf (lit "pdfs/a.pdf") in
  counts_agree (lit "blocks") (lit "blocks_count") D /\
  counts_agree (lit "paragraphs") (lit "paragraphs_count") D /\
  counts_agree (lit "lines") (lit "lines_count") D /\
  counts_agree (lit "tokens") (lit "tokens_count") D /\
  counts_agree (lit "tables") (lit "tables_count") D /\
  counts_agree (lit "form_fields") (lit "form_fields_count") D.
Proof.
  apply (successful_record_counts sample_exists sample_read sample_service sample_clock
           (lit "pdfs/a.pdf")).
  vm_compute. reflexivity.
Defined.

(** The four failing files of the sample run, and its corpus. *)
Lemma batch_turns_errors_into_failure_records_witness :
  sample_process_pdf (lit "pdfs/missing.pdf")
  = failure_record (lit "pdfs/missing.pdf")
      (Exception "FileNotFoundError" (lit "PDF file not found: pdfs/missing.pdf")) /\
  sample_process_pdf (lit "pdfs/locked.pdf")
  = failure_record (lit "pdfs/locked.pdf")
      (Exception "PermissionError" (lit "[Errno 13] Permission denied")) /\
  sample_process_pdf (lit "pdfs/empty.pdf")
  = failure_record (lit "pdfs/empty.pdf")
      (Exception "ValueError" (lit "PDF file is empty: pdfs/empty.pdf")) /\
  sample_process_pdf (lit "pdfs/scan.pdf")
  = failure_record (lit "pdfs/scan.pdf")
      (Exception "InvalidArgument" (lit "400 Document is not a PDF")) /\
  corpus sample_state = Some ([] ++ map sample_process_pdf sample_files).
Proof.
  destruct (batch_turns_errors_into_failure_records
              sample_exists sample_read sample_service sample_clock)
    as (_ & H1 & H2 & H3 & H4 & H5).
  split; [apply (H1 (lit "pdfs/missing.pdf")); reflexivity|].
  split; [apply (H2 (lit "pdfs/locked.pdf")); reflexivity|].
  split; [apply (H3 (lit "pdfs/empty.pdf")); reflexivity|].
  split; [apply (H4 (lit "pdfs/scan.pdf") Byte.x00 []); reflexivity|].
  apply (H5 sample_files empty_state []). reflexivity.
Defined.

(** The summary of a corpus that raises, of the empty corpus and of the
    sample corpus. *)
Lemma average_pages_is_guarded_witness :
  AttributeError <> ZeroDivisionError /\
  (exists successful total_pages,
      with_status [] (lit "success") [] = Ok successful /\
      sum_success [] (total_pages_of []) [] (HInt 0) = Ok total_pages /\
      dict_get (lit "average_pages_per_document")
        [(lit "total_documents", HInt 0); (lit "successful_documents", HInt 0);
         (lit "failed_documents", HInt 0); (lit "total_pages", HInt 0);
         (lit "average_pages_per_document", HInt 0); (lit "total_blocks", HInt 0);
         (lit "total_paragraphs", HInt 0); (lit "total_lines", HInt 0);
         (lit "total_tokens", HInt 0); (lit "total_tables", HInt 0);
         (lit "total_form_fields", HInt 0)] = Some (HInt 0)) /\
  (exists summary,
      summary_statistics (objects sample_state) (dataset sample_state) = Ok summary).
Proof.
  split; [|split].
  - destruct (average_pages_is_guarded [] [HInt 1]) as (H & _ & _).
    apply H. reflexivity.
  - destruct (average_pages_is_guarded [] []) as (_ & H & _).
    destruct (H _ eq_refl) as (successful & total_pages & H1 & H2 & _ & _ & H5 & _).
    exists successful, total_pages. split; [exact H1|]. split; [exact H2|].
    apply H5. vm_compute in H1. injection H1 as <-. reflexivity.
  - destruct (average_pages_is_guarded (objects sample_state) (dataset sample_state))
      as (_ & _ & H).
    apply H. vm_compute. reflexivity.
Defined.

Lemma lstrip_head s :
  match lstrip s with
  | c :: _ => Py_UNICODE_ISSPACE c = false
  | [] => True
  end.
Proof.
  induction s as [|c s IH]; simpl; [done|].
  destruct (Py_UNICODE_ISSPACE c) eqn:E; [exact IH|exact E].
Qed.

Lemma lstrip_nonspace c s : Py_UNICODE_ISSPACE c = false -> lstrip (c :: s) = c :: s.
Proof. intros H. simpl. by rewrite H. Qed.

Lemma lstrip_idempotent s : lstrip (lstrip s) = lstrip s.
Proof.
  pose proof (lstrip_head s) as H. destruct (lstrip s) as [|c t]; [done|].
  by apply lstrip_nonspace.
Qed.

Lemma lstrip_snoc_nonspace s c :
  Py_UNICODE_ISSPACE c = false -> lstrip (s ++ [c]) = lstrip s ++ [c].
Proof.
  intros H. induction s as [|d s IH]; simpl.
  - by rewrite H.
  - destruct (Py_UNICODE_ISSPACE d); [exact IH|done].
Qed.

Lemma rstrip_cons_nonspace c s :
  Py_UNICODE_ISSPACE c = false -> rstrip (c :: s) = c :: rstrip s.
Proof.
  intros H. unfold rstrip. simpl. rewrite lstrip_snoc_nonspace by done.
  by rewrite rev_app_distr.
Qed.

Lemma rstrip_idempotent s : rstrip (rstrip s) = rstrip s.
Proof. unfold rstrip. by rewrite rev_involutive, lstrip_idempotent. Qed.

Lemma strip_idempotent s : strip (strip s) = strip s.
Proof.
  unfold strip. pose proof (lstrip_head s) as H.
  destruct (lstrip s) as [|c t]; [reflexivity|].
  rewrite (rstrip_cons_nonspace c t H), (lstrip_nonspace c _ H).
  by rewrite (rstrip_cons_nonspace c _ H), rstrip_idempotent.
Qed.

(** The first and the last character of a stripped string are not white
    space. *)
Lemma strip_ends s :
  match head (strip s) with Some c => Py_UNICODE_ISSPACE c = false | None => True end /\
  match head (rev (strip s)) with Some c => Py_UNICODE_ISSPACE c = false | None => True end.
Proof.
  split.
  - unfold strip. pose proof (lstrip_head s) as H.
    destruct (lstrip s) as [|c t]; [done|].
    by rewrite (rstrip_cons_nonspace c t H).
  - unfold strip, rstrip. rewrite rev_involutive.
    pose proof (lstrip_head (rev (lstrip s))) as H.
    by destruct (lstrip (rev (lstrip s))).
Qed.

Lemma lstrip_spaces s : forallb Py_UNICODE_ISSPACE s = true -> lstrip s = [].
Proof.
  induction s as [|c s IH]; simpl; [done|].
  intros [Hc Hs]%andb_prop. rewrite Hc. auto.
Qed.

Lemma strip_spaces s : forallb Py_UNICODE_ISSPACE s = true -> strip s = [].
Proof. intros H. unfold strip. by rewrite lstrip_spaces. Qed.

Lemma lstrip_suffix s : exists w, s = w ++ lstrip s /\ forallb Py_UNICODE_ISSPACE w = true.
Proof.
  induction s as [|c s (w & E & Hw)]; simpl.
  - by exists [].
  - destruct (Py_UNICODE_ISSPACE c) eqn:Hc.
    + exists (c :: w). simpl. rewrite Hc, Hw. split; [by f_equal|done].
    + by exists [].
Qed.

(** Stripping removes white space at the two ends and nothing else. *)
Lemma strip_decompose s :
  exists w1 w2, s = w1 ++ strip s ++ w2 /\
                forallb Py_UNICODE_ISSPACE w1 = true /\
                forallb Py_UNICODE_ISSPACE w2 = true.
Proof.
  destruct (lstrip_suffix s) as (w1 & E1 & H1).
  destruct (lstrip_suffix (rev (lstrip s))) as (w2 & E2 & H2).
  exists w1, (rev w2). split; [|split; [done|]].
  - unfold strip, rstrip. rewrite <- rev_app_distr, <- E2, rev_involutive. exact E1.
  - rewrite forallb_forall in H2 |- *. intros c Hc. apply H2. by apply in_rev.
Qed.

Lemma len_strip_le s : len (strip s) <= len s.
Proof.
  destruct (strip_decompose s) as (w1 & w2 & E & _).
  rewrite E at 2. unfold len. rewrite !length_app. lia.
Qed.

Lemma strip_stripped s : stripped (strip s).
Proof. split; [apply strip_idempotent|apply strip_ends]. Qed.

(** The text of a text-element record and of a cell record, and the name
    and the value of a form-field record, are stripped: stripping them
    again changes nothing and they neither begin nor end with white
    space.  The text length recorded is the length of the text recorded,
    and the text of an element is no longer than what its segments
    extract. *)
Theorem text_fields_are_stripped :
  forall document_text,
    (forall element l page_num element_type element_num,
        layout element = Some l ->
        exists t,
          let r := _extract_text_element_info element document_text page_num
                     element_type element_num in
          v_field (lit "text") r = Some (VStr t) /\
          v_field (lit "text_length") r = Some (VInt (len t)) /\
          stripped t /\ len t <= len (spans document_text (segments_of (Some l)))) /\
    (forall cell page_num table_num row_idx cell_idx cell_type,
        exists t,
          let r := _extract_cell_info cell document_text page_num table_num
                     row_idx cell_idx cell_type in
          v_field (lit "text") r = Some (VStr t) /\
          v_field (lit "text_length") r = Some (VInt (len t)) /\
          stripped t) /\
    (forall field page_num field_num,
        exists name value,
          let r := _extract_form_field_info field document_text page_num field_num in
          v_field (lit "field_name") r = Some (VStr name) /\
          v_field (lit "field_value") r = Some (VStr value) /\
          stripped name /\ stripped value).
Proof.
  intros document_text. split; [|split].
  - intros element l page_num element_type element_num Hl.
    unfold _extract_text_element_info. rewrite Hl. cbv zeta.
    eexists. split; [reflexivity|]. split; [reflexivity|].
    split; [apply strip_stripped|].
    rewrite extract_segments_app. apply len_strip_le.
  - intros. unfold _extract_cell_info. cbv zeta.
    eexists. split; [reflexivity|]. split; [reflexivity|]. apply strip_stripped.
  - intros. unfold _extract_form_field_info. cbv zeta.
    eexists _, _. split; [reflexivity|]. split; [reflexivity|].
    split; apply strip_stripped.
Qed.

Lemma text_fields_are_stripped_witness :
  exists t,
    v_field (lit "text")
      (_extract_text_element_info
         {| layout := Some (sample_layout [ {| start_index := Some 5; end_index := Some 12 |} ]) |}
         (lit "Hello world ab cd") 1 (lit "line") 0) = Some (VStr t) /\
    t = lit "world".
Proof.
  destruct (text_fields_are_stripped (lit "Hello world ab cd")) as (H & _ & _).
  destruct (H {| layout := Some (sample_layout [ {| start_index := Some 5; end_index := Some 12 |} ]) |}
              _ 1 (lit "line") 0 eq_refl) as (t & Ht & _).
  exists t. split; [exact Ht|].
  vm_compute in Ht. by injection Ht as <-.
Defined.

Lemma py_slice_nonneg {A} (s : list A) (a b : Z) :
  0 <= a -> 0 <= b ->
  py_slice s a b
  = firstn (Z.to_nat (Z.min b (len s)) - Z.to_nat (Z.min a (len s)))
           (skipn (Z.to_nat (Z.min a (len s))) s).
Proof.
  intros Ha Hb. unfold py_slice, adjust_index.
  destruct (Z.ltb_spec a 0); [lia|]. destruct (Z.ltb_spec b 0); [lia|].
  f_equal. unfold len. lia.
Qed.

Lemma py_slice_all {A} (s : list A) : py_slice s 0 (len s) = s.
Proof.
  rewrite py_slice_nonneg by (unfold len; lia).
  replace (Z.to_nat (Z.min 0 (len s))) with 0%nat by (unfold len; lia).
  replace (Z.to_nat (Z.min (len s) (len s))) with (length s) by (unfold len; lia).
  rewrite Nat.sub_0_r. apply firstn_all.
Qed.

Lemma py_slice_empty {A} (s : list A) (a b : Z) :
  0 <= a -> 0 <= b -> b <= a -> py_slice s a b = [].
Proof.
  intros Ha Hb Hba. rewrite py_slice_nonneg by done.
  replace (_ - _)%nat with 0%nat by lia. reflexivity.
Qed.

Lemma py_slice_app {A} (s : list A) (a b c : Z) :
  0 <= a -> a <= b -> b <= c ->
  py_slice s a b ++ py_slice s b c = py_slice s a c.
Proof.
  intros Ha Hab Hbc. rewrite !py_slice_nonneg by lia.
  set (a' := Z.to_nat (Z.min a (len s))). set (b' := Z.to_nat (Z.min b (len s))).
  set (c' := Z.to_nat (Z.min c (len s))).
  assert (a' <= b' <= c')%nat by lia.
  replace (skipn b' s) with (skipn (b' - a') (skipn a' s))
    by (rewrite drop_drop; f_equal; lia).
  rewrite take_take_drop. f_equal. lia.
Qed.

Lemma len_py_slice_le {A} (s : list A) (a b : Z) : len (py_slice s a b) <= len s.
Proof.
  unfold py_slice, len. rewrite length_take, length_drop. lia.
Qed.

(** A segment whose start offset is zero or unset and whose end offset is
    zero or unset extracts the whole text of the document: an end offset
    0 does not give an empty extraction. *)
Theorem zero_or_unset_offsets_take_the_whole_text :
  forall document_text seg,
    (start_index seg = None \/ start_index seg = Some 0) ->
    (end_index seg = None \/ end_index seg = Some 0) ->
    extract_segments document_text [seg] [] = document_text.
Proof.
  intros document_text [a b] Ha Hb. simpl in Ha, Hb.
  unfold extract_segments, start_idx, end_idx, truthy, int. simpl.
  destruct Ha as [-> | ->], Hb as [-> | ->]; simpl; apply py_slice_all.
Qed.

Lemma zero_or_unset_offsets_take_the_whole_text_witness :
  extract_segments (lit "abc") [segment 0 0] [] = lit "abc".
Proof.
  apply (zero_or_unset_offsets_take_the_whole_text (lit "abc") (segment 0 0));
    right; reflexivity.
Defined.

Lemma start_idx_segment a b : start_idx (segment a b) = a.
Proof. unfold start_idx, truthy, int. simpl. destruct (Z.eqb_spec a 0); simpl; congruence. Qed.

Lemma end_idx_segment document_text a b : b <> 0 -> end_idx document_text (segment a b) = b.
Proof.
  intros Hb. unfold end_idx, truthy, int. simpl.
  destruct (Z.eqb_spec b 0); simpl; congruence.
Qed.

(** Two segments that meet at a positive offset extract, one after the
    other, what the one segment from the start of the first to the end of
    the second extracts; the offsets may lie beyond the end of the
    text. *)
Theorem adjacent_segments_concatenate :
  forall document_text a b c,
    0 <= a -> a <= b -> b <= c -> 0 < b ->
    extract_segments document_text [segment a b; segment b c] []
    = extract_segments document_text [segment a c] [].
Proof.
  intros document_text a b c Ha Hab Hbc Hb.
  unfold extract_segments. simpl.
  rewrite !start_idx_segment, !end_idx_segment by lia.
  by apply py_slice_app.
Qed.

Lemma adjacent_segments_concatenate_witness :
  extract_segments (lit "Hello world") [segment 0 5; segment 5 11] [] = lit "Hello world".
Proof.
  rewrite (adjacent_segments_concatenate (lit "Hello world") 0 5 11); [reflexivity|lia..].
Defined.

(** A segment whose positive end offset does not exceed its start offset
    extracts the empty string; nothing is raised. *)
Theorem inverted_segment_is_empty :
  forall document_text a b,
    0 <= a -> 0 < b -> b <= a ->
    extract_segments document_text [segment a b] [] = [].
Proof.
  intros document_text a b Ha Hb Hba. unfold extract_segments. simpl.
  rewrite start_idx_segment, end_idx_segment by lia.
  apply py_slice_empty; lia.
Qed.

Lemma inverted_segment_is_empty_witness :
  extract_segments (lit "Hello world") [segment 7 3] [] = [].
Proof. apply inverted_segment_is_empty; lia. Defined.

Lemma basename_aux_no_slash name : forall cur,
  ~ In 47%N name -> basename_aux name cur = cur ++ name.
Proof.
  induction name as [|c name IH]; intros cur H; simpl.
  - by rewrite app_nil_r.
  - destruct (N.eqb_spec c 47) as [->|_]; [exfalso; apply H; by left|].
    rewrite IH by (intros ?; apply H; by right). by rewrite <- app_assoc.
Qed.

Lemma basename_aux_app p q : forall cur,
  basename_aux (p ++ q) cur = basename_aux q (basename_aux p cur).
Proof.
  induction p as [|c p IH]; intros cur; simpl; [done|].
  destruct (c =? 47)%N; apply IH.
Qed.

Lemma basename_aux_slash p : forall cur, basename_aux (p ++ [47%N]) cur = [].
Proof. intros cur. by rewrite basename_aux_app. Qed.

Lemma basename_path_join dir name :
  ~ In 47%N name -> basename (path_join dir name) = name.
Proof.
  intros H. unfold basename, path_join.
  destruct (rev dir) as [|c r] eqn:E.
  - by rewrite basename_aux_no_slash.
  - destruct (N.eqb_spec c 47) as [->|_].
    + assert (dir = rev r ++ [47%N]) as ->.
      { rewrite <- (rev_involutive dir), E. reflexivity. }
      rewrite basename_aux_app, basename_aux_slash. by rewrite basename_aux_no_slash.
    + change (lit "/") with [47%N].
      rewrite (app_assoc dir), basename_aux_app, basename_aux_slash.
      by rewrite basename_aux_no_slash.
Qed.

Lemma extract_page_other document_text d page_num page k :
  ~ In k list_keys ->
  dict_get k (extract_page document_text d page_num page) = dict_get k d.
Proof.
  intros H. unfold extract_page.
  assert (forall key, In key list_keys -> key <> k) as Hne
    by (intros key Hkey ->; contradiction).
  repeat (rewrite extract_each_other by (apply Hne; simpl; tauto)).
  apply dict_append_other. apply Hne. simpl. tauto.
Qed.

Lemma extract_pages_other document_text pages k : forall i d,
  ~ In k list_keys ->
  dict_get k (fold_left (fun layout_data '(page_num, page) =>
                           extract_page document_text layout_data page_num page)
                        (enumerate_from i pages) d)
  = dict_get k d.
Proof.
  induction pages as [|page pages IH]; intros i d H; simpl; [done|].
  rewrite IH by done. by apply extract_page_other.
Qed.

Ltac not_list_key :=
  unfold list_keys; simpl; intros Hk;
  repeat (destruct Hk as [Hk|Hk]; [vm_compute in Hk; discriminate Hk|]); exact Hk.

(** The scalar fields of a layout record are those it starts with. *)
Lemma layout_info_other document path timestamp k :
  ~ In k list_keys ->
  v_field k (_extract_layout_info document path timestamp)
  = dict_get k [
      (lit "file_path", VStr path);
      (lit "file_name", VStr (basename path));
      (lit "processing_timestamp", VStr timestamp);
      (lit "status", VStr (lit "success"));
      (lit "document_info", VDict [
         (lit "total_pages", VInt (len (pages document)));
         (lit "text_length", VInt (len (text document)))])].
Proof.
  intros Hk. unfold _extract_layout_info, v_field, enumerate.
  rewrite extract_pages_other by done.
  cbn [dict_get]. repeat (destruct (decide _); [done|]).
  assert (forall key, In key list_keys -> k <> key) as Hne
    by (intros key Hkey ->; contradiction).
  repeat (rewrite decide_False by (apply Hne; simpl; tauto)). done.
Qed.

(** A layout record carries the path of its file, the base name of the
    path as file name, the time stamp, the status "success", and the
    numbers of pages and of characters of the document; it has one page
    summary per page, in order, numbered from 1, with the dimensions of
    the page.  For a path made of a directory and a name without slash
    the file name is that name. *)
Theorem layout_record_header :
  forall document pdf_path timestamp,
    let D := _extract_layout_info document pdf_path timestamp in
    v_field (lit "file_path") D = Some (VStr pdf_path) /\
    v_field (lit "file_name") D = Some (VStr (basename pdf_path)) /\
    v_field (lit "processing_timestamp") D = Some (VStr timestamp) /\
    v_field (lit "status") D = Some (VStr (lit "success")) /\
    v_field (lit "document_info") D
    = Some (VDict [(lit "total_pages", VInt (len (pages document)));
                   (lit "text_length", VInt (len (text document)))]) /\
    (exists page_infos,
        v_field (lit "pages") D = Some (VList page_infos) /\
        len page_infos = len (pages document) /\
        forall (i : nat) page,
          pages document !! i = Some page ->
          exists info,
            page_infos !! i = Some info /\
            v_field (lit "page_number") info = Some (VInt (Z.of_nat i + 1)) /\
            v_field (lit "width") info = Some (VFloat (width (dimension page))) /\
            v_field (lit "height") info = Some (VFloat (height (dimension page)))) /\
    (forall dir name,
        ~ In 47%N name ->
        v_field (lit "file_name") (_extract_layout_info document (path_join dir name) timestamp)
        = Some (VStr name)).
Proof.
  intros document pdf_path timestamp D. subst D.
  split; [rewrite layout_info_other by not_list_key; reflexivity|].
  split; [rewrite layout_info_other by not_list_key; reflexivity|].
  split; [rewrite layout_info_other by not_list_key; reflexivity|].
  split; [rewrite layout_info_other by not_list_key; reflexivity|].
  split; [rewrite layout_info_other by not_list_key; reflexivity|].
  split.
  - destruct (_extract_layout_info_holds document pdf_path timestamp) as (d & -> & Hp & _).
    cbn [lists_from no_lists l_pages app] in Hp.
    eexists. split; [exact Hp|]. split.
    + unfold len. by rewrite length_map, length_enumerate_from.
    + intros i page Hi. eexists. split.
      * rewrite list_lookup_fmap, (enumerate_from_lookup _ 0 i page Hi). reflexivity.
      * cbn [v_field page_summary]. repeat split.
  - intros dir name Hname. rewrite layout_info_other by not_list_key.
    cbn. by rewrite basename_path_join.
Qed.

Lemma layout_record_header_witness :
  v_field (lit "file_name")
    (_extract_layout_info sample_document (path_join (lit "PDFs") (lit "a.pdf"))
       (lit "2024-05-01T10:00:00")) = Some (VStr (lit "a.pdf")) /\
  exists page_infos info,
    v_field (lit "pages")
      (_extract_layout_info sample_document (lit "PDFs/a.pdf") (lit "2024-05-01T10:00:00"))
    = Some (VList page_infos) /\
    page_infos !! 0%nat = Some info /\
    v_field (lit "page_number") info = Some (VInt 1).
Proof.
  destruct (layout_record_header sample_document (lit "PDFs/a.pdf")
              (lit "2024-05-01T10:00:00")) as (_ & _ & _ & _ & _ & Hp & Hn).
  split.
  - apply Hn. vm_compute. intros H.
    repeat (destruct H as [H|H]; [discriminate H|]). exact H.
  - destruct Hp as (page_infos & Hp & _ & Hi).
    destruct (Hi 0%nat _ eq_refl) as (info & H1 & H2 & _).
    by exists page_infos, info.
Defined.

Lemma each_from_elem {A} (f : A -> Z -> value) (items : list A) (k : nat) (a : A) :
  items !! k = Some a -> each_from f 0 items !! k = Some (f a (Z.of_nat k)).
Proof.
  intros H. unfold each_from. rewrite list_lookup_fmap.
  by rewrite (enumerate_from_lookup items 0 k a H).
Qed.

Lemma children_of_elem {A} (sel : Page -> list A) (f : Z -> A -> Z -> value)
    (pages : list Page) (p k : nat) (page : Page) (a : A) :
  pages !! p = Some page -> sel page !! k = Some a ->
  In (f (Z.of_nat p + 1) a (Z.of_nat k)) (children_of sel f 0 pages).
Proof.
  intros Hp Hk. unfold children_of. apply in_flat_map.
  exists (Z.of_nat p, page). split.
  - apply list_elem_of_In, list_elem_of_lookup. exists p.
    by rewrite (enumerate_from_lookup pages 0 p page Hp).
  - apply list_elem_of_In, list_elem_of_lookup. exists k.
    by apply each_from_elem.
Qed.

(** Flattening keeps order: each child list of a layout record is the
    concatenation, page after page, of the records of the children of
    that kind, each built with the number of its page (from 1) and its
    position on the page (from 0).  No child is dropped: the record of
    the block at position [k] of the page at position [p] is in the
    list. *)
Theorem flattening_preserves_order :
  forall document pdf_path timestamp,
    let D := _extract_layout_info document pdf_path timestamp in
    let document_text := text document in
    v_field (lit "blocks") D
    = Some (VList (children_of blocks (text_element document_text (lit "block")) 0
                     (pages document))) /\
    v_field (lit "paragraphs") D
    = Some (VList (children_of paragraphs (text_element document_text (lit "paragraph")) 0
                     (pages document))) /\
    v_field (lit "lines") D
    = Some (VList (children_of lines (text_element document_text (lit "line")) 0
                     (pages document))) /\
    v_field (lit "tokens") D
    = Some (VList (children_of tokens (text_element document_text (lit "token")) 0
                     (pages document))) /\
    v_field (lit "tables") D
    = Some (VList (children_of tables (table_record document_text) 0 (pages document))) /\
    v_field (lit "form_fields") D
    = Some (VList (children_of form_fields (field_record document_text) 0 (pages document))) /\
    (forall (p k : nat) page element,
        pages document !! p = Some page -> blocks page !! k = Some element ->
        In (_extract_text_element_info element document_text (Z.of_nat p + 1)
              (lit "block") (Z.of_nat k))
           (children_of blocks (text_element document_text (lit "block")) 0 (pages document))).
Proof.
  intros document pdf_path timestamp D document_text. subst D document_text.
  destruct (_extract_layout_info_holds document pdf_path timestamp)
    as (d & -> & _ & Hb & Hpa & Hl & Ht & Hta & Hf & _).
  cbn [lists_from no_lists l_blocks l_paragraphs l_lines l_tokens l_tables
       l_form_fields app] in *.
  repeat (split; [assumption|]).
  intros p k page element Hp Hk.
  apply (children_of_elem blocks (text_element (text document) (lit "block"))
           (pages document) p k page element Hp Hk).
Qed.

Lemma flattening_preserves_order_witness :
  In (_extract_text_element_info {| layout := None |} (text sample_document) 1 (lit "block") 1)
     (children_of blocks (text_element (text sample_document) (lit "block")) 0
        (pages sample_document)).
Proof.
  destruct (flattening_preserves_order sample_document (lit "PDFs/a.pdf") [])
    as (_ & _ & _ & _ & _ & _ & H).
  eapply (H 0%nat 1%nat); reflexivity.
Defined.

Section Process_facts.
Variable path_exists : pystr -> bool.
Variable read_bytes : pystr -> result (list Byte.byte).
Variable process_document : list Byte.byte -> result Document.
Variable clock : pystr -> pystr.

Lemma process_pdf_try_ok_iff pdf_path v :
  process_pdf_try path_exists read_bytes process_document clock pdf_path = Ok v <->
  exists content document,
    path_exists pdf_path = true /\
    read_bytes pdf_path = Ok content /\
    content <> [] /\
    process_document content = Ok document /\
    v = _extract_layout_info document pdf_path (clock pdf_path).
Proof.
  unfold process_pdf_try. split.
  - destruct (path_exists pdf_path); simpl; [|discriminate].
    destruct (read_bytes pdf_path) as [content|e]; simpl; [|discriminate].
    destruct (Z.eqb_spec (len content) 0) as [E|E]; [discriminate|].
    destruct (process_document content) as [document|e] eqn:Ed; simpl; [|discriminate].
    intros [= <-]. exists content, document. repeat split; try done.
    intros ->. by apply E.
  - intros (content & document & -> & -> & Hne & Hd & ->). simpl.
    destruct (Z.eqb_spec (len content) 0) as [E|E].
    + destruct content; [done|]. unfold len in E. simpl in E. lia.
    + by rewrite Hd.
Qed.

(** The record of a file carries the path of the file, and its status is
    "success" or "failed".  It is "success" exactly when the file exists,
    is read, is not empty and the service returns a document, and the
    record is then the layout record of that document.  A failed record
    has an error message and neither pages nor document information. *)
Theorem process_pdf_record :
  forall pdf_path,
    let D := process_pdf path_exists read_bytes process_document clock pdf_path in
    v_field (lit "file_path") D = Some (VStr pdf_path) /\
    (v_field (lit "status") D = Some (VStr (lit "success")) \/
     v_field (lit "status") D = Some (VStr (lit "failed"))) /\
    (v_field (lit "status") D = Some (VStr (lit "success")) <->
     exists content document,
       path_exists pdf_path = true /\
       read_bytes pdf_path = Ok content /\
       content <> [] /\
       process_document content = Ok document /\
       D = _extract_layout_info document pdf_path (clock pdf_path)) /\
    (v_field (lit "status") D = Some (VStr (lit "failed")) ->
     (exists message, v_field (lit "error") D = Some (VStr message)) /\
     v_field (lit "pages") D = None /\
     v_field (lit "document_info") D = None).
Proof.
  intros pdf_path D. subst D. unfold process_pdf.
  destruct (process_pdf_try _ _ _ _ pdf_path) as [v|e] eqn:Htry.
  - pose proof Htry as Hok.
    apply process_pdf_try_ok_iff in Hok
      as (content & document & H1 & H2 & H3 & H4 & ->).
    assert (Hs : v_field (lit "status")
                   (_extract_layout_info document pdf_path (clock pdf_path))
                 = Some (VStr (lit "success")))
      by (rewrite layout_info_other by not_list_key; reflexivity).
    split; [rewrite layout_info_other by not_list_key; reflexivity|].
    split; [by left|]. split.
    + split; [|done]. intros _. by exists content, document.
    + rewrite Hs. intros H. vm_compute in H. discriminate H.
  - split; [reflexivity|]. split; [by right|]. split.
    + split.
      * intros H. vm_compute in H. discriminate H.
      * intros (content & document & H1 & H2 & H3 & H4 & _).
        assert (Hok : process_pdf_try path_exists read_bytes process_document clock pdf_path
                      = Ok (_extract_layout_info document pdf_path (clock pdf_path)))
          by (apply process_pdf_try_ok_iff; by exists content, document).
        rewrite Htry in Hok. discriminate Hok.
    + intros _. split; [by eexists|]. split; reflexivity.
Qed.

Lemma store_extends v h : exists objs, snd (store v h) = h ++ objs.
Proof. destruct (store_stores_well v h) as (objs & E & _). eauto. Qed.

(** The batch loop only adds: the objects of the store and the items of
    the corpus it starts from stay as they are, in place, one item is
    added per file, and no file is written. *)
Theorem batch_only_adds :
  forall pdf_files self,
    let self' := process_all_pdfs path_exists read_bytes process_document clock
                   pdf_files self in
    (exists objs, objects self' = objects self ++ objs) /\
    (exists refs, dataset self' = dataset self ++ refs /\ length refs = length pdf_files) /\
    files self' = files self.
Proof.
  intros pdf_files. induction pdf_files as [|f fs IH]; intros self self'; subst self'.
  - split; [exists []; by rewrite app_nil_r|].
    split; [exists []; by rewrite app_nil_r|done].
  - unfold process_all_pdfs. cbn [fold_left].
    set (s1 := dataset_append _ self).
    destruct (IH s1) as ((objs & Ho) & (refs & Hd & Hl) & Hf).
    unfold process_all_pdfs in Ho, Hd, Hf. rewrite Ho, Hd, Hf.
    subst s1. unfold dataset_append.
    destruct (store_extends (process_pdf path_exists read_bytes process_document clock f)
                (objects self)) as (objs1 & E1).
    destruct (store _ (objects self)) as [r h1]. simpl in E1. subst h1.
    cbn [objects dataset files].
    split; [exists (objs1 ++ objs); by rewrite app_assoc|].
    split; [|done].
    exists (r :: refs). rewrite <- app_assoc. split; [done|]. simpl. by rewrite Hl.
Qed.
End Process_facts.

Lemma process_pdf_record_witness :
  v_field (lit "status") (sample_process_pdf (lit "pdfs/a.pdf")) = Some (VStr (lit "success")) /\
  v_field (lit "pages") (sample_process_pdf (lit "pdfs/empty.pdf")) = None.
Proof.
  split.
  - destruct (process_pdf_record sample_exists sample_read sample_service sample_clock
                (lit "pdfs/a.pdf")) as (_ & _ & H & _).
    apply H. exists [Byte.x25; Byte.x50; Byte.x44; Byte.x46], sample_document.
    repeat split; done.
  - destruct (process_pdf_record sample_exists sample_read sample_service sample_clock
                (lit "pdfs/empty.pdf")) as (_ & _ & _ & H).
    apply H. reflexivity.
Defined.

Lemma paragraph_text_stripped p t : paragraph_text p = Ok t -> stripped t.
Proof.
  unfold paragraph_text. destruct (v_get p (lit "text")) as [v|]; simpl; [|discriminate].
  destruct (default (VStr []) v); try discriminate.
  intros [= <-]. apply strip_stripped.
Qed.

Lemma extract_doc_paragraphs_good min_length ps : forall acc out,
  Forall (good_line min_length) acc ->
  extract_doc_paragraphs min_length ps acc = Ok out ->
  Forall (good_line min_length) out /\ (length acc <= length out)%nat.
Proof.
  induction ps as [|p ps IH]; intros acc out Hacc; simpl.
  - intros [= <-]. auto.
  - destruct (paragraph_text p) as [t|] eqn:Ht; simpl; [|discriminate].
    destruct (Z.leb_spec min_length (len t)) as [Hlen|_].
    + intros H. apply IH in H as [H1 H2].
      * split; [done|]. rewrite length_app in H2. simpl in H2. lia.
      * apply Forall_app. split; [done|]. constructor; [|constructor].
        exists t. split; [done|]. split; [done|]. by eapply paragraph_text_stripped.
    + by apply IH.
Qed.

Lemma extract_docs_good min_length docs : forall acc n out m,
  Forall (good_line min_length) acc ->
  extract_docs min_length docs (acc, n) = Ok (out, m) ->
  Forall (good_line min_length) out.
Proof.
  induction docs as [|doc docs IH]; intros acc n out m Hacc; simpl.
  - by intros [= <- <-].
  - destruct (v_get doc (lit "status")) as [status|]; simpl; [|discriminate].
    destruct status as [[| | |s| | |]|]; try (by apply IH).
    destruct (bool_decide (s = lit "success")); [|by apply IH].
    destruct (v_get doc (lit "paragraphs")) as [found|]; simpl; [|discriminate].
    destruct (v_len (default (VList []) found)) as [k|]; simpl; [|discriminate].
    destruct (v_iter (default (VList []) found)) as [items|]; simpl; [|discriminate].
    destruct (extract_doc_paragraphs min_length items acc) as [paragraphs|] eqn:E;
      simpl; [|discriminate].
    apply IH. by eapply extract_doc_paragraphs_good.
Qed.

(** Whatever the corpus file holds, every line the extractor writes is an
    object with the one field "text" whose value is stripped and has at
    least the minimum length, and a file that is written has at least one
    line.  Without a corpus file nothing is written and nothing is
    raised. *)
Theorem extractor_lines_are_long_and_stripped :
  (forall min_length dataset_file lines,
      extract_llm_dataset min_length dataset_file = Ok (Some lines) ->
      lines <> [] /\ Forall (good_line min_length) lines) /\
  (forall min_length, extract_llm_dataset min_length None = Ok None).
Proof.
  split; [|reflexivity].
  intros min_length [dataset|] lines; [|discriminate]. unfold extract_llm_dataset.
  destruct (v_iter dataset) as [docs|]; simpl; [|discriminate].
  destruct (extract_docs min_length docs ([], 0)) as [[paragraphs total]|] eqn:E;
    simpl; [|discriminate].
  destruct paragraphs as [|p ps]; [discriminate|].
  intros [= <-]. split; [discriminate|].
  by eapply (extract_docs_good min_length docs [] 0).
Qed.

Lemma extractor_lines_are_long_and_stripped_witness :
  Forall (good_line 3)
    [VDict [(lit "text", VStr (lit "abcd"))]].
Proof.
  destruct extractor_lines_are_long_and_stripped as [H _].
  apply (H 3 (Some (VList [VDict [(lit "status", VStr (lit "success"));
                                  (lit "paragraphs",
                                   VList [VDict [(lit "text", VStr (lit " abcd "))];
                                          VDict [(lit "text", VStr (lit " ab"))]])]]))).
  reflexivity.
Defined.

(** In a corpus of dicts the documents whose status is not "success" are
    passed over without being looked into: the extractor does on the
    corpus what it does on its successful documents alone, whatever the
    other records hold. *)
Theorem extractor_skips_unsuccessful_documents :
  forall min_length docs acc,
    forallb is_dict docs = true ->
    extract_docs min_length docs acc
    = extract_docs min_length (List.filter is_successful docs) acc.
Proof.
  intros min_length docs. induction docs as [|doc docs IH]; intros acc H; [done|].
  apply andb_prop in H as [Hd Hds].
  destruct doc as [| | | | | |kvs]; try discriminate.
  cbn [List.filter]. unfold is_successful at 1. cbn [v_field].
  destruct (dict_get (lit "status") kvs) as [[| | |s| | |]|] eqn:Est;
    try (cbn [extract_docs v_get mbind result_bind]; rewrite Est; by apply IH).
  destruct (bool_decide (s = lit "success")) eqn:Es.
  - cbn [extract_docs v_get mbind result_bind]. rewrite Est, Es.
    destruct (dict_get (lit "paragraphs") kvs) as [found|]; cbn [mbind result_bind].
    + destruct (v_len (default (VList []) (Some found))); cbn [mbind result_bind]; [|done].
      destruct (v_iter (default (VList []) (Some found))); cbn [mbind result_bind]; [|done].
      destruct (extract_doc_paragraphs _ _ _); cbn [mbind result_bind]; [|done].
      by apply IH.
    + destruct (v_len (default (VList []) None)); cbn [mbind result_bind]; [|done].
      destruct (v_iter (default (VList []) None)); cbn [mbind result_bind]; [|done].
      destruct (extract_doc_paragraphs _ _ _); cbn [mbind result_bind]; [|done].
      by apply IH.
  - cbn [extract_docs v_get mbind result_bind]. rewrite Est, Es. by apply IH.
Qed.

Lemma extractor_skips_unsuccessful_documents_witness :
  extract_docs 1
    [VDict [(lit "status", VStr (lit "failed")); (lit "paragraphs", VInt 7)];
     VDict [(lit "status", VStr (lit "success"));
            (lit "paragraphs", VList [VDict [(lit "text", VStr (lit "ab"))]])]]
    ([], 0)
  = Ok ([VDict [(lit "text", VStr (lit "ab"))]], 1).
Proof.
  rewrite extractor_skips_unsuccessful_documents; reflexivity.
Defined.

Lemma load_scalar n h r :
  match r with HRef _ => True | _ => load n h r = Some
    match r with
    | HNone => VNone | HInt z => VInt z | HFloat q => VFloat q | HStr s => VStr s
    | HRef _ => VNone
    end end.
Proof. destruct r; try done; by destruct n. Qed.

Lemma load_dict n h r kvs :
  load n h r = Some (VDict kvs) ->
  exists l rkvs n',
    r = HRef l /\ n = S n' /\ h !! l = Some (ODict rkvs) /\
    Forall2 (fun rkv kv => fst rkv = fst kv /\ load n' h (snd rkv) = Some (snd kv)) rkvs kvs.
Proof.
  destruct r as [| | | |l]; try (destruct n; discriminate).
  destruct n as [|n']; [discriminate|]. simpl.
  destruct (h !! l) as [[rkvs|rs|rs]|] eqn:E; try discriminate.
  - intros (kvs' & Hm & [= <-])%fmap_Some.
    exists l, rkvs, n'. repeat split; try done.
    apply mapM_Some in Hm. eapply Forall2_impl; [exact Hm|].
    intros [k r] [k' v]. simpl. intros (v' & Hv & [= -> ->])%fmap_Some. done.
  - intros (? & _ & [=])%fmap_Some.
  - intros (? & _ & [=])%fmap_Some.
Qed.

Lemma load_list n h r vs :
  load n h r = Some (VList vs) ->
  exists l rs n',
    r = HRef l /\ n = S n' /\ h !! l = Some (OList rs) /\ length rs = length vs.
Proof.
  destruct r as [| | | |l]; try (destruct n; discriminate).
  destruct n as [|n']; [discriminate|]. simpl.
  destruct (h !! l) as [[rkvs|rs|rs]|] eqn:E; try discriminate.
  - intros (? & _ & [=])%fmap_Some.
  - intros (vs' & Hm & [= <-])%fmap_Some.
    exists l, rs, n'. repeat split; try done. by eapply length_mapM.
  - intros (? & _ & [=])%fmap_Some.
Qed.

Lemma dict_get_loaded (n : nat) (h : heap) k rkvs kvs :
  Forall2 (fun (rkv : pystr * hval) (kv : pystr * value) =>
             fst rkv = fst kv /\ load n h (snd rkv) = Some (snd kv)) rkvs kvs ->
  match dict_get k rkvs, dict_get k kvs with
  | Some r, Some v => load n h r = Some v
  | None, None => True
  | _, _ => False
  end.
Proof.
  induction 1 as [|[k1 r] [k2 v] rkvs kvs [Hk Hv] _ IH]; simpl; [done|].
  simpl in Hk, Hv. subst k2. by destruct (decide (k = k1)).
Qed.

Lemma eq_str_loaded n h r v status :
  load n h r = Some v ->
  eq_str (Some r) status = match v with VStr s => bool_decide (s = status) | _ => false end.
Proof.
  destruct r as [| | | |l].
  - pose proof (load_scalar n h HNone) as E. simpl in E. rewrite E. by intros [= <-].
  - pose proof (load_scalar n h (HInt n0)) as E. simpl in E. rewrite E. by intros [= <-].
  - pose proof (load_scalar n h (HFloat q)) as E. simpl in E. rewrite E. by intros [= <-].
  - pose proof (load_scalar n h (HStr s)) as E. simpl in E. rewrite E. by intros [= <-].
  - destruct n as [|n']; [discriminate|]. simpl.
    destruct (h !! l) as [[]|]; try discriminate;
      intros (? & _ & ->)%fmap_Some; reflexivity.
Qed.

Lemma has_status_loaded n h r kvs status :
  load n h r = Some (VDict kvs) ->
  has_status h status r = Ok (status_is status (VDict kvs)).
Proof.
  intros (l & rkvs & n' & -> & -> & Hl & Hf)%load_dict.
  unfold has_status, py_get, dict_of, status_is. rewrite Hl. cbn [mbind result_bind v_field].
  pose proof (dict_get_loaded n' h (lit "status") rkvs kvs Hf) as H.
  destruct (dict_get (lit "status") rkvs) as [r|], (dict_get (lit "status") kvs) as [v|];
    try done.
  by rewrite (eq_str_loaded n' h r v status H).
Qed.

Lemma with_status_loaded n h status ds docs :
  Forall2 (fun r doc => load n h r = Some doc) ds docs ->
  forallb is_dict docs = true ->
  exists kept,
    with_status h status ds = Ok kept /\
    length kept = length (List.filter (status_is status) docs).
Proof.
  induction 1 as [|r doc ds docs Hr _ IH]; intros Hd; simpl.
  - by exists [].
  - apply andb_prop in Hd as [Hdoc Hdocs]. destruct doc as [| | | | | |kvs]; try discriminate.
    rewrite (has_status_loaded n h r kvs status Hr). cbn [mbind result_bind].
    destruct (IH Hdocs) as (kept & -> & Hlen). cbn [mbind result_bind].
    destruct (status_is status (VDict kvs)); eexists; (split; [reflexivity|]); simpl; lia.
Qed.

Lemma summary_counts :
  forall s docs summary,
    corpus s = Some docs ->
    forallb is_dict docs = true ->
    summary_statistics (objects s) (dataset s) = Ok summary ->
    dict_get (lit "total_documents") summary = Some (HInt (len docs)) /\
    dict_get (lit "successful_documents") summary
    = Some (HInt (len (List.filter (status_is (lit "success")) docs))) /\
    dict_get (lit "failed_documents") summary
    = Some (HInt (len (List.filter (status_is (lit "failed")) docs))).
Proof.
  intros s docs summary Hc Hd. unfold corpus in Hc. apply mapM_Some in Hc.
  destruct (with_status_loaded _ _ (lit "success") _ _ Hc Hd) as (ok & Hok & Lok).
  destruct (with_status_loaded _ _ (lit "failed") _ _ Hc Hd) as (ko & Hko & Lko).
  unfold summary_statistics. rewrite Hok, Hko. cbn [mbind result_bind]. intros H.
  bind_ok H total_pages E3. bind_ok H b1 E4. bind_ok H b2 E5. bind_ok H b3 E6.
  bind_ok H b4 E7. bind_ok H b5 E8. bind_ok H b6 E9.
  cbv zeta in H.
  assert (Hlen : len (dataset s) = len docs)
    by (unfold len; by rewrite (Forall2_length _ _ _ Hc)).
  assert (Hs : len ok = len (List.filter (status_is (lit "success")) docs))
    by (unfold len; by rewrite Lok).
  assert (Hf : len ko = len (List.filter (status_is (lit "failed")) docs))
    by (unfold len; by rewrite Lko).
  destruct (0 <? len ok).
  - bind_ok H average E10. injection H as <-. cbn. by rewrite Hlen, Hs, Hf.
  - injection H as <-. cbn. by rewrite Hlen, Hs, Hf.
Qed.

(** The counts of the summary are those of the corpus: of all its
    records, of those whose status is "success" and of those whose status
    is "failed". *)
Theorem summary_counts_documents_by_status :
  forall s docs summary,
    corpus s = Some docs ->
    forallb is_dict docs = true ->
    summary_statistics (objects s) (dataset s) = Ok summary ->
    dict_get (lit "total_documents") summary = Some (HInt (len docs)) /\
    dict_get (lit "successful_documents") summary
    = Some (HInt (len (List.filter (status_is (lit "success")) docs))) /\
    dict_get (lit "failed_documents") summary
    = Some (HInt (len (List.filter (status_is (lit "failed")) docs))).
Proof. exact summary_counts. Qed.

Lemma summary_counts_documents_by_status_witness :
  let docs := map sample_process_pdf sample_files in
  dict_get (lit "total_documents") sample_summary_fields = Some (HInt (len docs)) /\
  dict_get (lit "successful_documents") sample_summary_fields
  = Some (HInt (len (List.filter (status_is (lit "success")) docs))) /\
  dict_get (lit "failed_documents") sample_summary_fields
  = Some (HInt (len (List.filter (status_is (lit "failed")) docs))).
Proof.
  apply (summary_counts_documents_by_status sample_state
           (map sample_process_pdf sample_files) sample_summary_fields).
  - vm_compute. reflexivity.
  - vm_compute. reflexivity.
  - vm_compute. reflexivity.
Defined.

Lemma py_len_loaded n h r v :
  load n h r = Some v ->
  match v with VStr _ | VTuple _ | VList _ | VDict _ => True | _ => False end ->
  exists k, py_len h r = Ok k.
Proof.
  destruct r as [| | | |l].
  - pose proof (load_scalar n h HNone) as E. simpl in E. rewrite E. by intros [= <-].
  - pose proof (load_scalar n h (HInt n0)) as E. simpl in E. rewrite E. by intros [= <-].
  - pose proof (load_scalar n h (HFloat q)) as E. simpl in E. rewrite E. by intros [= <-].
  - intros _ _. simpl. eauto.
  - destruct n as [|n']; [discriminate|]. simpl.
    destruct (h !! l) as [[]|]; [eauto..|discriminate].
Qed.

Lemma number_loaded n h r v :
  load n h r = Some v ->
  match v with VInt _ | VFloat _ => True | _ => False end ->
  is_Some (number r).
Proof.
  destruct r as [| | | |l].
  - pose proof (load_scalar n h HNone) as E. simpl in E. rewrite E. by intros [= <-].
  - intros _ _. by eexists.
  - intros _ _. by eexists.
  - pose proof (load_scalar n h (HStr s)) as E. simpl in E. rewrite E. by intros [= <-].
  - destruct n as [|n']; [discriminate|]. simpl.
    destruct (h !! l) as [[]|]; try discriminate;
      intros (? & _ & ->)%fmap_Some; done.
Qed.

Lemma sized_loaded n h k rkvs kvs :
  Forall2 (fun (rkv : pystr * hval) (kv : pystr * value) =>
             fst rkv = fst kv /\ load n h (snd rkv) = Some (snd kv)) rkvs kvs ->
  match dict_get k kvs with
  | None | Some (VStr _) | Some (VTuple _) | Some (VList _) | Some (VDict _) => true
  | _ => false
  end = true ->
  match dict_get k rkvs with
  | None => true
  | Some v => match py_len h v with Ok _ => true | Raise _ => false end
  end = true.
Proof.
  intros Hf Hk. pose proof (dict_get_loaded n h k rkvs kvs Hf) as H.
  destruct (dict_get k rkvs) as [r|], (dict_get k kvs) as [v|]; try done.
  destruct (py_len_loaded n h r v H) as [len ->]; [|done].
  by destruct v.
Qed.

Lemma doc_ok_loaded n h r doc :
  load n h r = Some doc -> doc_ok_tree doc = true -> doc_ok h r = true.
Proof.
  intros Hl Hok. destruct doc as [| | | | | |kvs]; try discriminate.
  pose proof (has_status_loaded n h r kvs (lit "success") Hl) as Hst.
  apply load_dict in Hl as (l & rkvs & n' & -> & -> & Hh & Hf).
  unfold doc_ok, dict_of. rewrite Hh.
  unfold has_status, py_get, dict_of in Hst. rewrite Hh in Hst.
  cbn [mbind result_bind] in Hst. injection Hst as Hst. rewrite Hst.
  unfold doc_ok_tree in Hok.
  destruct (status_is (lit "success") (VDict kvs)); [|done].
  cbv zeta in Hok |- *.
  repeat (apply andb_prop in Hok as [Hok ?]).
  repeat (apply andb_true_intro; split); try (by eapply sized_loaded).
  pose proof (dict_get_loaded n' h (lit "document_info") rkvs kvs Hf) as Hinfo.
  destruct (dict_get (lit "document_info") rkvs) as [rinfo|],
           (dict_get (lit "document_info") kvs) as [info|]; try done.
  destruct info as [| | | | | |fields]; try discriminate.
  apply load_dict in Hinfo as (li & rfields & n'' & -> & -> & Hi & Hff).
  unfold dict_of. rewrite Hi.
  pose proof (dict_get_loaded n'' h (lit "total_pages") rfields fields Hff) as Htp.
  destruct (dict_get (lit "total_pages") rfields) as [rtp|],
           (dict_get (lit "total_pages") fields) as [tp|]; try done.
  apply bool_decide_eq_true. eapply number_loaded; [exact Htp|]. by destruct tp.
Qed.

Lemma layout_record_ok document pdf_path timestamp :
  doc_ok_tree (_extract_layout_info document pdf_path timestamp) = true.
Proof.
  pose proof (layout_info_other document pdf_path timestamp (lit "status")) as Hs.
  pose proof (layout_info_other document pdf_path timestamp (lit "document_info")) as Hi.
  destruct (_extract_layout_info_holds document pdf_path timestamp)
    as (d & E & _ & Hb & Hpa & Hl & Ht & Hta & Hf & _).
  rewrite E in Hs, Hi |- *. cbn [v_field] in Hs, Hi.
  unfold doc_ok_tree, status_is. cbn [v_field].
  rewrite Hs by not_list_key. cbn [dict_get].
  rewrite Hi by not_list_key. rewrite Hb, Hpa, Hl, Ht, Hta, Hf.
  vm_compute. reflexivity.
Qed.

Section Batch_summary.
Variable path_exists : pystr -> bool.
Variable read_bytes : pystr -> result (list Byte.byte).
Variable process_document : list Byte.byte -> result Document.
Variable clock : pystr -> pystr.

Lemma process_pdf_statuses pdf_path :
  let D := process_pdf path_exists read_bytes process_document clock pdf_path in
  let r := process_pdf_try path_exists read_bytes process_document clock pdf_path in
  is_dict D = true /\ doc_ok_tree D = true /\
  status_is (lit "success") D = returned r /\
  status_is (lit "failed") D = negb (returned r).
Proof.
  cbv zeta. unfold process_pdf.
  destruct (process_pdf_try _ _ _ _ pdf_path) as [v|e] eqn:Htry.
  - apply process_pdf_try_ok in Htry as [document ->].
    split; [reflexivity|]. split; [apply layout_record_ok|].
    unfold status_is. rewrite layout_info_other by not_list_key.
    split; reflexivity.
  - repeat split.
Qed.

Lemma filter_status_map (status : pystr) (p : pystr -> bool) (pdf_files : list pystr) :
  (forall f, status_is status
               (process_pdf path_exists read_bytes process_document clock f) = p f) ->
  len (List.filter (status_is status)
         (map (process_pdf path_exists read_bytes process_document clock) pdf_files))
  = len (List.filter p pdf_files).
Proof.
  intros H. unfold len. f_equal.
  induction pdf_files as [|f fs IH]; [done|]. simpl. rewrite H.
  destruct (p f); simpl; by rewrite IH.
Qed.

Lemma len_filter_negb {A} (p : A -> bool) (xs : list A) :
  len (List.filter p xs) + len (List.filter (fun a => negb (p a)) xs) = len xs.
Proof.
  unfold len. induction xs as [|a xs IH]; [done|]. simpl.
  destruct (p a); simpl; lia.
Qed.

(** After a batch run that starts with an empty corpus, computing the
    summary returns; it counts one document per file, every document as
    either successful or failed, and exactly the files whose processing
    raised nothing as successful. *)
Theorem summary_of_a_batch :
  forall pdf_files,
    let s := process_all_pdfs path_exists read_bytes process_document clock
               pdf_files empty_state in
    let ok := len (List.filter
                     (fun f => returned (process_pdf_try path_exists read_bytes
                                           process_document clock f)) pdf_files) in
    exists summary,
      summary_statistics (objects s) (dataset s) = Ok summary /\
      dict_get (lit "total_documents") summary = Some (HInt (len pdf_files)) /\
      dict_get (lit "successful_documents") summary = Some (HInt ok) /\
      dict_get (lit "failed_documents") summary = Some (HInt (len pdf_files - ok)).
Proof.
  intros pdf_files s ok.
  assert (Hc : corpus s = Some (map (process_pdf path_exists read_bytes process_document
                                       clock) pdf_files)).
  { subst s. by rewrite (corpus_process_all_pdfs _ _ _ _ pdf_files empty_state []). }
  set (docs := map _ pdf_files) in Hc.
  assert (Hd : forallb is_dict docs = true).
  { apply forallb_forall. intros D (f & <- & _)%in_map_iff. apply process_pdf_statuses. }
  assert (Hok : forallb (doc_ok (objects s)) (dataset s) = true).
  { unfold corpus in Hc. apply mapM_Some in Hc.
    assert (Hall : Forall (fun D => doc_ok_tree D = true) docs).
    { apply Forall_forall. intros D (f & <- & _)%list_elem_of_In%in_map_iff.
      apply process_pdf_statuses. }
    clear Hd. induction Hc as [|r D ds docs' Hr _ IH]; [done|].
    apply Forall_cons in Hall as [HD Hall]. simpl.
    rewrite (doc_ok_loaded _ _ r D Hr HD). by apply IH. }
  destruct (summary_statistics_ok _ _ Hok) as [summary Hsum].
  exists summary. split; [exact Hsum|].
  destruct (summary_counts s docs summary Hc Hd Hsum) as (H1 & H2 & H3).
  subst docs.
  rewrite (filter_status_map (lit "success")
             (fun f => returned (process_pdf_try path_exists read_bytes
                                   process_document clock f))) in H2
    by (intros f; apply process_pdf_statuses).
  rewrite (filter_status_map (lit "failed")
             (fun f => negb (returned (process_pdf_try path_exists read_bytes
                                         process_document clock f)))) in H3
    by (intros f; apply process_pdf_statuses).
  split; [rewrite H1; unfold len; by rewrite length_map|].
  split; [exact H2|]. rewrite H3. do 2 f_equal.
  pose proof (len_filter_negb
                (fun f => returned (process_pdf_try path_exists read_bytes
                                      process_document clock f)) pdf_files) as Hsplit.
  cbv beta in Hsplit. subst ok. lia.
Qed.
End Batch_summary.

Lemma export_nothing_successful output_dir s :
  with_status (objects s) (lit "success") (dataset s) = Ok [] ->
  _export_to_csv output_dir s = (Ok (), s).
Proof.
  intros H. unfold _export_to_csv, mbind, M_bind, get_objects, get_dataset, lift.
  rewrite H. reflexivity.
Qed.

(** When no record of the corpus has the status "success" (an empty
    corpus, or every file failed) the CSV export returns without writing
    a file and without changing anything. *)
Theorem export_without_successful_documents :
  forall output_dir s docs,
    corpus s = Some docs ->
    forallb is_dict docs = true ->
    List.filter (status_is (lit "success")) docs = [] ->
    _export_to_csv output_dir s = (Ok (), s).
Proof.
  intros output_dir s docs Hc Hd Hnone. apply export_nothing_successful.
  unfold corpus in Hc. apply mapM_Some in Hc.
  destruct (with_status_loaded _ _ (lit "success") _ _ Hc Hd) as (kept & -> & Hlen).
  rewrite Hnone in Hlen. by destruct kept.
Qed.

Lemma export_without_successful_documents_witness :
  let s := process_all_pdfs sample_exists sample_read sample_service sample_clock
             [lit "pdfs/missing.pdf"; lit "pdfs/empty.pdf"] empty_state in
  _export_to_csv (lit "output") s = (Ok (), s).
Proof.
  cbv zeta.
  apply (export_without_successful_documents (lit "output") _
           (map sample_process_pdf [lit "pdfs/missing.pdf"; lit "pdfs/empty.pdf"]));
    vm_compute; reflexivity.
Defined.

Lemma last_component_html s : has_dot (last_component (s ++ lit ".html")) = true.
Proof.
  unfold last_component. rewrite basename_aux_app.
  rewrite basename_aux_no_slash.
  - unfold has_dot. rewrite existsb_app. apply orb_true_r.
  - vm_compute. intros H. repeat (destruct H as [H|H]; [discriminate H|]). exact H.
Qed.

Lemma html_not_root s : s ++ lit ".html" <> lit "/" /\ s ++ lit ".html" <> [].
Proof.
  split.
  - intros E. apply (f_equal (@length _)) in E. rewrite length_app in E.
    simpl in E. lia.
  - intros E. apply (f_equal (@length _)) in E. rewrite length_app in E.
    simpl in E. lia.
Qed.

(** The request handler maps the root to the index page, leaves every
    path whose last component has a dot as it is, and replaces another
    path by the path with ".html" appended (trailing slashes removed)
    exactly when that file exists.  Handling the path it produced gives
    the same path again. *)
Theorem do_GET_path_cases :
  forall file_exists path,
    (path = lit "/" \/ path = [] ->
     do_GET_path file_exists path = lit "/interface/index.html") /\
    (path <> lit "/" -> path <> [] -> has_dot (last_component path) = true ->
     do_GET_path file_exists path = path) /\
    (path <> lit "/" -> path <> [] -> has_dot (last_component path) = false ->
     do_GET_path file_exists path
     = if file_exists (lit "." ++ rstrip_slashes path ++ lit ".html")
       then rstrip_slashes path ++ lit ".html" else path) /\
    do_GET_path file_exists (do_GET_path file_exists path) = do_GET_path file_exists path.
Proof.
  intros file_exists path.
  assert (Hroot : path = lit "/" \/ path = [] ->
                  do_GET_path file_exists path = lit "/interface/index.html").
  { unfold do_GET_path. intros [-> | ->]; reflexivity. }
  assert (Hdot : forall p, p <> lit "/" -> p <> [] -> has_dot (last_component p) = true ->
                           do_GET_path file_exists p = p).
  { intros p H1 H2 H3. unfold do_GET_path.
    rewrite !bool_decide_eq_false_2 by done. simpl. by rewrite H3. }
  assert (Hplain : path <> lit "/" -> path <> [] -> has_dot (last_component path) = false ->
     do_GET_path file_exists path
     = if file_exists (lit "." ++ rstrip_slashes path ++ lit ".html")
       then rstrip_slashes path ++ lit ".html" else path).
  { intros H1 H2 H3. unfold do_GET_path.
    rewrite !bool_decide_eq_false_2 by done. simpl. by rewrite H3. }
  split; [exact Hroot|]. split; [apply Hdot|]. split; [exact Hplain|].
  destruct (decide (path = lit "/")) as [E1|E1]; [rewrite Hroot by auto; reflexivity|].
  destruct (decide (path = [])) as [E2|E2]; [rewrite Hroot by auto; reflexivity|].
  destruct (has_dot (last_component path)) eqn:E3.
  - rewrite (Hdot path) by done. by apply Hdot.
  - rewrite Hplain by done.
    destruct (file_exists (lit "." ++ rstrip_slashes path ++ lit ".html")) eqn:E4.
    + apply Hdot; [apply html_not_root..|apply last_component_html].
    + by rewrite Hplain.
Qed.

Lemma do_GET_path_cases_witness :
  let file_exists := fun p => bool_decide (p = lit "./interface/viewer.html") in
  do_GET_path file_exists (lit "/") = lit "/interface/index.html" /\
  do_GET_path file_exists (lit "/output/blocks.csv") = lit "/output/blocks.csv" /\
  do_GET_path file_exists (lit "/interface/viewer/") = lit "/interface/viewer.html" /\
  do_GET_path file_exists (lit "/interface/other") = lit "/interface/other" /\
  do_GET_path file_exists (do_GET_path file_exists (lit "/interface/viewer/"))
  = do_GET_path file_exists (lit "/interface/viewer/").
Proof.
  cbv zeta.
  pose (file_exists := fun p : pystr => bool_decide (p = lit "./interface/viewer.html")).
  split; [|split; [|split; [|split]]].
  - destruct (do_GET_path_cases file_exists (lit "/")) as (H & _).
    apply H. by left.
  - destruct (do_GET_path_cases file_exists (lit "/output/blocks.csv")) as (_ & H & _).
    apply H; vm_compute; (reflexivity || discriminate).
  - destruct (do_GET_path_cases file_exists (lit "/interface/viewer/")) as (_ & _ & H & _).
    etransitivity; [apply H; vm_compute; (reflexivity || discriminate)|].
    vm_compute. reflexivity.
  - destruct (do_GET_path_cases file_exists (lit "/interface/other")) as (_ & _ & H & _).
    etransitivity; [apply H; vm_compute; (reflexivity || discriminate)|].
    vm_compute. reflexivity.
  - destruct (do_GET_path_cases file_exists (lit "/interface/viewer/")) as (_ & _ & _ & H).
    exact H.
Defined.

Lemma mapM_Ok {A B} (f : A -> result B) (xs : list A) (ys : list B) :
  mapM f xs = Ok ys <-> Forall2 (fun x y => f x = Ok y) xs ys.
Proof.
  revert ys. induction xs as [|x xs IH]; intros ys; simpl.
  - split; [intros [= <-]; constructor|by inversion 1].
  - split.
    + destruct (f x) as [y|] eqn:E; simpl; [|discriminate].
      destruct (mapM f xs) as [ys'|] eqn:E'; simpl; [|discriminate].
      intros [= <-]. constructor; [done|]. by apply IH.
    + inversion 1 as [|? y ? ys' Hy Hys]; subst. rewrite Hy. simpl.
      apply IH in Hys. rewrite Hys. reflexivity.
Qed.

Lemma dump_written (n : nat) (h : heap) : forall (r : hval) (v : value),
  dump n h r = Ok v -> load n h r = Some v /\ json_encodable v = true.
Proof.
  induction n as [|n IH]; intros r v.
  - destruct r as [| | |s|l]; simpl; try (intros [= <-]; done); try discriminate.
    destruct (encodable s) eqn:E; [|discriminate]. by intros [= <-].
  - destruct r as [| | |s|l]; simpl; try (intros [= <-]; done).
    + destruct (encodable s) eqn:E; [|discriminate]. by intros [= <-].
    + destruct (h !! l) as [[rkvs|rs|rs]|]; [| | |discriminate].
      * destruct (mapM _ rkvs) as [kvs|] eqn:E; simpl; [|discriminate].
        intros [= <-]. apply mapM_Ok in E.
        assert (H : Forall2 (fun (rkv : pystr * hval) (kv : pystr * value) =>
                               (let '(k, r) := rkv in (fun v => (k, v)) <$> load n h r)
                               = Some kv /\
                               (let '(k, v) := kv in encodable k && json_encodable v) = true)
                      rkvs kvs).
        { eapply Forall2_impl; [exact E|]. intros [k r] kv. simpl.
          destruct (encodable k) eqn:Ek; [|discriminate].
          destruct (dump n h r) as [v|] eqn:Ev; simpl; [|discriminate].
          intros [= <-]. destruct (IH r v Ev) as [-> ->]. by rewrite Ek. }
        split.
        -- apply fmap_Some. exists kvs. split; [|done]. apply mapM_Some.
           eapply Forall2_impl; [exact H|]. by intros ? ? [? _].
        -- simpl. clear E. induction H as [|? [k v] ? ? [_ Hkv] _ IH2]; [done|].
           simpl. by rewrite Hkv, IH2.
      * destruct (mapM _ rs) as [vs|] eqn:E; simpl; [|discriminate].
        intros [= <-]. apply mapM_Ok in E.
        assert (H : Forall2 (fun r v => load n h r = Some v /\ json_encodable v = true) rs vs)
          by (eapply Forall2_impl; [exact E|]; intros; by apply IH).
        split.
        -- apply fmap_Some. exists vs. split; [|done]. apply mapM_Some.
           eapply Forall2_impl; [exact H|]. by intros ? ? [? _].
        -- simpl. clear E. induction H as [|? ? ? ? [_ ?] _ IH2]; [done|].
           simpl. by rewrite IH2, H.
      * destruct (mapM _ rs) as [vs|] eqn:E; simpl; [|discriminate].
        intros [= <-]. apply mapM_Ok in E.
        assert (H : Forall2 (fun r v => load n h r = Some v /\ json_encodable v = true) rs vs)
          by (eapply Forall2_impl; [exact E|]; intros; by apply IH).
        split.
        -- apply fmap_Some. exists vs. split; [|done]. apply mapM_Some.
           eapply Forall2_impl; [exact H|]. by intros ? ? [? _].
        -- simpl. clear E. induction H as [|? ? ? ? [_ ?] _ IH2]; [done|].
           simpl. by rewrite IH2, H.
Qed.

Lemma dump_loaded (n : nat) (h : heap) : forall (r : hval) (v : value),
  load n h r = Some v -> json_encodable v = true -> dump n h r = Ok v.
Proof.
  induction n as [|n IH]; intros r v.
  - destruct r as [| | |s|l]; simpl; try (intros [= <-]; done); try discriminate.
    intros [= <-]. simpl. by intros ->.
  - destruct r as [| | |s|l]; simpl; try (intros [= <-]; done).
    + intros [= <-]. simpl. by intros ->.
    + destruct (h !! l) as [[rkvs|rs|rs]|]; [| | |discriminate].
      * intros (kvs & Hm & ->)%fmap_Some Henc. simpl in Henc.
        apply mapM_Some in Hm.
        assert (E : mapM (fun '(k, r) =>
                            if encodable k then v ← dump n h r; Ok (k, v)
                            else Raise UnicodeEncodeError) rkvs = Ok kvs).
        { apply mapM_Ok. induction Hm as [|[k r] [k' v] ? ? Hkv _ IH2]; [constructor|].
          simpl in Henc. apply andb_prop in Henc as [[Hk Hv]%andb_prop Hrest].
          constructor; [|by apply IH2].
          simpl in Hkv. apply fmap_Some in Hkv as (v' & Hl & [= -> ->]).
          rewrite Hk, (IH r v' Hl Hv). reflexivity. }
        by rewrite E.
      * intros (vs & Hm & ->)%fmap_Some Henc. simpl in Henc.
        apply mapM_Some in Hm.
        assert (E : mapM (dump n h) rs = Ok vs).
        { apply mapM_Ok. induction Hm as [|r v ? ? Hv _ IH2]; [constructor|].
          simpl in Henc. apply andb_prop in Henc as [Hv' Hrest].
          constructor; [by apply IH|by apply IH2]. }
        by rewrite E.
      * intros (vs & Hm & ->)%fmap_Some Henc. simpl in Henc.
        apply mapM_Some in Hm.
        assert (E : mapM (dump n h) rs = Ok vs).
        { apply mapM_Ok. induction Hm as [|r v ? ? Hv _ IH2]; [constructor|].
          simpl in Henc. apply andb_prop in Henc as [Hv' Hrest].
          constructor; [by apply IH|by apply IH2]. }
        by rewrite E.
Qed.

(** The corpus is written exactly when it can be read back from the
    store and every string of it can be encoded. *)
Lemma dump_corpus s docs :
  mapM (dump (S (length (objects s))) (objects s)) (dataset s) = Ok docs <->
  corpus s = Some docs /\ forallb json_encodable docs = true.
Proof.
  unfold corpus. rewrite mapM_Ok, mapM_Some. split.
  - intros H. split.
    + eapply Forall2_impl; [exact H|]. intros r v Hd. by apply dump_written in Hd as [? _].
    + induction H as [|r v ? ? Hd _ IH]; [done|]. simpl.
      apply dump_written in Hd as [_ ->]. exact IH.
  - intros [H Henc]. induction H as [|r v ? ? Hl _ IH]; [constructor|].
    simpl in Henc. apply andb_prop in Henc as [Hv Hrest].
    constructor; [by apply dump_loaded|by apply IH].
Qed.

Lemma encodable_app a b : encodable (a ++ b) = encodable a && encodable b.
Proof. unfold encodable. apply forallb_app. Qed.

Lemma encodable_lit s : encodable (lit s) = true.
Proof.
  unfold encodable, lit. apply forallb_forall.
  intros c (a & <- & _)%in_map_iff. unfold is_surrogate.
  pose proof (N_ascii_bounded a) as Hb.
  apply negb_true_iff, andb_false_iff. left. apply N.leb_gt. lia.
Qed.

Lemma encodable_incl s t :
  (forall c, In c s -> In c t) -> encodable t = true -> encodable s = true.
Proof.
  unfold encodable. rewrite !forallb_forall. intros Hst Ht c Hc. apply Ht, Hst, Hc.
Qed.

Lemma lstrip_In s c : In c (lstrip s) -> In c s.
Proof.
  induction s as [|a s IH]; simpl; [done|].
  destruct (Py_UNICODE_ISSPACE a); [auto|]. done.
Qed.

Lemma strip_In s c : In c (strip s) -> In c s.
Proof.
  unfold strip, rstrip. intros H. apply in_rev in H. apply lstrip_In in H.
  apply in_rev in H. by apply lstrip_In.
Qed.

Lemma py_slice_In {A} (s : list A) a b c : In c (py_slice s a b) -> In c s.
Proof.
  unfold py_slice. intros H. apply list_elem_of_In in H.
  apply list_elem_of_In. apply subseteq_take in H. by apply subseteq_drop in H.
Qed.

Lemma extract_segments_In document_text segments : forall acc c,
  In c (extract_segments document_text segments acc) -> In c acc \/ In c document_text.
Proof.
  unfold extract_segments. induction segments as [|segment segments IH]; intros acc c; simpl.
  - auto.
  - intros H. apply IH in H as [H|H]; [|auto].
    apply in_app_or in H as [H|H]; [auto|]. right. by eapply py_slice_In.
Qed.

Lemma encodable_extracted document_text segments :
  encodable document_text = true ->
  encodable (strip (extract_segments document_text segments [])) = true.
Proof.
  apply encodable_incl. intros c H. apply strip_In in H.
  by apply extract_segments_In in H as [[]|H].
Qed.

Lemma encodable_field_text part document_text :
  encodable document_text = true ->
  encodable (strip (field_text part document_text)) = true.
Proof.
  intros H. unfold field_text. destruct part as [l|]; [|done].
  destruct (text_anchor l); [|done]. by apply encodable_extracted.
Qed.

Lemma basename_aux_In p : forall cur c,
  In c (basename_aux p cur) -> In c cur \/ In c p.
Proof.
  induction p as [|a p IH]; intros cur c; simpl; [auto|].
  destruct (a =? 47)%N; intros H; apply IH in H as [H|H]; auto.
  - destruct H.
  - apply in_app_or in H as [H|[<-|[]]]; auto.
Qed.

Lemma encodable_basename p : encodable p = true -> encodable (basename p) = true.
Proof.
  apply encodable_incl. intros c H. by apply basename_aux_In in H as [[]|H].
Qed.

Lemma bbox_vertices_encodable bbox : forallb json_encodable (bbox_vertices bbox) = true.
Proof.
  unfold bbox_vertices. destruct (vertices bbox) as [|v vs]; [done|].
  apply forallb_forall. intros ? (? & <- & _)%in_map_iff. reflexivity.
Qed.

Ltac encodable_fields :=
  cbn [json_encodable forallb];
  rewrite ?encodable_lit, ?bbox_vertices_encodable; cbn [andb].

Lemma text_element_encodable element document_text page_num element_type element_num :
  encodable document_text = true -> encodable element_type = true ->
  json_encodable
    (_extract_text_element_info element document_text page_num element_type element_num)
  = true.
Proof.
  intros Ht Hty. unfold _extract_text_element_info.
  destruct (layout element) as [l|]; [|done].
  encodable_fields. rewrite Hty, encodable_extracted by done.
  by destruct (confidence l).
Qed.

Lemma cell_encodable cell document_text page_num table_num row_idx cell_idx cell_type :
  encodable document_text = true -> encodable cell_type = true ->
  json_encodable
    (_extract_cell_info cell document_text page_num table_num row_idx cell_idx cell_type)
  = true.
Proof.
  intros Ht Hty. unfold _extract_cell_info.
  encodable_fields. rewrite Hty, encodable_extracted by done. cbn [andb].
  destruct (cell_layout cell) as [l|]; simpl; [|done].
  by rewrite bbox_vertices_encodable.
Qed.

Lemma form_field_encodable field document_text page_num field_num :
  encodable document_text = true ->
  json_encodable (_extract_form_field_info field document_text page_num field_num) = true.
Proof.
  intros Ht. unfold _extract_form_field_info.
  encodable_fields. by rewrite !encodable_field_text.
Qed.

Lemma dict_append_encodable k x d :
  json_encodable (VDict d) = true -> json_encodable x = true ->
  json_encodable (VDict (dict_append k x d)) = true.
Proof.
  intros Hd Hx. induction d as [|[k' v] d IH]; [done|].
  cbn [json_encodable forallb] in Hd. apply andb_prop in Hd as [[Hk Hv]%andb_prop Hrest].
  cbn [dict_append]. destruct (decide (k = k')) as [->|Hne].
  - destruct v as [| | | | |xs|]; cbn [json_encodable forallb] in *;
      rewrite ?Hk, ?Hv, ?Hrest; try done.
    rewrite forallb_app, Hv. cbn [forallb andb]. by rewrite Hx.
  - cbn [json_encodable forallb]. rewrite Hk, Hv. cbn [andb]. by apply IH.
Qed.

Lemma fold_append_encodable {A} key (f : A -> Z -> value) (l : list (Z * A)) : forall d,
  (forall a n, json_encodable (f a n) = true) ->
  json_encodable (VDict d) = true ->
  json_encodable
    (VDict (fold_left (fun d '(num, item) => dict_append key (f item num) d) l d)) = true.
Proof.
  induction l as [|[n a] l IH]; intros d Hf Hd; [done|].
  simpl. apply IH; [done|]. by apply dict_append_encodable.
Qed.

Lemma extract_each_encodable {A} key (f : A -> Z -> value) items d :
  (forall a n, json_encodable (f a n) = true) ->
  json_encodable (VDict d) = true ->
  json_encodable (VDict (extract_each key f items d)) = true.
Proof. apply fold_append_encodable. Qed.

Lemma extract_rows_encodable document_text page_num table_num cell_type rows d :
  encodable document_text = true -> encodable cell_type = true ->
  json_encodable (VDict d) = true ->
  json_encodable
    (VDict (extract_rows document_text page_num table_num cell_type rows d)) = true.
Proof.
  intros Ht Hty. unfold extract_rows.
  enough (forall i d,
    json_encodable (VDict d) = true ->
    json_encodable
      (VDict
         (fold_left
            (fun table_info '(row_idx, row) =>
               fold_left
                 (fun table_info '(cell_idx, cell) =>
                    let cell_info :=
                      _extract_cell_info cell document_text page_num table_num
                        row_idx cell_idx cell_type in
                    dict_append (lit "cells") cell_info table_info)
                 (enumerate (cells row)) table_info)
            (enumerate_from i rows) d)) = true) as H
    by (intros Hd; exact (H 0 d Hd)).
  induction rows as [|row rows IH]; intros i d' Hd; [done|].
  simpl. apply IH.
  apply (fold_append_encodable (lit "cells")
           (fun cell cell_idx => _extract_cell_info cell document_text page_num table_num
                                   i cell_idx cell_type)); [|done].
  intros. by apply cell_encodable.
Qed.

Lemma table_encodable table document_text page_num table_num :
  encodable document_text = true ->
  json_encodable (_extract_table_info table document_text page_num table_num) = true.
Proof.
  intros Ht. unfold _extract_table_info. cbv zeta.
  assert (H0 : forall a b,
             json_encodable
               (VDict [(lit "page_number", VInt page_num);
                       (lit "table_number", VInt table_num);
                       (lit "rows_count", VInt a);
                       (lit "header_rows_count", VInt b);
                       (lit "cells", VList [])]) = true) by reflexivity.
  destruct (header_rows table) as [|hr hrs]; destruct (body_rows table) as [|br brs];
    repeat (apply extract_rows_encodable; [done|apply encodable_lit|]); apply H0.
Qed.

Lemma extract_page_encodable document_text d page_num page :
  encodable document_text = true ->
  json_encodable (VDict d) = true ->
  json_encodable (VDict (extract_page document_text d page_num page)) = true.
Proof.
  intros Ht Hd. unfold extract_page.
  apply extract_each_encodable; [intros; by apply form_field_encodable|].
  apply extract_each_encodable; [intros; by apply table_encodable|].
  do 4 (apply extract_each_encodable;
        [intros; apply text_element_encodable; [done|apply encodable_lit]|]).
  apply dict_append_encodable; [done|]. by encodable_fields.
Qed.

Lemma layout_record_encodable document pdf_path timestamp :
  encodable (text document) = true ->
  encodable pdf_path = true -> encodable timestamp = true ->
  json_encodable (_extract_layout_info document pdf_path timestamp) = true.
Proof.
  intros Ht Hp Hts. unfold _extract_layout_info, enumerate.
  set (d0 := [_; _; _; _; _; _; _; _; _; _; _; _]).
  assert (H0 : json_encodable (VDict d0) = true).
  { subst d0. encodable_fields. by rewrite Hp, Hts, encodable_basename. }
  clearbody d0. revert d0 H0. generalize 0 as i.
  induction (pages document) as [|page pages IH]; intros i d0 H0; [done|].
  simpl. apply IH. by apply extract_page_encodable.
Qed.

Section Encodable_records.
Variable path_exists : pystr -> bool.
Variable read_bytes : pystr -> result (list Byte.byte).
Variable process_document : list Byte.byte -> result Document.
Variable clock : pystr -> pystr.

(** What comes from outside (the time stamps, the messages of the errors
    of reading and of the service, the text of a document) can be
    encoded. *)
Hypothesis clock_encodable : forall f, encodable (clock f) = true.
Hypothesis read_errors_encodable :
  forall f e, read_bytes f = Raise e -> encodable (str e) = true.
Hypothesis service_errors_encodable :
  forall content e, process_document content = Raise e -> encodable (str e) = true.
Hypothesis document_text_encodable :
  forall content document,
    process_document content = Ok document -> encodable (text document) = true.

Lemma process_pdf_encodable pdf_path :
  encodable pdf_path = true ->
  json_encodable (process_pdf path_exists read_bytes process_document clock pdf_path) = true.
Proof.
  intros Hp. unfold process_pdf, process_pdf_try.
  destruct (negb (path_exists pdf_path)).
  { cbn [str]. encodable_fields. by rewrite Hp, encodable_app, encodable_lit, Hp. }
  destruct (read_bytes pdf_path) as [pdf_content|e] eqn:Hread; cbn [mbind result_bind].
  2: { encodable_fields. by rewrite Hp, (read_errors_encodable _ _ Hread). }
  destruct (len pdf_content =? 0).
  { cbn [str]. encodable_fields. by rewrite Hp, encodable_app, encodable_lit, Hp. }
  destruct (process_document pdf_content) as [document|e] eqn:Hdoc; cbn [mbind result_bind].
  - apply layout_record_encodable; eauto.
  - encodable_fields. by rewrite Hp, (service_errors_encodable _ _ Hdoc).
Qed.

Lemma batch_encodable pdf_files :
  forallb encodable pdf_files = true ->
  forallb json_encodable
    (map (process_pdf path_exists read_bytes process_document clock) pdf_files) = true.
Proof.
  induction pdf_files as [|f fs IH]; [done|].
  simpl. intros [Hf Hfs]%andb_prop. rewrite process_pdf_encodable by done. by apply IH.
Qed.
End Encodable_records.

Lemma path_join_inj a b b' : path_join a b = path_join a b' -> b = b'.
Proof.
  unfold path_join. destruct (rev a) as [|c ?]; [done|].
  destruct (c =? 47)%N; intros E.
  - by apply app_inv_head in E.
  - apply app_inv_head in E. by apply app_inv_head in E.
Qed.

Lemma bind_returns {A B} (m : M A) (f : A -> M B) s b s' :
  (m ≫= f) s = (Ok b, s') -> exists a s1, m s = (Ok a, s1) /\ f a s1 = (Ok b, s').
Proof.
  unfold mbind, M_bind. destruct (m s) as [[a|e] s1]; [eauto|discriminate].
Qed.

Lemma writes_only_ret W {A} (a : A) : writes_only W (mret a).
Proof. by intros s p _. Qed.

Lemma writes_only_bind W {A B} (m : M A) (f : A -> M B) :
  writes_only W m -> (forall a, writes_only W (f a)) -> writes_only W (m ≫= f).
Proof.
  intros Hm Hf s p Hp. specialize (Hm s p Hp).
  unfold mbind, M_bind. destruct (m s) as [[a|e] s1]; simpl in *; [|done].
  by rewrite (Hf a s1 p Hp).
Qed.

Lemma writes_only_weaken (W W' : pystr -> Prop) {A} (m : M A) :
  (forall p, W p -> W' p) -> writes_only W m -> writes_only W' m.
Proof. intros HW Hm s p Hp. apply Hm. auto. Qed.

Lemma writes_only_get_objects W : writes_only W get_objects.
Proof. by intros s p _. Qed.

Lemma writes_only_get_dataset W : writes_only W get_dataset.
Proof. by intros s p _. Qed.

Lemma writes_only_lift W {A} (r : result A) : writes_only W (lift r).
Proof. by intros s p _. Qed.

Lemma writes_only_write_file (W : pystr -> Prop) path c :
  W path -> writes_only W (write_file path c).
Proof.
  intros HW s p Hp. simpl. apply dict_get_set_other. by intros ->.
Qed.

Lemma writes_only_setitem W target k v : writes_only W (py_setitem target k v).
Proof.
  intros s p _. unfold py_setitem. destruct target as [| | | |l]; try done.
  by destruct (objects s !! l) as [[]|].
Qed.

Lemma writes_only_mapM W {A B} (f : A -> M B) (xs : list A) :
  (forall a, writes_only W (f a)) -> writes_only W (mapM f xs).
Proof.
  intros Hf. induction xs as [|a xs IH]; [apply writes_only_ret|].
  simpl. apply writes_only_bind; [apply Hf|]. intros b.
  apply writes_only_bind; [apply IH|]. intros bs. apply writes_only_ret.
Qed.

Lemma writes_only_dump_dataset output_dir :
  writes_only (fun p => p = path_join output_dir (lit "layout_dataset.json"))
    (dump_dataset output_dir).
Proof.
  unfold dump_dataset.
  apply writes_only_bind; [apply writes_only_get_objects|]. intros h.
  apply writes_only_bind; [apply writes_only_get_dataset|]. intros ds.
  destruct (mapM _ _); [by apply writes_only_write_file|].
  apply writes_only_bind; [by apply writes_only_write_file|]. intros _.
  apply writes_only_lift.
Qed.

Lemma writes_only__create_summary_statistics output_dir :
  writes_only (fun p => p = path_join output_dir (lit "dataset_summary.json"))
    (_create_summary_statistics output_dir).
Proof.
  unfold _create_summary_statistics.
  apply writes_only_bind; [apply writes_only_get_objects|]. intros h.
  apply writes_only_bind; [apply writes_only_get_dataset|]. intros ds.
  apply writes_only_bind; [apply writes_only_lift|]. intros summary.
  by apply writes_only_write_file.
Qed.

Lemma writes_only_attach_all W key docs : writes_only W (attach_all key docs).
Proof.
  unfold attach_all. apply writes_only_bind; [|intros; apply writes_only_ret].
  apply writes_only_mapM. intros doc. unfold attach_file_name.
  apply writes_only_bind; [apply writes_only_get_objects|]. intros h.
  apply writes_only_bind; [apply writes_only_lift|]. intros items.
  apply writes_only_mapM. intros item.
  apply writes_only_bind; [apply writes_only_get_objects|]. intros h'.
  apply writes_only_bind; [apply writes_only_lift|]. intros file_name.
  apply writes_only_bind; [apply writes_only_setitem|]. intros; apply writes_only_ret.
Qed.

Lemma writes_only__export_to_csv output_dir :
  writes_only (fun p => In p (map (path_join output_dir)
                                [lit "documents_summary.csv"; lit "blocks.csv"; lit "tables.csv"]))
    (_export_to_csv output_dir).
Proof.
  unfold _export_to_csv.
  apply writes_only_bind; [apply writes_only_get_objects|]. intros h.
  apply writes_only_bind; [apply writes_only_get_dataset|]. intros ds.
  apply writes_only_bind; [apply writes_only_lift|]. intros successful_docs.
  apply writes_only_bind; [apply writes_only_lift|]. intros doc_data.
  apply writes_only_bind.
  { destruct doc_data; [apply writes_only_ret|].
    apply writes_only_write_file. simpl. auto. }
  intros _.
  apply writes_only_bind; [apply writes_only_attach_all|]. intros all_blocks.
  apply writes_only_bind.
  { destruct all_blocks; [apply writes_only_ret|].
    apply writes_only_bind; [apply writes_only_get_objects|]. intros h'.
    apply writes_only_write_file. simpl. auto. }
  intros _.
  apply writes_only_bind; [apply writes_only_attach_all|]. intros all_tables.
  destruct all_tables; [apply writes_only_ret|].
  apply writes_only_bind; [apply writes_only_get_objects|]. intros h'.
  apply writes_only_write_file. simpl. auto.
Qed.

Lemma writes_only_save_dataset makedirs output_dir :
  writes_only (fun p => In p (output_files output_dir)) (save_dataset makedirs output_dir).
Proof.
  unfold save_dataset, output_files.
  apply writes_only_bind; [apply writes_only_lift|]. intros _.
  apply writes_only_bind.
  { eapply writes_only_weaken; [|apply writes_only_dump_dataset].
    intros p ->. simpl. auto. }
  intros _. apply writes_only_bind.
  { eapply writes_only_weaken; [|apply writes_only__create_summary_statistics].
    intros p ->. simpl. auto. }
  intros _. eapply writes_only_weaken; [|apply writes_only__export_to_csv].
  intros p. simpl. tauto.
Qed.

(** Saving touches no file other than its five output files of the
    output directory, whether it returns or raises; the export alone
    touches none but its three tables. *)
Theorem saving_writes_only_its_output_files :
  forall makedirs output_dir s p,
    ~ In p (output_files output_dir) ->
    dict_get p (files (snd (save_dataset makedirs output_dir s))) = dict_get p (files s) /\
    dict_get p (files (snd (_export_to_csv output_dir s))) = dict_get p (files s).
Proof.
  intros makedirs output_dir s p Hp. split.
  - by apply writes_only_save_dataset.
  - apply writes_only__export_to_csv. intros Hin. apply Hp.
    unfold output_files. simpl in *. tauto.
Qed.

Lemma saving_writes_only_its_output_files_witness :
  let s := {| objects := objects sample_state; dataset := dataset sample_state;
              files := [(lit "output/notes.txt", Csv [])] |} in
  dict_get (lit "output/notes.txt")
    (files (snd (save_dataset sample_makedirs (lit "output") s)))
  = dict_get (lit "output/notes.txt") (files s) /\
  dict_get (lit "output/notes.txt") (files (snd (_export_to_csv (lit "output") s)))
  = dict_get (lit "output/notes.txt") (files s).
Proof.
  cbv zeta.
  apply (saving_writes_only_its_output_files sample_makedirs (lit "output")).
  intros H. vm_compute in H.
  repeat (destruct H as [H|H]; [discriminate H|]). exact H.
Defined.

Lemma dump_dataset_returns output_dir s s' :
  dump_dataset output_dir s = (Ok (), s') ->
  exists docs,
    corpus s = Some docs /\ forallb json_encodable docs = true /\
    s' = {| objects := objects s; dataset := dataset s;
            files := dict_set (path_join output_dir (lit "layout_dataset.json"))
                       (JsonCorpus docs) (files s) |}.
Proof.
  unfold dump_dataset, mbind, M_bind, get_objects, get_dataset.
  destruct (mapM _ _) as [docs|e] eqn:E; [|discriminate].
  apply dump_corpus in E as [Hc Henc].
  unfold write_file. intros [= <-]. eauto.
Qed.

Lemma _create_summary_statistics_returns output_dir s s' :
  _create_summary_statistics output_dir s = (Ok (), s') ->
  exists summary,
    summary_statistics (objects s) (dataset s) = Ok summary /\
    s' = {| objects := objects s; dataset := dataset s;
            files := dict_set (path_join output_dir (lit "dataset_summary.json"))
                       (JsonObject summary) (files s) |}.
Proof.
  unfold _create_summary_statistics, mbind, M_bind, get_objects, get_dataset, lift.
  destruct (summary_statistics _ _) as [summary|]; [|discriminate].
  unfold write_file. intros [= <-]. eauto.
Qed.

(** When saving returns, the corpus file holds the corpus as it was
    before saving (read from the store before the export assigns file
    names), and the summary file holds the summary of that corpus; the
    later steps do not overwrite them. *)
Theorem saving_writes_the_corpus_as_it_was :
  forall makedirs output_dir s s',
    save_dataset makedirs output_dir s = (Ok (), s') ->
    exists docs summary,
      corpus s = Some docs /\
      summary_statistics (objects s) (dataset s) = Ok summary /\
      dict_get (path_join output_dir (lit "layout_dataset.json")) (files s')
      = Some (JsonCorpus docs) /\
      dict_get (path_join output_dir (lit "dataset_summary.json")) (files s')
      = Some (JsonObject summary).
Proof.
  intros makedirs output_dir s s' H. unfold save_dataset in H.
  apply bind_returns in H as ([] & s0 & H0 & H).
  unfold lift in H0. injection H0 as _ <-.
  apply bind_returns in H as ([] & s1 & H1 & H).
  apply bind_returns in H as ([] & s2 & H2 & H3).
  apply dump_dataset_returns in H1 as (docs & Hdocs & _ & ->).
  apply _create_summary_statistics_returns in H2 as (summary & Hsum & ->).
  simpl in Hsum. exists docs, summary. split; [done|]. split; [done|].
  assert (Hs' : s' = snd (_export_to_csv output_dir
                   {| objects := objects s; dataset := dataset s;
                      files := dict_set (path_join output_dir (lit "dataset_summary.json"))
                                 (JsonObject summary)
                                 (dict_set (path_join output_dir (lit "layout_dataset.json"))
                                    (JsonCorpus docs) (files s)) |}))
    by (simpl in H3; by rewrite H3).
  rewrite Hs'. split.
  - rewrite writes_only__export_to_csv.
    + simpl. rewrite dict_get_set_other, dict_get_set_same; [done|].
      intros E. apply path_join_inj in E. vm_compute in E. discriminate E.
    + simpl. intros [E|[E|[E|[]]]]; apply path_join_inj in E; vm_compute in E; discriminate E.
  - rewrite writes_only__export_to_csv.
    + simpl. by rewrite dict_get_set_same.
    + simpl. intros [E|[E|[E|[]]]]; apply path_join_inj in E; vm_compute in E; discriminate E.
Qed.

Lemma saving_writes_the_corpus_as_it_was_witness :
  exists docs summary,
    corpus sample_state = Some docs /\
    summary_statistics (objects sample_state) (dataset sample_state) = Ok summary /\
    dict_get (path_join (lit "output") (lit "layout_dataset.json"))
      (files (snd (save_dataset sample_makedirs (lit "output") sample_state)))
    = Some (JsonCorpus docs) /\
    dict_get (path_join (lit "output") (lit "dataset_summary.json"))
      (files (snd (save_dataset sample_makedirs (lit "output") sample_state)))
    = Some (JsonObject summary).
Proof.
  apply (saving_writes_the_corpus_as_it_was sample_makedirs (lit "output") sample_state).
  vm_compute. reflexivity.
Defined.

Lemma renamed_refl V h : renamed V h h.
Proof. split; [done|]. intros l. by left. Qed.

Lemma renamed_set V h h' (l : loc) kvs v :
  renamed V h h' -> V v -> h' !! l = Some (ODict kvs) ->
  renamed V h (<[l := ODict (dict_set (lit "file_name") v kvs)]> h').
Proof.
  intros [Hlen Hobj] Hv Hk. split; [by rewrite length_insert|].
  intros l'. destruct (decide (l = l')) as [<-|Hne].
  - right. rewrite list_lookup_insert_eq by (by eapply lookup_lt_Some).
    destruct (Hobj l) as [E|(kvs0 & v0 & _ & E0 & E1)].
    + exists kvs, v. by rewrite <- E, Hk.
    + rewrite Hk in E1. injection E1 as ->.
      exists kvs0, v. by rewrite dict_set_set.
  - rewrite list_lookup_insert_ne by done. apply Hobj.
Qed.

Lemma named_set V h (l : loc) kvs v (l' : loc) :
  V v -> h !! l = Some (ODict kvs) ->
  l' = l \/ named V h l' ->
  named V (<[l := ODict (dict_set (lit "file_name") v kvs)]> h) l'.
Proof.
  intros Hv Hk Hl'. destruct (decide (l' = l)) as [->|Hne].
  - exists (dict_set (lit "file_name") v kvs), v.
    rewrite list_lookup_insert_eq by (by eapply lookup_lt_Some).
    by rewrite dict_get_set_same.
  - destruct Hl' as [?|(kvs' & v' & E & Hg & Hv')]; [done|].
    exists kvs', v'. by rewrite list_lookup_insert_ne.
Qed.

Lemma renamed_dict_of V h h' d kvs :
  renamed V h h' -> dict_of h d = Some kvs ->
  dict_of h' d = Some kvs \/
  exists v, V v /\ dict_of h' d = Some (dict_set (lit "file_name") v kvs).
Proof.
  intros [_ Hobj]. unfold dict_of. destruct d as [| | | |l]; try discriminate.
  destruct (Hobj l) as [E|(kvs0 & v0 & Hv & E0 & E1)].
  - rewrite E. auto.
  - rewrite E0, E1. intros [= <-]. right. eauto.
Qed.

Lemma renamed_py_get V h h' d k x :
  renamed V h h' -> k <> lit "file_name" ->
  py_get h d k = Ok x -> py_get h' d k = Ok x.
Proof.
  intros Hr Hk. unfold py_get.
  destruct (dict_of h d) as [kvs|] eqn:E; [|discriminate].
  intros [= <-].
  destruct (renamed_dict_of V h h' d kvs Hr E) as [->|(v & _ & ->)]; [done|].
  by rewrite dict_get_set_other.
Qed.

Lemma renamed_py_iter V h h' v items l :
  renamed V h h' -> py_iter h v = Ok items -> In (HRef l) items ->
  exists items', py_iter h' v = Ok items' /\ In (HRef l) items'.
Proof.
  intros [_ Hobj]. unfold py_iter. destruct v as [| | |s|lv]; try discriminate.
  - intros [= <-] Hin. apply in_map_iff in Hin as (? & ? & _). discriminate.
  - destruct (Hobj lv) as [E|(kvs0 & v0 & _ & E0 & E1)].
    + rewrite E. eauto.
    + rewrite E0. intros [= <-] Hin. by apply keys_are_not_refs in Hin.
Qed.

Lemma renamed_file_name h0 ds h doc x :
  renamed (file_name_of h0 ds) h0 h ->
  In doc ds -> has_status h0 (lit "success") doc = Ok true ->
  py_get h doc (lit "file_name") = Ok x ->
  file_name_of h0 ds (default (HStr []) x).
Proof.
  intros Hr Hdoc Hst. unfold py_get.
  destruct (dict_of h doc) as [kvs'|] eqn:E; [|discriminate].
  intros [= <-].
  assert (exists kvs, dict_of h0 doc = Some kvs) as [kvs E0].
  { unfold has_status, py_get in Hst.
    destruct (dict_of h0 doc); [eauto|discriminate]. }
  destruct (renamed_dict_of _ h0 h doc kvs Hr E0) as [E1|(v & Hv & E1)];
    rewrite E1 in E; injection E as <-.
  - exists doc, (dict_get (lit "file_name") kvs). repeat split; try done.
    unfold py_get. by rewrite E0.
  - by rewrite dict_get_set_same.
Qed.

Lemma with_status_complete h s ds kept :
  with_status h s ds = Ok kept ->
  forall d, In d ds -> has_status h s d = Ok true -> In d kept.
Proof.
  revert kept. induction ds as [|d0 ds IH]; intros kept; simpl; [by intros _ ? []|].
  destruct (has_status h s d0) as [b|] eqn:E; simpl; [|discriminate].
  destruct (with_status h s ds) as [rest|]; simpl; [|discriminate].
  intros [= <-] d [<-|Hd] Hst.
  - rewrite Hst in E. injection E as <-. by left.
  - specialize (IH rest eq_refl d Hd Hst). destruct b; [by right|done].
Qed.

(** A loop whose body takes [J done] to [J (a :: done)] establishes [J]
    for all its items, when it returns. *)
Lemma mapM_returns {A B} (f : A -> M B) (J : list A -> State -> Prop) (xs : list A) :
  (forall done a s b s', In a xs -> J done s -> f a s = (Ok b, s') -> J (a :: done) s') ->
  forall done s bs s',
    J done s -> mapM f xs s = (Ok bs, s') -> J (rev xs ++ done) s'.
Proof.
  induction xs as [|a xs IH]; intros Hf done s bs s' HJ H.
  - simpl in H. injection H as _ <-. done.
  - simpl in H. apply bind_returns in H as (b & s1 & H1 & H).
    apply bind_returns in H as (bs' & s2 & H2 & H3). injection H3 as _ <-.
    simpl. rewrite <- app_assoc. simpl.
    eapply IH; [|eapply Hf; [by left|exact HJ|exact H1]|exact H2].
    intros done' a' ? ? ? Hin. apply Hf. by right.
Qed.

Section Export_names.
Variable h0 : heap.
Variable ds : list hval.

#[local] Abbreviation V := (file_name_of h0 ds).

(** The store has only been renamed, and the records of [N] carry a
    file name. *)
#[local] Abbreviation Inv := (fun (N : loc -> Prop) (s : State) =>
  renamed V h0 (objects s) /\ forall l, N l -> named V (objects s) l).

Lemma attach_file_name_names key doc N s rows s' :
  key <> lit "file_name" ->
  In doc ds -> has_status h0 (lit "success") doc = Ok true ->
  Inv N s ->
  attach_file_name key doc s = (Ok rows, s') ->
  Inv (fun l => N l \/ items_of h0 key doc l) s'.
Proof.
  intros Hkey Hdoc Hst [Hr HN] H. unfold attach_file_name in H.
  apply bind_returns in H as (h & s1 & H1 & H). injection H1 as <- <-.
  apply bind_returns in H as (items & s1 & H1 & H).
  unfold lift in H1. injection H1 as Hitems <-.
  pose (J := fun (done : list hval) (s : State) =>
               Inv (fun l => N l \/ In (HRef l) done) s).
  assert (HJ : J (rev items ++ []) s').
  { eapply (mapM_returns _ J); [|split; [exact Hr|]|exact H].
    - clear H. intros done item s2 b s3 _ [Hr2 HN2] Hbody.
      apply bind_returns in Hbody as (h2 & s2' & H2 & Hbody). injection H2 as <- <-.
      apply bind_returns in Hbody as (file_name & s2' & H2 & Hbody).
      unfold lift in H2. injection H2 as Hname <-.
      apply bind_returns in Hbody as ([] & s2' & H2 & Hbody). injection Hbody as _ <-.
      unfold py_setitem in H2. destruct item as [| | | |l]; try discriminate.
      destruct (objects s2 !! l) as [[kvs| |]|] eqn:El; try discriminate.
      injection H2 as <-. simpl.
      assert (Hv : V (default (HStr []) file_name))
        by (eapply renamed_file_name; eauto).
      split; [by apply renamed_set|].
      intros l' Hl'. apply named_set; [done..|].
      destruct Hl' as [Hl'|[[= ->]|Hl']]; auto.
    - intros l [Hl|[]]. auto. }
  destruct HJ as [Hr' HN']. split; [done|].
  intros l [Hl|(v & items0 & Hget & Hiter & Hin)]; [apply HN'; auto|].
  apply HN'. right. rewrite app_nil_r, <- in_rev.
  eapply renamed_py_get in Hget; [|exact Hr|done].
  rewrite Hget in Hitems. simpl in Hitems.
  destruct (renamed_py_iter _ _ _ _ _ _ Hr Hiter Hin) as (items' & Hiter' & Hin').
  rewrite Hiter' in Hitems. by injection Hitems as <-.
Qed.

Lemma attach_all_names key docs N s rows s' :
  key <> lit "file_name" ->
  (forall doc, In doc docs -> In doc ds /\ has_status h0 (lit "success") doc = Ok true) ->
  Inv N s ->
  attach_all key docs s = (Ok rows, s') ->
  Inv (fun l => N l \/ exists doc, In doc docs /\ items_of h0 key doc l) s'.
Proof.
  intros Hkey Hdocs HN H. unfold attach_all in H.
  apply bind_returns in H as (rows' & s1 & H & Hret). injection Hret as _ <-.
  pose (J := fun (done : list hval) (s : State) =>
               Inv (fun l => N l \/ exists doc, In doc done /\ items_of h0 key doc l) s).
  assert (HJ : J (rev docs ++ []) s1).
  { eapply (mapM_returns _ J); [| |exact H].
    - clear H. intros done doc s2 b s3 Hdoc HJ Hbody.
      destruct (Hdocs doc Hdoc) as [Hin Hst].
      destruct (attach_file_name_names key doc _ s2 b s3 Hkey Hin Hst HJ Hbody)
        as [Hr3 HN3].
      split; [done|]. intros l [Hl|(doc' & [<-|Hdoc'] & Hl)]; apply HN3; eauto.
    - destruct HN as [Hr HN]. split; [done|].
      intros l [Hl|(doc & [] & _)]. auto. }
  destruct HJ as [Hr' HN']. split; [done|].
  intros l [Hl|(doc & Hdoc & Hl)]; apply HN'; [auto|].
  right. exists doc. split; [|done]. by rewrite app_nil_r, <- in_rev.
Qed.
End Export_names.

Lemma write_if_rows_objects {A} (rows : list A) (m : M unit) s s' :
  (forall s s', m s = (Ok (), s') -> objects s' = objects s) ->
  match rows with [] => mret () | _ => m end s = (Ok (), s') ->
  objects s' = objects s.
Proof.
  intros Hm. destruct rows; [|apply Hm]. by intros [= <-].
Qed.

(** When the CSV export returns, every block and table record of a
    successful document is a dict with a "file_name", and that name is the
    file name (or the empty string, for a missing one) that a successful
    document of the corpus had before the export. *)
Theorem export_names_every_target :
  forall output_dir s s' l,
    _export_to_csv output_dir s = (Ok (), s') ->
    targets (objects s) (dataset s) l ->
    exists kvs doc name,
      objects s' !! l = Some (ODict kvs) /\
      In doc (dataset s) /\
      has_status (objects s) (lit "success") doc = Ok true /\
      py_get (objects s) doc (lit "file_name") = Ok name /\
      dict_get (lit "file_name") kvs = Some (default (HStr []) name).
Proof.
  intros output_dir s s' l H Ht. unfold _export_to_csv in H.
  apply bind_returns in H as (h & s1 & H1 & H). injection H1 as <- <-.
  apply bind_returns in H as (ds & s1 & H1 & H). injection H1 as <- <-.
  apply bind_returns in H as (successful_docs & s1 & H1 & H).
  unfold lift in H1. injection H1 as Hdocs <-.
  apply bind_returns in H as (doc_data & s1 & H1 & H).
  unfold lift in H1. injection H1 as _ <-.
  apply bind_returns in H as ([] & s1 & H1 & H).
  apply write_if_rows_objects in H1; [|by intros ? ? [= <-]].
  apply bind_returns in H as (all_blocks & s2 & H2 & H).
  apply bind_returns in H as ([] & s3 & H3 & H).
  apply write_if_rows_objects in H3;
    [|intros s0 s0' E; apply bind_returns in E as (? & ? & [= <- <-] & [= <-]); done].
  apply bind_returns in H as (all_tables & s4 & H4 & H).
  apply write_if_rows_objects in H;
    [|intros s0 s0' E; apply bind_returns in E as (? & ? & [= <- <-] & [= <-]); done].
  assert (Hsucc : forall doc, In doc successful_docs ->
            In doc (dataset s) /\ has_status (objects s) (lit "success") doc = Ok true)
    by (intros doc; by apply with_status_In).
  assert (H0 : renamed (file_name_of (objects s) (dataset s)) (objects s) (objects s1) /\
               forall l, False -> named (file_name_of (objects s) (dataset s)) (objects s1) l)
    by (rewrite H1; split; [apply renamed_refl|done]).
  eapply attach_all_names in H2; [|by key_ne|exact Hsucc|exact H0].
  rewrite <- H3 in H2.
  eapply attach_all_names in H4; [|by key_ne|exact Hsucc|exact H2].
  destruct H4 as [_ HN]. rewrite <- H in HN.
  destruct Ht as (doc & key & v & items & Hdoc & Hst & Hkey & Hget & Hiter & Hin).
  assert (Hl : named (file_name_of (objects s) (dataset s)) (objects s') l).
  { apply HN.
    assert (Hd : In doc successful_docs) by (eapply with_status_complete; eauto).
    destruct Hkey as [-> | ->].
    - left. right. exists doc. split; [done|]. by exists v, items.
    - right. exists doc. split; [done|]. by exists v, items. }
  destruct Hl as (kvs & name & Hk & Hg & doc' & x & Hdoc' & Hst' & Hget' & ->).
  exists kvs, doc', x. done.
Qed.

Lemma export_names_every_target_witness :
  exists kvs doc name,
    objects (snd (_export_to_csv (lit "output") sample_state)) !! 25%nat = Some (ODict kvs) /\
    In doc (dataset sample_state) /\
    has_status (objects sample_state) (lit "success") doc = Ok true /\
    py_get (objects sample_state) doc (lit "file_name") = Ok name /\
    dict_get (lit "file_name") kvs = Some (default (HStr []) name).
Proof.
  apply (export_names_every_target (lit "output") sample_state
           (snd (_export_to_csv (lit "output") sample_state)) 25%nat).
  - vm_compute. reflexivity.
  - exists (HRef 28%nat), (lit "tables"), (HRef 26%nat), [HRef 25%nat].
    split; [vm_compute; left; reflexivity|].
    split; [vm_compute; reflexivity|].
    split; [right; reflexivity|].
    split; [vm_compute; reflexivity|].
    split; [vm_compute; reflexivity|].
    left; reflexivity.
Defined.

Lemma returns_ret {A} (a : A) s (Q : A -> State -> Prop) : Q a s -> returns (mret a) s Q.
Proof. intros HQ. by exists a, s. Qed.

Lemma returns_bind {A B} (m : M A) (f : A -> M B) s
    (P : A -> State -> Prop) (Q : B -> State -> Prop) :
  returns m s P -> (forall a s1, P a s1 -> returns (f a) s1 Q) -> returns (m ≫= f) s Q.
Proof.
  intros (a & s1 & Hm & HP) Hf. destruct (Hf a s1 HP) as (b & s2 & Hfa & HQ).
  exists b, s2. split; [|done]. unfold mbind, M_bind. by rewrite Hm.
Qed.

Lemma returns_weaken {A} (m : M A) s (P Q : A -> State -> Prop) :
  returns m s P -> (forall a s', P a s' -> Q a s') -> returns m s Q.
Proof. intros (a & s' & Hm & HP) HPQ. exists a, s'. auto. Qed.

Lemma returns_get_objects s : returns get_objects s (fun h s' => h = objects s /\ s' = s).
Proof. by exists (objects s), s. Qed.

Lemma returns_get_dataset s : returns get_dataset s (fun ds s' => ds = dataset s /\ s' = s).
Proof. by exists (dataset s), s. Qed.

Lemma returns_lift {A} (r : result A) a s :
  r = Ok a -> returns (lift r) s (fun a' s' => a' = a /\ s' = s).
Proof. intros ->. by exists a, s. Qed.

Lemma returns_write_file path c s :
  returns (write_file path c) s
    (fun _ s' => objects s' = objects s /\ dataset s' = dataset s).
Proof. eexists _, _. split; [reflexivity|]. done. Qed.

Lemma returns_mapM {A B} (f : A -> M B) (I : State -> Prop) (xs : list A) :
  (forall a s, In a xs -> I s -> returns (f a) s (fun _ s' => I s')) ->
  forall s, I s -> returns (mapM f xs) s (fun _ s' => I s').
Proof.
  induction xs as [|a xs IH]; intros Hf s Hs.
  - by apply returns_ret.
  - simpl. eapply returns_bind; [apply Hf; [by left|done]|].
    intros b s1 Hs1. cbv beta in Hs1.
    eapply returns_bind; [apply IH; [|exact Hs1]|].
    + intros a' s' Hin. apply Hf. by right.
    + intros bs s2 Hs2. by apply returns_ret.
Qed.

Lemma mapM_result_ok {A B} (f : A -> result B) (xs : list A) :
  (forall a, In a xs -> exists b, f a = Ok b) -> exists bs, mapM f xs = Ok bs.
Proof.
  induction xs as [|a xs IH]; intros Hf; [by exists []|].
  simpl. destruct (Hf a) as [b ->]; [by left|].
  destruct IH as [bs ->]; [intros; apply Hf; by right|].
  simpl. eauto.
Qed.

Lemma renamed_is_record V h h' item :
  renamed V h h' -> is_record h item = true -> is_record h' item = true.
Proof.
  intros Hr. unfold is_record.
  destruct (dict_of h item) as [kvs|] eqn:E; [|discriminate]. intros _.
  by destruct (renamed_dict_of V h h' item kvs Hr E) as [->|(v & _ & ->)].
Qed.

Lemma renamed_list V h h' (l : loc) items :
  renamed V h h' -> h !! l = Some (OList items) -> h' !! l = Some (OList items).
Proof.
  intros [_ Hobj] E. destruct (Hobj l) as [E'|(kvs & v & _ & E0 & _)].
  - by rewrite E'.
  - rewrite E in E0. discriminate E0.
Qed.

Section Export_returns.
Variable h0 : heap.

#[local] Abbreviation Inv := (fun s : State => renamed (fun _ => True) h0 (objects s)).

Lemma returns_setitem item v s :
  Inv s -> is_record h0 item = true ->
  returns (py_setitem item (lit "file_name") v) s (fun _ s' => Inv s').
Proof.
  intros Hs Hitem. apply (renamed_is_record _ _ _ _ Hs) in Hitem.
  unfold is_record, dict_of in Hitem. destruct item as [| | | |l]; try discriminate.
  destruct (objects s !! l) as [[kvs| |]|] eqn:E; try discriminate.
  eexists _, _. unfold py_setitem. rewrite E. split; [reflexivity|].
  simpl. by apply renamed_set.
Qed.

Lemma returns_attach_file_name key doc kvs s :
  key <> lit "file_name" ->
  dict_of h0 doc = Some kvs ->
  records_list h0 (dict_get key kvs) = true ->
  Inv s ->
  returns (attach_file_name key doc) s (fun _ s' => Inv s').
Proof.
  intros Hkey Hdoc Hlist Hs. unfold attach_file_name.
  eapply returns_bind; [apply returns_get_objects|]. intros h s1 [-> ->].
  assert (Hget : py_get (objects s) doc key = Ok (dict_get key kvs)).
  { eapply renamed_py_get; [exact Hs|done|]. unfold py_get. by rewrite Hdoc. }
  assert (exists items,
             (v ← py_get (objects s) doc key;
              match v with
              | Some v => py_iter (objects s) v
              | None => Ok []
              end) = Ok items /\ forallb (is_record h0) items = true)
    as (items & Hitems & Hrec).
  { rewrite Hget. cbn [mbind result_bind].
    destruct (dict_get key kvs) as [v|]; [|by exists []].
    unfold records_list in Hlist. destruct v as [| | | |l]; try discriminate.
    destruct (h0 !! l) as [[|items|]|] eqn:E; try discriminate.
    exists items. split; [|done].
    unfold py_iter. by rewrite (renamed_list _ _ _ _ _ Hs E). }
  eapply returns_bind; [apply (returns_lift _ items); exact Hitems|].
  intros ? s1 [-> ->].
  apply (returns_mapM _ Inv); [|exact Hs].
  intros item s2 Hin Hs2.
  eapply returns_bind; [apply returns_get_objects|]. intros h s3 [-> ->].
  assert (exists x, py_get (objects s2) doc (lit "file_name") = Ok x) as [x Hx].
  { assert (Hd : is_record (objects s2) doc = true)
      by (eapply renamed_is_record; [exact Hs2|]; unfold is_record; by rewrite Hdoc).
    unfold is_record in Hd. unfold py_get.
    destruct (dict_of (objects s2) doc); [eauto|discriminate]. }
  eapply returns_bind; [apply (returns_lift _ x); exact Hx|]. intros ? s3 [-> ->].
  eapply returns_bind.
  - apply returns_setitem; [exact Hs2|].
    rewrite forallb_forall in Hrec. by apply Hrec.
  - intros ? s3 Hs3. by apply returns_ret.
Qed.

Lemma returns_attach_all key docs s :
  key <> lit "file_name" ->
  (forall doc, In doc docs ->
     exists kvs, dict_of h0 doc = Some kvs /\ records_list h0 (dict_get key kvs) = true) ->
  Inv s ->
  returns (attach_all key docs) s (fun _ s' => Inv s').
Proof.
  intros Hkey Hdocs Hs. unfold attach_all.
  eapply returns_bind.
  - apply (returns_mapM _ Inv); [|exact Hs].
    intros doc s1 Hdoc Hs1. destruct (Hdocs doc Hdoc) as (kvs & Hd & Hl).
    by eapply returns_attach_file_name.
  - intros rows s1 Hs1. by apply returns_ret.
Qed.
End Export_returns.

Lemma doc_row_ok h d :
  doc_ok h d = true -> has_status h (lit "success") d = Ok true ->
  exists row, doc_row h d = Ok row.
Proof.
  intros Hd Hs. destruct (doc_ok_success h d Hd Hs) as (kvs & E & Hinfo & _).
  unfold doc_row.
  assert (Hget : forall k, py_get h d k = Ok (dict_get k kvs))
    by (intros k; unfold py_get; by rewrite E).
  rewrite !Hget. cbn [mbind result_bind].
  destruct (total_pages_of_ok h d Hd Hs) as (tp & -> & _). cbn [mbind result_bind].
  assert (exists tl,
             match dict_get (lit "document_info") kvs with
             | Some info => v ← py_get h info (lit "text_length"); Ok (default (HInt 0) v)
             | None => Ok (HInt 0)
             end = Ok tl) as [tl ->].
  { destruct (dict_get (lit "document_info") kvs) as [info|]; [|eauto].
    unfold py_get. destruct (dict_of h info); [|discriminate]. simpl. eauto. }
  cbn [mbind result_bind].
  destruct (len_of_ok (lit "blocks") h d) as (? & -> & _); [simpl; tauto|done..|].
  destruct (len_of_ok (lit "paragraphs") h d) as (? & -> & _); [simpl; tauto|done..|].
  destruct (len_of_ok (lit "lines") h d) as (? & -> & _); [simpl; tauto|done..|].
  destruct (len_of_ok (lit "tokens") h d) as (? & -> & _); [simpl; tauto|done..|].
  destruct (len_of_ok (lit "tables") h d) as (? & -> & _); [simpl; tauto|done..|].
  destruct (len_of_ok (lit "form_fields") h d) as (? & -> & _); [simpl; tauto|done..|].
  cbn [mbind result_bind]. eauto.
Qed.

Lemma export_ready_ok h d : export_ready h d = true -> doc_ok h d = true.
Proof. unfold export_ready. by intros [? _]%andb_prop. Qed.

Lemma export_ready_lists h d :
  export_ready h d = true -> has_status h (lit "success") d = Ok true ->
  exists kvs,
    dict_of h d = Some kvs /\
    records_list h (dict_get (lit "blocks") kvs) = true /\
    records_list h (dict_get (lit "tables") kvs) = true.
Proof.
  unfold export_ready, has_status, py_get. intros [_ H]%andb_prop.
  destruct (dict_of h d) as [kvs|]; [|discriminate]. simpl.
  intros [= E]. rewrite E in H. apply andb_prop in H as [? ?]. eauto.
Qed.

Lemma _export_to_csv_returns output_dir s :
  forallb (export_ready (objects s)) (dataset s) = true ->
  returns (_export_to_csv output_dir) s (fun _ _ => True).
Proof.
  intros Hready.
  assert (Hok : forallb (doc_ok (objects s)) (dataset s) = true).
  { rewrite forallb_forall in Hready |- *. intros d Hd. by apply export_ready_ok, Hready. }
  destruct (with_status_ok _ (lit "success") _ Hok) as [successful_docs Hdocs].
  assert (Hsucc : forall doc, In doc successful_docs ->
            export_ready (objects s) doc = true /\
            has_status (objects s) (lit "success") doc = Ok true).
  { intros doc Hdoc. destruct (with_status_In _ _ _ _ Hdocs doc Hdoc) as [Hin Hst].
    split; [|done]. rewrite forallb_forall in Hready. by apply Hready. }
  destruct (mapM_result_ok (doc_row (objects s)) successful_docs) as [doc_data Hrows].
  { intros doc Hdoc. destruct (Hsucc doc Hdoc). by apply doc_row_ok; [apply export_ready_ok|]. }
  pose (Inv := fun s' : State => renamed (fun _ => True) (objects s) (objects s')).
  unfold _export_to_csv.
  eapply returns_bind; [apply returns_get_objects|]. intros ? s1 [-> ->].
  eapply returns_bind; [apply returns_get_dataset|]. intros ? s1 [-> ->].
  eapply returns_bind; [apply (returns_lift _ successful_docs); exact Hdocs|].
  intros ? s1 [-> ->].
  eapply returns_bind; [apply (returns_lift _ doc_data); exact Hrows|].
  intros ? s1 [-> ->].
  eapply (returns_bind _ _ _ (fun _ s' => Inv s')).
  { destruct doc_data.
    - apply returns_ret. apply renamed_refl.
    - eapply returns_weaken; [apply returns_write_file|].
      intros _ s' [E _]. unfold Inv. rewrite E. apply renamed_refl. }
  intros ? s1 Hs1.
  eapply (returns_bind _ _ _ (fun _ s' => Inv s')).
  { apply returns_attach_all; [by key_ne| |exact Hs1].
    intros doc Hdoc. destruct (Hsucc doc Hdoc) as [Hr Hst].
    destruct (export_ready_lists _ _ Hr Hst) as (kvs & ? & ? & ?). eauto. }
  intros all_blocks s2 Hs2.
  eapply (returns_bind _ _ _ (fun _ s' => Inv s')).
  { destruct all_blocks.
    - by apply returns_ret.
    - eapply returns_bind; [apply returns_get_objects|]. intros ? s3 [-> ->].
      eapply returns_weaken; [apply returns_write_file|].
      intros _ s' [E _]. unfold Inv. by rewrite E. }
  intros ? s3 Hs3.
  eapply (returns_bind _ _ _ (fun _ s' => Inv s')).
  { apply returns_attach_all; [by key_ne| |exact Hs3].
    intros doc Hdoc. destruct (Hsucc doc Hdoc) as [Hr Hst].
    destruct (export_ready_lists _ _ Hr Hst) as (kvs & ? & ? & ?). eauto. }
  intros all_tables s4 Hs4.
  destruct all_tables.
  - by apply returns_ret.
  - eapply returns_bind; [apply returns_get_objects|]. intros ? s5 [-> ->].
    eapply returns_weaken; [apply returns_write_file|]. done.
Qed.

(** The CSV export returns on every corpus of records it can be computed
    from: dicts which, when successful, have a number of pages, sized
    collections, and lists of dicts as blocks and tables.  In particular
    the empty record of an element without layout does not stop it. *)
Theorem export_returns_on_well_formed_records :
  forall output_dir s,
    forallb (export_ready (objects s)) (dataset s) = true ->
    fst (_export_to_csv output_dir s) = Ok ().
Proof.
  intros output_dir s H.
  destruct (_export_to_csv_returns output_dir s H) as ([] & s' & -> & _). reflexivity.
Qed.

Lemma export_returns_on_well_formed_records_witness :
  fst (_export_to_csv (lit "output") sample_state) = Ok ().
Proof.
  apply (export_returns_on_well_formed_records (lit "output") sample_state).
  vm_compute. reflexivity.
Defined.

Lemma load_list_items n h r vs :
  load n h r = Some (VList vs) ->
  exists l rs n',
    r = HRef l /\ n = S n' /\ h !! l = Some (OList rs) /\
    Forall2 (fun r v => load n' h r = Some v) rs vs.
Proof.
  destruct r as [| | | |l]; try (destruct n; discriminate).
  destruct n as [|n']; [discriminate|]. simpl.
  destruct (h !! l) as [[rkvs|rs|rs]|] eqn:E; try discriminate.
  - intros (? & _ & [=])%fmap_Some.
  - intros (vs' & Hm & [= <-])%fmap_Some.
    exists l, rs, n'. repeat split; try done. by apply mapM_Some.
  - intros (? & _ & [=])%fmap_Some.
Qed.

Lemma is_record_loaded n h r v :
  load n h r = Some v -> is_dict v = true -> is_record h r = true.
Proof.
  destruct v as [| | | | | |kvs]; try discriminate.
  intros (l & rkvs & n' & -> & -> & Hl & _)%load_dict _.
  unfold is_record, dict_of. by rewrite Hl.
Qed.

Lemma records_list_loaded n h k rkvs kvs :
  Forall2 (fun (rkv : pystr * hval) (kv : pystr * value) =>
             fst rkv = fst kv /\ load n h (snd rkv) = Some (snd kv)) rkvs kvs ->
  records_list_tree (dict_get k kvs) = true ->
  records_list h (dict_get k rkvs) = true.
Proof.
  intros Hf Hk. pose proof (dict_get_loaded n h k rkvs kvs Hf) as H.
  destruct (dict_get k rkvs) as [r|], (dict_get k kvs) as [v|]; try done.
  simpl in Hk. destruct v as [| | | | |items|]; try discriminate.
  apply load_list_items in H as (l & rs & n' & -> & -> & Hl & Hitems).
  simpl. rewrite Hl. clear Hl.
  induction Hitems as [|r v rs vs Hr _ IH]; [done|].
  simpl in Hk |- *. apply andb_prop in Hk as [Hv Hvs].
  rewrite (is_record_loaded _ _ _ _ Hr Hv). by apply IH.
Qed.

Lemma export_ready_loaded n h r doc :
  load n h r = Some doc -> export_ready_tree doc = true -> export_ready h r = true.
Proof.
  intros Hl Hready. unfold export_ready_tree in Hready.
  apply andb_prop in Hready as [Hok Hlists].
  unfold export_ready. rewrite (doc_ok_loaded n h r doc Hl Hok). simpl.
  destruct doc as [| | | | | |kvs]; try discriminate.
  pose proof (has_status_loaded n h r kvs (lit "success") Hl) as Hst.
  apply load_dict in Hl as (l & rkvs & n' & -> & -> & Hh & Hf).
  unfold dict_of. rewrite Hh.
  unfold has_status, py_get, dict_of in Hst. rewrite Hh in Hst.
  cbn [mbind result_bind] in Hst. injection Hst as Hst. rewrite Hst.
  destruct (status_is (lit "success") (VDict kvs)); [|done].
  apply andb_prop in Hlists as [Hb Ht].
  by rewrite (records_list_loaded n' h _ rkvs kvs Hf Hb),
             (records_list_loaded n' h _ rkvs kvs Hf Ht).
Qed.

Lemma each_from_dicts {A} (f : A -> Z -> value) (xs : list A) : forall i,
  (forall a k, is_dict (f a k) = true) -> forallb is_dict (each_from f i xs) = true.
Proof.
  induction xs as [|a xs IH]; intros i Hf; [done|].
  simpl. rewrite Hf. by apply IH.
Qed.

Lemma children_of_dicts {A} (sel : Page -> list A) (f : Z -> A -> Z -> value) pages : forall i,
  (forall n a k, is_dict (f n a k) = true) ->
  forallb is_dict (children_of sel f i pages) = true.
Proof.
  unfold children_of. induction pages as [|p pages IH]; intros i Hf; [done|].
  simpl. rewrite forallb_app, each_from_dicts by auto. by apply IH.
Qed.

Lemma layout_record_ready document pdf_path timestamp :
  export_ready_tree (_extract_layout_info document pdf_path timestamp) = true.
Proof.
  unfold export_ready_tree. rewrite layout_record_ok. cbn [andb].
  pose proof (layout_info_other document pdf_path timestamp (lit "status")) as Hs.
  destruct (_extract_layout_info_holds document pdf_path timestamp)
    as (d & E & _ & Hb & _ & _ & _ & Hta & _).
  rewrite E in Hs |- *. unfold status_is. rewrite Hs by not_list_key.
  match goal with
  | |- context [dict_get (lit "status") ?l] =>
      replace (dict_get (lit "status") l) with (Some (VStr (lit "success")))
        by (vm_compute; reflexivity)
  end.
  rewrite bool_decide_eq_true_2 by reflexivity. rewrite Hb, Hta.
  unfold lists_from, no_lists, records_list_tree;
    cbn [l_blocks l_tables app].
  rewrite !children_of_dicts; [done|..].
  - intros n table k. reflexivity.
  - intros n element k. unfold text_element, _extract_text_element_info.
    by destruct (layout element).
Qed.

Lemma save_dataset_returns makedirs output_dir s docs :
  makedirs output_dir = Ok () ->
  corpus s = Some docs -> forallb json_encodable docs = true ->
  forallb (export_ready (objects s)) (dataset s) = true ->
  returns (save_dataset makedirs output_dir) s (fun _ _ => True).
Proof.
  intros Hdir Hc Henc Hready. unfold save_dataset.
  eapply returns_bind; [apply (returns_lift _ ()); exact Hdir|]. intros ? s0 [-> ->].
  eapply (returns_bind _ _ _
            (fun _ s' => objects s' = objects s /\ dataset s' = dataset s)).
  { unfold dump_dataset.
    eapply returns_bind; [apply returns_get_objects|]. intros ? s1 [-> ->].
    eapply returns_bind; [apply returns_get_dataset|]. intros ? s1 [-> ->].
    rewrite (proj2 (dump_corpus s docs)) by done. apply returns_write_file. }
  intros ? s1 [Ho Hd].
  eapply (returns_bind _ _ _
            (fun _ s' => objects s' = objects s /\ dataset s' = dataset s)).
  { unfold _create_summary_statistics.
    eapply returns_bind; [apply returns_get_objects|]. intros ? s2 [-> ->].
    eapply returns_bind; [apply returns_get_dataset|]. intros ? s2 [-> ->].
    destruct (summary_statistics_ok (objects s) (dataset s)) as [summary Hsum].
    { rewrite forallb_forall in Hready |- *. intros d Hin.
      by apply export_ready_ok, Hready. }
    rewrite Ho, Hd.
    eapply returns_bind; [apply (returns_lift _ summary); exact Hsum|].
    intros ? s2 [-> ->].
    eapply returns_weaken; [apply returns_write_file|].
    intros ? s' [-> ->]. done. }
  intros ? s2 [Ho2 Hd2].
  apply _export_to_csv_returns. by rewrite Ho2, Hd2.
Qed.

(** A corpus with a string that cannot be encoded: the dump raises and
    leaves the corpus file cut short; nothing else is written. *)
Lemma save_dataset_not_encodable makedirs output_dir s docs :
  makedirs output_dir = Ok () ->
  corpus s = Some docs -> forallb json_encodable docs = false ->
  exists e,
    save_dataset makedirs output_dir s
    = (Raise e, {| objects := objects s; dataset := dataset s;
                   files := dict_set (path_join output_dir (lit "layout_dataset.json"))
                              Partial (files s) |}).
Proof.
  intros Hdir Hc Henc.
  unfold save_dataset, mbind, M_bind, lift. rewrite Hdir.
  unfold dump_dataset, mbind, M_bind, get_objects, get_dataset.
  destruct (mapM _ _) as [docs'|e] eqn:E.
  - apply dump_corpus in E as [Hc' Henc']. rewrite Hc in Hc'. injection Hc' as <-.
    by rewrite Henc in Henc'.
  - exists e. reflexivity.
Qed.

Lemma sample_clock_encodable f : encodable (sample_clock f) = true.
Proof. reflexivity. Qed.

Lemma sample_read_encodable f e : sample_read f = Raise e -> encodable (str e) = true.
Proof.
  unfold sample_read. repeat case_match; try discriminate. by intros [= <-].
Qed.

Lemma sample_service_encodable content :
  (forall e, sample_service content = Raise e -> encodable (str e) = true) /\
  (forall document, sample_service content = Ok document ->
                    encodable (text document) = true).
Proof.
  assert (H : sample_service content
              = Raise (Exception "InvalidArgument" (lit "400 Document is not a PDF")) \/
              sample_service content = Ok sample_document).
  { unfold sample_service. repeat case_match; auto. }
  destruct H as [-> | ->]; split; intros ? [= <-]; reflexivity.
Qed.

Lemma json_encodable_field k v s :
  json_encodable v = true -> v_field k v = Some (VStr s) -> encodable s = true.
Proof.
  destruct v as [| | | | | |kvs]; try discriminate. cbn [v_field json_encodable].
  induction kvs as [|[k' v'] kvs IH]; [discriminate|]. cbn [forallb dict_get].
  intros [[_ Hv]%andb_prop Hrest]%andb_prop.
  destruct (decide (k = k')); [|by apply IH]. by intros [= ->].
Qed.

Section Pipeline.
Variable path_exists : pystr -> bool.
Variable read_bytes : pystr -> result (list Byte.byte).
Variable process_document : list Byte.byte -> result Document.
Variable clock : pystr -> pystr.

Lemma process_pdf_ready pdf_path :
  export_ready_tree (process_pdf path_exists read_bytes process_document clock pdf_path)
  = true.
Proof.
  unfold process_pdf.
  destruct (process_pdf_try _ _ _ _ pdf_path) as [v|e] eqn:Htry.
  - apply process_pdf_try_ok in Htry as [document ->]. apply layout_record_ready.
  - reflexivity.
Qed.

Lemma batch_ready pdf_files :
  let s := process_all_pdfs path_exists read_bytes process_document clock
             pdf_files empty_state in
  corpus s = Some (map (process_pdf path_exists read_bytes process_document clock)
                     pdf_files) /\
  forallb (export_ready (objects s)) (dataset s) = true.
Proof.
  intros s.
  assert (Hc : corpus s = Some (map (process_pdf path_exists read_bytes process_document
                                       clock) pdf_files))
    by (subst s; by rewrite (corpus_process_all_pdfs _ _ _ _ pdf_files empty_state [])).
  split; [exact Hc|].
  set (docs := map _ pdf_files) in Hc.
  unfold corpus in Hc. apply mapM_Some in Hc.
  assert (Hall : Forall (fun D => export_ready_tree D = true) docs).
  { apply Forall_forall. intros D (f & <- & _)%list_elem_of_In%in_map_iff.
    apply process_pdf_ready. }
  induction Hc as [|r D ds docs' Hr _ IH]; [done|].
  apply Forall_cons in Hall as [HD Hall]. simpl.
  rewrite (export_ready_loaded _ _ r D Hr HD). by apply IH.
Qed.

Lemma process_pdf_file_path pdf_path :
  v_field (lit "file_path")
    (process_pdf path_exists read_bytes process_document clock pdf_path)
  = Some (VStr pdf_path).
Proof.
  unfold process_pdf.
  destruct (process_pdf_try _ _ _ _ pdf_path) as [v|e] eqn:Htry; [|reflexivity].
  apply process_pdf_try_ok in Htry as [document ->].
  rewrite layout_info_other by not_list_key. reflexivity.
Qed.

Lemma batch_not_encodable pdf_files :
  forallb encodable pdf_files = false ->
  forallb json_encodable
    (map (process_pdf path_exists read_bytes process_document clock) pdf_files) = false.
Proof.
  induction pdf_files as [|f fs IH]; [discriminate|]. simpl.
  intros [Hf|Hfs]%andb_false_iff; apply andb_false_iff; [left|right; by apply IH].
  destruct (json_encodable _) eqn:E; [|done].
  rewrite <- Hf. symmetry.
  eapply json_encodable_field; [exact E|apply process_pdf_file_path].
Qed.

(** The run of the parser's [main]: after a batch from an empty corpus,
    saving returns, provided the output directory can be made, the names
    of the files can be encoded as UTF-8, and so can what comes from
    outside (time stamps, error messages, document texts); the file
    system of the model accepts every write.  Nothing in the records
    the parser builds (failure records and the empty records of elements
    without layout included) then makes the corpus dump, the summary or
    the CSV export raise. *)
Theorem saving_a_batch_returns :
  forall makedirs pdf_files output_dir,
    makedirs output_dir = Ok () ->
    forallb encodable pdf_files = true ->
    (forall f, encodable (clock f) = true) ->
    (forall f e, read_bytes f = Raise e -> encodable (str e) = true) ->
    (forall content e, process_document content = Raise e -> encodable (str e) = true) ->
    (forall content document,
        process_document content = Ok document -> encodable (text document) = true) ->
    fst (save_dataset makedirs output_dir
           (process_all_pdfs path_exists read_bytes process_document clock
              pdf_files empty_state)) = Ok ().
Proof.
  intros makedirs pdf_files output_dir Hdir Hfiles Hclock Hread Hservice Htext.
  destruct (batch_ready pdf_files) as [Hc Hready].
  set (s := process_all_pdfs _ _ _ _ pdf_files empty_state) in *.
  assert (H : returns (save_dataset makedirs output_dir) s (fun _ _ => True)).
  { eapply save_dataset_returns; [exact Hdir|exact Hc| |exact Hready].
    by apply batch_encodable. }
  destruct H as ([] & s' & -> & _). reflexivity.
Qed.

(** A file whose name cannot be encoded as UTF-8 (a name with a lone
    surrogate, as the directory listing gives for a name that is not
    valid UTF-8) breaks saving: every record carries the path of its
    file, so the corpus dump raises, the corpus file is left cut short,
    and neither the summary nor the tables are written. *)
Theorem unencodable_file_name_breaks_saving :
  forall makedirs pdf_files output_dir,
    makedirs output_dir = Ok () ->
    forallb encodable pdf_files = false ->
    let s := process_all_pdfs path_exists read_bytes process_document clock
               pdf_files empty_state in
    exists e,
      save_dataset makedirs output_dir s
      = (Raise e, {| objects := objects s; dataset := dataset s;
                     files := [(path_join output_dir (lit "layout_dataset.json"),
                                Partial)] |}).
Proof.
  intros makedirs pdf_files output_dir Hdir Hfiles s.
  destruct (batch_ready pdf_files) as [Hc _]. fold s in Hc.
  destruct (save_dataset_not_encodable makedirs output_dir s _ Hdir Hc
              (batch_not_encodable pdf_files Hfiles)) as [e He].
  exists e. rewrite He. subst s.
  by rewrite files_process_all_pdfs.
Qed.
End Pipeline.

Lemma saving_a_batch_returns_witness :
  fst (save_dataset sample_makedirs (lit "output") sample_state) = Ok ().
Proof.
  apply (saving_a_batch_returns sample_exists sample_read sample_service sample_clock
           sample_makedirs sample_files (lit "output")).
  - reflexivity.
  - vm_compute. reflexivity.
  - apply sample_clock_encodable.
  - apply sample_read_encodable.
  - intros content. apply sample_service_encodable.
  - intros content. apply sample_service_encodable.
Defined.

Lemma unencodable_file_name_breaks_saving_witness :
  let s := process_all_pdfs sample_exists sample_read sample_service sample_clock
             [lit "pdfs/caf" ++ [56553%N] ++ lit ".pdf"] empty_state in
  exists e,
    save_dataset sample_makedirs (lit "output") s
    = (Raise e, {| objects := objects s; dataset := dataset s;
                   files := [(path_join (lit "output") (lit "layout_dataset.json"),
                              Partial)] |}).
Proof.
  apply (unencodable_file_name_breaks_saving sample_exists sample_read sample_service
           sample_clock sample_makedirs
           [lit "pdfs/caf" ++ [56553%N] ++ lit ".pdf"] (lit "output")).
  - reflexivity.
  - vm_compute. reflexivity.
Defined.

Lemma dict_get_json_image k kvs :
  dict_get k (map (fun '(k, v) => (k, json_image v)) kvs) = json_image <$> dict_get k kvs.
Proof.
  induction kvs as [|[k0 v0] kvs IH]; [done|]. simpl.
  by destruct (decide (k = k0)).
Qed.

Lemma trimmed_text_json_image p : trimmed_text (json_image p) = trimmed_text p.
Proof.
  unfold trimmed_text. destruct p as [| | | | | |kvs]; try reflexivity.
  cbn [json_image v_field]. rewrite dict_get_json_image.
  by destruct (dict_get (lit "text") kvs) as [[]|].
Qed.

Lemma is_successful_json_image doc : is_successful (json_image doc) = is_successful doc.
Proof.
  unfold is_successful. destruct doc as [| | | | | |kvs]; try reflexivity.
  cbn [json_image v_field]. rewrite dict_get_json_image.
  by destruct (dict_get (lit "status") kvs) as [[]|].
Qed.

Lemma wf_paragraph_json_image p : wf_paragraph (json_image p) = wf_paragraph p.
Proof.
  destruct p as [| | | | | |kvs]; try reflexivity.
  cbn [json_image wf_paragraph]. rewrite dict_get_json_image.
  by destruct (dict_get (lit "text") kvs) as [[]|].
Qed.

Lemma long_paragraphs_json_image min_length ps :
  long_paragraphs min_length (map json_image ps) = long_paragraphs min_length ps.
Proof.
  unfold long_paragraphs. induction ps as [|p ps IH]; [done|].
  simpl. rewrite trimmed_text_json_image.
  destruct (min_length <=? len (trimmed_text p)); simpl;
    rewrite ?trimmed_text_json_image; by rewrite IH.
Qed.

Lemma wf_doc_json_image min_length doc :
  wf_doc doc = true ->
  wf_doc (json_image doc) = true /\
  (if is_successful (json_image doc)
   then long_paragraphs min_length (paragraphs_of (json_image doc)) else [])
  = (if is_successful doc then long_paragraphs min_length (paragraphs_of doc) else []).
Proof.
  intros H. rewrite is_successful_json_image.
  destruct doc as [| | | | | |kvs]; try discriminate.
  unfold wf_doc in *. rewrite is_successful_json_image.
  destruct (is_successful (VDict kvs)); [|done].
  unfold paragraphs_of. cbn [json_image v_field]. rewrite dict_get_json_image.
  destruct (dict_get (lit "paragraphs") kvs) as [[| | | | |ps|]|]; try discriminate; [|done].
  cbn [fmap option_fmap option_map json_image].
  split; [|apply long_paragraphs_json_image].
  rewrite forallb_forall in H |- *. intros p (p0 & <- & Hp0)%in_map_iff.
  rewrite wf_paragraph_json_image. by apply H.
Qed.

Lemma corpus_json_image min_length docs :
  forallb wf_doc docs = true ->
  forallb wf_doc (map json_image docs) = true /\
  expected_records min_length (map json_image docs) = expected_records min_length docs.
Proof.
  unfold expected_records. induction docs as [|doc docs IH]; [done|].
  simpl. intros [Hd Hds]%andb_prop.
  destruct (wf_doc_json_image min_length doc Hd) as [-> ->].
  destruct (IH Hds) as [-> ->]. done.
Qed.

Lemma extract_llm_dataset_wf min_length docs :
  forallb wf_doc docs = true ->
  extract_llm_dataset min_length (Some (VList docs))
  = Ok (match expected_records min_length docs with
        | [] => None
        | records => Some records
        end).
Proof.
  intros H. unfold extract_llm_dataset. cbn [v_iter mbind result_bind].
  destruct (extract_docs_wf min_length docs [] 0 H) as [t ->].
  cbn [mbind result_bind app]. by destruct (expected_records min_length docs).
Qed.

Lemma each_from_wf {A} (f : A -> Z -> value) (xs : list A) : forall i,
  (forall a k, wf_paragraph (f a k) = true) -> forallb wf_paragraph (each_from f i xs) = true.
Proof.
  induction xs as [|a xs IH]; intros i Hf; [done|].
  simpl. rewrite Hf. by apply IH.
Qed.

Lemma children_of_wf {A} (sel : Page -> list A) (f : Z -> A -> Z -> value) pages : forall i,
  (forall n a k, wf_paragraph (f n a k) = true) ->
  forallb wf_paragraph (children_of sel f i pages) = true.
Proof.
  unfold children_of. induction pages as [|p pages IH]; intros i Hf; [done|].
  simpl. rewrite forallb_app, each_from_wf by auto. by apply IH.
Qed.

Lemma layout_record_wf document pdf_path timestamp :
  wf_doc (_extract_layout_info document pdf_path timestamp) = true.
Proof.
  destruct (_extract_layout_info_holds document pdf_path timestamp)
    as (d & E & _ & _ & Hpa & _).
  rewrite E. unfold wf_doc. destruct (is_successful (VDict d)); [|done].
  rewrite Hpa. unfold lists_from, no_lists; cbn [l_paragraphs app].
  apply children_of_wf. intros n element k.
  unfold text_element, _extract_text_element_info.
  by destruct (layout element).
Qed.

Section Parser_then_extractor.
Variable path_exists : pystr -> bool.
Variable read_bytes : pystr -> result (list Byte.byte).
Variable process_document : list Byte.byte -> result Document.
Variable clock : pystr -> pystr.

Lemma process_pdf_wf pdf_path :
  wf_doc (process_pdf path_exists read_bytes process_document clock pdf_path) = true.
Proof.
  unfold process_pdf.
  destruct (process_pdf_try _ _ _ _ pdf_path) as [v|e] eqn:Htry.
  - apply process_pdf_try_ok in Htry as [document ->]. apply layout_record_wf.
  - reflexivity.
Qed.

(** The extractor on the parser's own output.  After a batch from an
    empty corpus, when the output directory can be made and the names of
    the files and what comes from outside (time stamps, error messages,
    document texts) can be encoded as UTF-8, saving leaves in the corpus
    file one record per file, in order; the extractor, given that file
    as the JSON reader returns it (tuples read back as lists), does not
    raise and emits exactly the long paragraphs of those records, in
    order. *)
Theorem extractor_reads_what_the_parser_saves :
  forall makedirs pdf_files output_dir,
    makedirs output_dir = Ok () ->
    forallb encodable pdf_files = true ->
    (forall f, encodable (clock f) = true) ->
    (forall f e, read_bytes f = Raise e -> encodable (str e) = true) ->
    (forall content e, process_document content = Raise e -> encodable (str e) = true) ->
    (forall content document,
        process_document content = Ok document -> encodable (text document) = true) ->
    let s := process_all_pdfs path_exists read_bytes process_document clock
               pdf_files empty_state in
    let records := map (process_pdf path_exists read_bytes process_document clock)
                     pdf_files in
    dict_get (path_join output_dir (lit "layout_dataset.json"))
      (files (snd (save_dataset makedirs output_dir s)))
    = Some (JsonCorpus records) /\
    main (Some (json_image (VList records)))
    = Ok (match expected_records 50 records with
          | [] => None
          | lines => Some lines
          end).
Proof.
  intros makedirs pdf_files output_dir Hdir Hfiles Hclock Hread Hservice Htext s records.
  split.
  - destruct (save_dataset makedirs output_dir s) as [r s'] eqn:Hsave.
    destruct (batch_ready path_exists read_bytes process_document clock pdf_files)
      as [Hc Hready].
    fold s records in Hc, Hready.
    assert (Hr : r = Ok ()).
    { pose proof (f_equal fst Hsave) as Hfst. simpl in Hfst. rewrite <- Hfst.
      assert (H : returns (save_dataset makedirs output_dir) s (fun _ _ => True)).
      { eapply save_dataset_returns; [exact Hdir|exact Hc| |exact Hready].
        by apply batch_encodable. }
      destruct H as ([] & s'' & -> & _). reflexivity. }
    subst r. simpl.
    unfold save_dataset in Hsave.
    apply bind_returns in Hsave as ([] & s0 & H0 & Hsave).
    unfold lift in H0. injection H0 as _ <-.
    apply bind_returns in Hsave as ([] & s1 & H1 & Hsave).
    apply bind_returns in Hsave as ([] & s2 & H2 & H3).
    apply dump_dataset_returns in H1 as (docs & Hdocs & _ & ->).
    apply _create_summary_statistics_returns in H2 as (summary & Hsum & ->).
    rewrite Hc in Hdocs. injection Hdocs as <-.
    replace s' with (snd (_export_to_csv output_dir
                   {| objects := objects s; dataset := dataset s;
                      files := dict_set (path_join output_dir (lit "dataset_summary.json"))
                                 (JsonObject summary)
                                 (dict_set (path_join output_dir (lit "layout_dataset.json"))
                                    (JsonCorpus records) (files s)) |}))
      by (simpl in H3; by rewrite H3).
    rewrite writes_only__export_to_csv.
    + simpl. rewrite dict_get_set_other, dict_get_set_same; [done|].
      intros E. apply path_join_inj in E. vm_compute in E. discriminate E.
    + simpl. intros [E|[E|[E|[]]]]; apply path_join_inj in E; vm_compute in E; discriminate E.
  - assert (Hwf : forallb wf_doc records = true).
    { apply forallb_forall. intros D (f & <- & _)%in_map_iff. apply process_pdf_wf. }
    destruct (corpus_json_image 50 records Hwf) as [Hwf' <-].
    unfold main. cbn [json_image]. by apply extract_llm_dataset_wf.
Qed.
End Parser_then_extractor.

Lemma extractor_reads_what_the_parser_saves_witness :
  let records := map sample_process_pdf sample_files in
  dict_get (path_join (lit "output") (lit "layout_dataset.json"))
    (files (snd (save_dataset sample_makedirs (lit "output") sample_state)))
  = Some (JsonCorpus records) /\
  main (Some (json_image (VList records)))
  = Ok (match expected_records 50 records with
        | [] => None
        | lines => Some lines
        end).
Proof.
  apply (extractor_reads_what_the_parser_saves sample_exists sample_read sample_service
           sample_clock sample_makedirs sample_files (lit "output")).
  - reflexivity.
  - vm_compute. reflexivity.
  - apply sample_clock_encodable.
  - apply sample_read_encodable.
  - intros content. apply sample_service_encodable.
  - intros content. apply sample_service_encodable.
Defined.
